(** * AitherZero / powershellsec tools: PWDumpX and lsadump2

    A shallow embedding of the byte-level and control-flow logic of
    [PWDumpX/Source/DumpExt.c], [PWDumpX/Source/DumpSvc.c],
    [PWDumpX/Source/PWDumpX.c], [lsadump2/dumplsa.c] and
    [lsadump2/lsadump2.c], with the properties the specification states
    about them and further properties of the same routines.

    Conventions.  A [BYTE] is a [Z] in [0, 256); a [DWORD] is a [Z] reduced
    modulo [2^32] wherever the C code computes with it.  Operating-system
    calls are oracles: their results are parameters of the model, and the
    calls a routine makes are recorded as a list of events. *)

From Stdlib Require Import ZArith List Lia Bool String Ascii DecimalString.
From Stdlib Require DecimalZ DecimalPos.
From Equations Require Import Equations.
Import ListNotations.
Open Scope Z_scope.

(* ===================================================================== *)
(** * Bytes, words and C formatting                                       *)
(* ===================================================================== *)

Module Fmt.

Definition is_byte (b : Z) : Prop := 0 <= b < 256.
Definition is_bytes (l : list Z) : Prop := Forall is_byte l.

Definition is_byteb (b : Z) : bool := (0 <=? b) && (b <? 256).

(** [DWORD] arithmetic wraps around. *)
Definition wrap32 (z : Z) : Z := z mod 2 ^ 32.

(** The character [printf("%c", b)] emits for a byte value. *)
Definition char_of_byte (b : Z) : ascii := ascii_of_N (Z.to_N b).

(** One upper-case hexadecimal digit, as [%X] prints it. *)
Definition hex_digit (d : Z) : ascii :=
  if d <? 10 then char_of_byte (48 + d) else char_of_byte (55 + d).

(** [sprintf(p, "%02X", b)] for a [BYTE] argument. *)
Definition fmt_02X (b : Z) : string :=
  String (hex_digit (b / 16)) (String (hex_digit (b mod 16)) EmptyString).

(** [for (j = lo; j < hi; j++) { sprintf(p, "%02X", bytes[j]); p += 2; }] *)
Definition hex_of_bytes (l : list Z) : string :=
  String.concat "" (map fmt_02X l).

(** The value of a hexadecimal digit character; used to read dumps back. *)
Definition hex_value (c : ascii) : option Z :=
  let n := Z.of_N (N_of_ascii c) in
  if (48 <=? n) && (n <=? 57) then Some (n - 48)
  else if (65 <=? n) && (n <=? 70) then Some (n - 55)
  else None.

(** [%*s] with an empty string: [n] blanks. *)
Fixpoint spaces (n : nat) : string :=
  match n with
  | O => EmptyString
  | S n' => String " " (spaces n')
  end.

(** The bytes [l[off .. off+len)]. *)
Definition sub (l : list Z) (off len : nat) : list Z := firstn len (skipn off l).

(** A C string stored in a [char] array: the characters before the first
    NUL. *)
Fixpoint cstr (l : list Z) : list Z :=
  match l with
  | [] => []
  | c :: l' => if c =? 0 then [] else c :: cstr l'
  end.

Definition string_of_bytes (l : list Z) : string :=
  string_of_list_ascii (map char_of_byte l).

(** Little-endian load of the [i]-th 32-bit word of a byte buffer, as the
    x86 reads an [unsigned] array laid over it. *)
Definition word_le (l : list Z) (i : nat) : Z :=
  nth (4 * i) l 0 + 256 * nth (4 * i + 1) l 0
  + 65536 * nth (4 * i + 2) l 0 + 16777216 * nth (4 * i + 3) l 0.

End Fmt.
Import Fmt.

(* ===================================================================== *)
(** * HexDumper: [DumpSecretData] (DumpExt.c) and [dump_bytes] (dumplsa.c) *)
(* ===================================================================== *)

Module HexDumper.

(** DumpExt.c, [IsReadableChar]. *)
Definition IsReadableChar (nChar : Z) : bool :=
  (32 <=? nChar) && (nChar <=? 126).

(** dumplsa.c, [myisprint]. *)
Definition myisprint (ch : Z) : bool :=
  (32 <=? ch) && (ch <=? 126).

(** One [" %02X"] conversion. *)
Definition fmt_group (b : Z) : string := String " " (fmt_02X b).

(** The sixteen-byte [sprintf] of the [while (dwSize > 16)] loop: sixteen
    [" %02X"] groups, two blanks, sixteen [%c]. *)
Definition fmt_full_row (isprint : Z -> bool) (p : list Z) : string :=
  let g := firstn 16 p in
  (String.concat "" (map fmt_group g) ++ "  "
   ++ string_of_list_ascii
        (map (fun b => if isprint b then char_of_byte b else "."%char) g))%string.

(** The [while (dwSize--)] loop of the last row: appends one group to
    [szDumpBuff] and one character to [szTempBuffer] per byte. *)
Fixpoint tail_loop (isprint : Z -> bool) (p : list Z)
    (szDumpBuff : string) (szTempBuffer : list ascii) : string * list ascii :=
  match p with
  | [] => (szDumpBuff, szTempBuffer)
  | b :: p' =>
      tail_loop isprint p' (szDumpBuff ++ fmt_group b)%string
        (szTempBuffer ++ [if isprint b then char_of_byte b else "."%char])
  end.

(** The last row: [j = 16 - dwSize], then ["%*s%s"] with width [j*3 + 2]. *)
Definition fmt_tail_row (isprint : Z -> bool) (p : list Z) : string :=
  let j := (16 - List.length p)%nat in
  let '(szDumpBuff, szTempBuffer) := tail_loop isprint p EmptyString [] in
  (szDumpBuff ++ spaces (j * 3 + 2) ++ string_of_list_ascii szTempBuffer)%string.

Definition newline : string := String (ascii_of_nat 10) EmptyString.

(** The common shape of [DumpSecretData] (DumpExt.c) and [dump_bytes]
    (dumplsa.c), which differ only in the name of the printable test and in
    where the newline is added: rows of sixteen bytes while more than
    sixteen remain ([while (dwSize > 16)]), then one last row for the 1 to
    16 bytes left ([if (dwSize > 0)]).  [p] holds the [dwSize] bytes. *)
Equations? dump_rows (isprint : Z -> bool) (p : list Z) : list string
    by wf (List.length p) lt :=
  dump_rows isprint p with lt_dec 16 (List.length p) => {
    | left _ := fmt_full_row isprint p :: dump_rows isprint (skipn 16 p);
    | right _ := if Nat.ltb 0 (List.length p)
                 then [fmt_tail_row isprint p]
                 else [] }.
Proof.
  change (List.length (skipn 16 p) < List.length p)%nat.
  rewrite length_skipn. lia.
Qed.

(** DumpExt.c, [DumpSecretData]: the texts appended to LSASecrets.txt by
    [fprintf(pOutputFile, "%s\n", szDumpBuff)], in order. *)
Definition DumpSecretData (p : list Z) : list string :=
  map (fun szDumpBuff => (szDumpBuff ++ newline)%string)
      (dump_rows IsReadableChar p).

(** dumplsa.c, [dump_bytes]: the texts passed to [SendText], in order; the
    newline is part of the format string there. *)
Definition dump_bytes (p : list Z) : list string :=
  map (fun row => (row ++ newline)%string) (dump_rows myisprint p).

End HexDumper.

(* ===================================================================== *)
(** * CacheDecoder: the per-record body of [DumpPWCache] (DumpExt.c)      *)
(* ===================================================================== *)

Module CacheDecoder.

(** [md5.h] and [rc4.h] are not among the sources; [DumpPWCache] uses them
    through this interface.  A context is fed byte strings and finished
    into the 16 bytes of [bDigest]; [rc4_crypt] transforms the bytes it is
    given, in place. *)
Class CryptoPrimitives : Type := {
  md5_context : Type;
  md5_starts : md5_context;
  md5_update : md5_context -> list Z -> md5_context;
  md5_finish : md5_context -> list Z;
  rc4_state : Type;
  rc4_setup : list Z -> rc4_state;
  rc4_crypt : rc4_state -> list Z -> list Z
}.

(** What the decoder relies on: feeding a context in two pieces is feeding
    it the concatenation, and the stream cipher keeps the length. *)
Class CryptoLaws (cp : CryptoPrimitives) : Prop := {
  md5_update_app :
    forall c a b, md5_update (md5_update c a) b = md5_update c (a ++ b);
  rc4_crypt_length :
    forall s d, List.length (rc4_crypt s d) = List.length d
}.

(** A stand-in instance used to run the model on concrete records: the
    digest is the first 16 bytes of the zero-padded input, the cipher XORs
    every byte with the first key byte. *)
#[local] Instance stand_in : CryptoPrimitives := {
  md5_context := list Z;
  md5_starts := [];
  md5_update := fun c d => c ++ d;
  md5_finish := fun c => firstn 16 (c ++ repeat 0 16);
  rc4_state := Z;
  rc4_setup := fun key => nth 0 key 0;
  rc4_crypt := fun s d => map (fun b => Z.lxor b s) d
}.

Definition byte_at (buf : list Z) (i : Z) : Z := nth (Z.to_nat i) buf 0.

(** [memset( k_ipad, 0x36, 64 ); memset( k_opad, 0x5c, 64 );] *)
Definition k_ipad : list Z := repeat 0x36 64.
Definition k_opad : list Z := repeat 0x5c 64.

(** [for (j = 0; j < 64; j++) bKey[j] = pLsaKey[j] ^ pad[j];] *)
Definition xor_key (pLsaKey pad : list Z) : list Z :=
  map (fun j => Z.lxor (nth j pLsaKey 0) (nth j pad 0)) (seq 0 64).

(** Behaviour the C code leaves undefined, made explicit. *)
Inductive undefined : Type :=
| KeyOverread       (* pLsaKey[j] read past the end of the secret's buffer *)
| CryptLengthWraps  (* dwSize - 96 computed on a DWORD below 96 *)
| NameOverflow.     (* terminating NUL stored at index 128 of a CHAR[128] *)

Section Decoder.
Context {cp : CryptoPrimitives}.

(** md5_starts / md5_update / md5_update / md5_finish. *)
Definition md5_two (a b : list Z) : list Z :=
  md5_finish (md5_update (md5_update md5_starts a) b).

(** Lines 300-317: derive the session key and decrypt [bCacheVal + 96] for
    [dwSize - 96] bytes, in place. *)
Definition unprotect (pLsaKey bCacheVal : list Z) (dwSize : Z)
  : undefined + list Z :=
  if (List.length pLsaKey <? 64)%nat then inl KeyOverread else
  let bKey1 := xor_key pLsaKey k_ipad in
  let bKey2 := xor_key pLsaKey k_opad in
  let bDigest := md5_two bKey1 (sub bCacheVal 64 16) in
  let bDigest := md5_two bKey2 bDigest in
  if dwSize <? 96 then inl CryptLengthWraps else
  let n := Z.to_nat (dwSize - 96) in
  inr (firstn 96 bCacheVal
       ++ rc4_crypt (rc4_setup bDigest) (sub bCacheVal 96 n)
       ++ skipn (96 + n) bCacheVal).

End Decoder.

(** [dwJoke[0] = 2 * ( ( dwUsername / 2 ) % 2 )], and likewise [dwJoke[1]]. *)
Definition dwJoke (dwLen : Z) : Z := 2 * ((dwLen / 2) mod 2).

(** [for (j = 0; j < dwLen; j = j + 2) { sz[k] = bCacheVal[base + j]; k++; }]:
    [j] takes the values 0, 2, 4, ... below [dwLen], that is
    [(dwLen + 1) / 2] of them. *)
Definition narrow (bCacheVal : list Z) (base dwLen : Z) : list Z :=
  map (fun k => byte_at bCacheVal (base + 2 * Z.of_nat k))
      (seq 0 (Z.to_nat ((dwLen + 1) / 2))).

Record CacheEntry : Type := {
  szUsername : list Z;   (* before the terminating NUL *)
  verifier : list Z;     (* bCacheVal[96 .. 112) *)
  szDomain : list Z;
  szDNSDomain : list Z
}.

(** Lines 319-353 and 377-380: the three narrowing copies into
    [CHAR[128]] arrays and the sixteen verifier bytes. *)
Definition extract (bCacheVal : list Z) (dwUsername dwDomain dwDNSDomain : Z)
  : undefined + CacheEntry :=
  let user := narrow bCacheVal 168 dwUsername in
  let dom := narrow bCacheVal (168 + dwUsername + dwJoke dwUsername) dwDomain in
  let dns := narrow bCacheVal
               (168 + dwUsername + dwJoke dwUsername + dwDomain + dwJoke dwDomain)
               dwDNSDomain in
  if ((128 <=? List.length user) || (128 <=? List.length dom)
      || (128 <=? List.length dns))%nat
  then inl NameOverflow
  else inr {| szUsername := user; verifier := sub bCacheVal 96 16;
              szDomain := dom; szDNSDomain := dns |}.

(** [fprintf "%s:"], sixteen ["%02X"], [fprintf ":%s:%s\n"]. *)
Definition cache_line (e : CacheEntry) : string :=
  (string_of_bytes (cstr (szUsername e)) ++ ":" ++ hex_of_bytes (verifier e)
   ++ ":" ++ string_of_bytes (cstr (szDomain e)) ++ ":"
   ++ string_of_bytes (cstr (szDNSDomain e)) ++ HexDumper.newline)%string.

Inductive record_result : Type :=
| Skipped                                       (* no output, next NL$i *)
| Undefined (u : undefined)
| Decoded (bCacheVal' : list Z) (e : CacheEntry).

Section Loop.
Context {cp : CryptoPrimitives}.

(** Lines 292-386: one pass of the loop body, after [RegQueryValueEx] has
    stored [dwSize] bytes at the start of the 4096-byte [bCacheVal]. *)
Definition DumpPWCache_record (pLsaKey bCacheVal : list Z) (dwSize : Z)
  : record_result :=
  if dwSize =? 0 then Skipped else
  let dwUsername := byte_at bCacheVal 0 in
  let dwDomain := byte_at bCacheVal 2 in
  let dwDNSDomain := byte_at bCacheVal 60 in
  if dwUsername =? 0 then Skipped else
  match unprotect pLsaKey bCacheVal dwSize with
  | inl u => Undefined u
  | inr bCacheVal' =>
      match extract bCacheVal' dwUsername dwDomain dwDNSDomain with
      | inl u => Undefined u
      | inr e => Decoded bCacheVal' e
      end
  end.

(** [bCacheVal] after a record has been handled. *)
Definition buffer_after (r : record_result) (bCacheVal : list Z) : list Z :=
  match r with
  | Decoded bCacheVal' _ => bCacheVal'
  | _ => bCacheVal
  end.

(** Lines 279-388: [for ( i = 1; TRUE; i++ )] over the values NL$1, NL$2, ...
    of the Cache key; [values] lists their data up to the first name that
    is absent.  A value larger than the buffer makes [RegQueryValueEx] fail
    and ends the loop like an absent name.  The buffer is not cleared
    between records, so a record shorter than the previous one leaves the
    previous bytes behind it. *)
Fixpoint DumpPWCache_loop (pLsaKey bCacheVal : list Z) (values : list (list Z))
  : list record_result :=
  match values with
  | [] => []
  | data :: rest =>
      if (4096 <? List.length data)%nat then [] else
      let buf := data ++ skipn (List.length data) bCacheVal in
      let r := DumpPWCache_record pLsaKey buf (Z.of_nat (List.length data)) in
      match r with
      | Undefined _ => [r]
      | _ => r :: DumpPWCache_loop pLsaKey (buffer_after r buf) rest
      end
  end.

(** The lines appended to PWCache.txt. *)
Definition cache_lines (rs : list record_result) : list string :=
  flat_map (fun r => match r with Decoded _ e => [cache_line e] | _ => [] end) rs.

End Loop.

Section Specification.
Context {cp : CryptoPrimitives}.

(** The buffer after the decryption, in the terms of the specification:
    HMAC-MD5 of the 16 bytes at offset 64 under the first 64 key bytes
    gives the session key; the bytes from 96 up to the record length are
    run through the stream cipher; the rest is untouched. *)
Definition MD5 (m : list Z) : list Z := md5_finish (md5_update md5_starts m).

Definition HMAC_MD5 (K m : list Z) : list Z :=
  MD5 (map (fun b => Z.lxor b 0x5c) K ++ MD5 (map (fun b => Z.lxor b 0x36) K ++ m)).

Definition decrypted_record (pLsaKey bCacheVal : list Z) (dwSize : Z) : list Z :=
  let sessionKey := HMAC_MD5 (firstn 64 pLsaKey) (sub bCacheVal 64 16) in
  firstn 96 bCacheVal
  ++ rc4_crypt (rc4_setup sessionKey) (sub bCacheVal 96 (Z.to_nat (dwSize - 96)))
  ++ skipn (Z.to_nat dwSize) bCacheVal.

End Specification.

(** ** Sample data, to run the decoder on *)

(** A 64-byte master-key buffer, and a 16-byte one. *)
Definition sample_key64 : list Z := map Z.of_nat (seq 1 64).
Definition sample_key16 : list Z := map Z.of_nat (seq 1 16).

(** The clear 96-byte header of a record: username length 8 at offset 0,
    domain length 4 at offset 2, DNS-domain length 0 at offset 60, and a
    16-byte field at offset 64. *)
Definition sample_header : list Z :=
  [8; 0; 4; 0] ++ repeat 0 60 ++ map Z.of_nat (seq 16 16) ++ repeat 0 16.

(** The clear text of the protected part: the verifier, filler up to
    offset 168, "user" and "DM" in UTF-16, and two more bytes. *)
Definition sample_payload : list Z :=
  map Z.of_nat (seq 160 16) ++ repeat 0 56
  ++ [0x75; 0; 0x73; 0; 0x65; 0; 0x72; 0] ++ [0x44; 0; 0x4D; 0] ++ [0; 0].

(** The record as stored, protected with the stand-in primitives. *)
Definition sample_record : list Z :=
  let inner := md5_two (cp := stand_in) (xor_key sample_key64 k_ipad)
                 (sub sample_header 64 16) in
  let key := md5_two (cp := stand_in) (xor_key sample_key64 k_opad) inner in
  sample_header ++ rc4_crypt (rc4_setup key) sample_payload.

(** A second record: username "bob" (6 bytes, hence 2 bytes of padding),
    domain "DM" (4 bytes, no padding), DNS domain "d.x" (6 bytes). *)
Definition padded_header : list Z :=
  [6; 0; 4; 0] ++ repeat 0 56 ++ [6; 0; 0; 0] ++ map Z.of_nat (seq 32 16)
  ++ repeat 0 16.

Definition padded_payload : list Z :=
  map Z.of_nat (seq 176 16) ++ repeat 0 56
  ++ [0x62; 0; 0x6F; 0; 0x62; 0] ++ [0xEE; 0xEE] ++ [0x44; 0; 0x4D; 0]
  ++ [0x64; 0; 0x2E; 0; 0x78; 0].

Definition padded_record : list Z :=
  let inner := md5_two (cp := stand_in) (xor_key sample_key64 k_ipad)
                 (sub padded_header 64 16) in
  let key := md5_two (cp := stand_in) (xor_key sample_key64 k_opad) inner in
  padded_header ++ rc4_crypt (rc4_setup key) padded_payload.

(** The 4096-byte [bCacheVal] after [data] has been stored in it, the rest
    holding [fill]. *)
Definition buffer_holding (data : list Z) (fill : Z) : list Z :=
  data ++ repeat fill (4096 - List.length data).

(** A 100-byte record: a header announcing an 8-byte username, and four
    protected bytes. *)
Definition short_record : list Z := sample_header ++ [1; 2; 3; 4].

End CacheDecoder.

(* ===================================================================== *)
(** * AccountStore: hash rendering in [DumpPWHashes] and                  *)
(** * [DumpPWHistoryHashes] (DumpExt.c)                                   *)
(* ===================================================================== *)

Module AccountStore.

Definition NO_PASSWORD : string := "NO PASSWORD*********************".

(** Lines 777-791 (and 1006-1020, 1097-1111): [HashData[4..7]] are the four
    32-bit words laid over bytes 16..31 of the blob. *)
Definition render_lm (bHashData : list Z) : string :=
  if (word_le bHashData 4 =? 0x35b4d3aa) && (word_le bHashData 5 =? 0xee0414b5)
     && (word_le bHashData 6 =? 0x35b4d3aa) && (word_le bHashData 7 =? 0xee0414b5)
  then NO_PASSWORD
  else hex_of_bytes (sub bHashData 16 16).

(** Lines 793-807 (and 1022-1036, 1113-1127): [HashData[0..3]], bytes 0..15. *)
Definition render_nt (bHashData : list Z) : string :=
  if (word_le bHashData 0 =? 0xe0cfd631) && (word_le bHashData 1 =? 0x31e96ad1)
     && (word_le bHashData 2 =? 0xd7593cb7) && (word_le bHashData 3 =? 0xc089c0e0)
  then NO_PASSWORD
  else hex_of_bytes (sub bHashData 0 16).

(** [%d] applied to a [DWORD]: the value read as a signed 32-bit integer. *)
Definition fmt_d (dw : Z) : string :=
  NilZero.string_of_int (Z.to_int (if dw <? 2 ^ 31 then dw else dw - 2 ^ 32)).

(** Line 829 (and 1058): ["%s:%d:%s:%s:::\n"]. *)
Definition hash_line (szUsername : string) (Rid : Z) (bHashData : list Z) : string :=
  (szUsername ++ ":" ++ fmt_d Rid ++ ":" ++ render_lm bHashData ++ ":"
   ++ render_nt bHashData ++ ":::" ++ HexDumper.newline)%string.

(** Line 1149: ["%s_hist_%d:%d:%s:%s:::\n"]. *)
Definition history_line (szUsername : string) (j Rid : Z) (bHashData : list Z)
  : string :=
  (szUsername ++ "_hist_" ++ fmt_d j ++ ":" ++ fmt_d Rid ++ ":"
   ++ render_lm bHashData ++ ":" ++ render_nt bHashData ++ ":::"
   ++ HexDumper.newline)%string.

(** The two RID-keyed decode calls of advapi32, opaque here.  Each gets the
    memory from the ciphertext pointer on and the RID, and on success
    ([nStatus >= 0]) has written 16 bytes. *)
Class HistoryPrimitives : Type := {
  SystemFunction025 : list Z -> Z -> option (list Z);
  SystemFunction027 : list Z -> Z -> option (list Z)
}.

(** A stand-in for the two decode calls, used to run the model: each
    returns the 16 bytes at the pointer, XOR-ed with the low byte of the
    RID. *)
Definition xor_decode : HistoryPrimitives := {|
  SystemFunction025 :=
    fun mem Rid => Some (map (fun b => Z.lxor b (Rid mod 256)) (firstn 16 mem));
  SystemFunction027 :=
    fun mem Rid => Some (map (fun b => Z.lxor b (Rid mod 256)) (firstn 16 mem))
|}.

(** A 100-byte private-data blob whose count byte at 0x3C is 16. *)
Definition short_history_blob : list Z := repeat 0 60 ++ [16] ++ repeat 0 39.

(** A 200-byte private-data blob whose count byte at 0x3C is 32. *)
Definition two_slot_blob : list Z := repeat 0 60 ++ [32] ++ repeat 7 139.

(** What the per-account code writes: a line of PWHistoryHashes.txt, or a
    line of the error log. *)
Inductive event : Type :=
| EvLine (text : string)
| EvErrorLog (msg : string).

Definition is_error (e : event) : bool :=
  match e with EvErrorLog _ => true | EvLine _ => false end.

Definition SAM_HISTORY_COUNT_OFFSET : Z := 0x3C.
Definition SAM_HISTORY_NTLM_OFFSET : Z := 0x3C.

(** Lines 1072-1081: the values [j] takes in the history loop, given the
    status of [SamIGetPrivateData] and the [dwSize] bytes it returned. *)
Definition history_slots (nStatus : Z) (pHashData : list Z) : list Z :=
  let dwSize := Z.of_nat (List.length pHashData) in
  if (0 <=? nStatus) && (0x3c <? dwSize) then
    let dwHashes := CacheDecoder.byte_at pHashData SAM_HISTORY_COUNT_OFFSET / 16 in
    let dwOffset := CacheDecoder.byte_at pHashData SAM_HISTORY_NTLM_OFFSET in
    if (0 <? dwHashes) && (dwOffset + 0x64 <? dwSize)
    then map Z.of_nat (seq 1 (Z.to_nat dwHashes))
    else []
  else [].

Section History.
Context {hp : HistoryPrimitives}.

(** Lines 1083-1153: one pass of the loop, [pHashDataHistory] having been
    advanced by 0x10 bytes [j] times.  The first call fills [HashData]
    bytes 0..15, the second bytes 16..31. *)
Definition history_slot (szUsername : string) (Rid : Z) (pHashData : list Z)
    (j : Z) : list event :=
  let dwOffset := CacheDecoder.byte_at pHashData SAM_HISTORY_NTLM_OFFSET in
  let pHashDataHistory := 0x10 * j in
  match SystemFunction025
          (skipn (Z.to_nat (pHashDataHistory + 0x44)) pHashData) Rid with
  | None => []
  | Some lo =>
      match SystemFunction027
              (skipn (Z.to_nat (pHashDataHistory + 0x44 + dwOffset)) pHashData)
              Rid with
      | None => []
      | Some hi => [EvLine (history_line szUsername j Rid (lo ++ hi))]
      end
  end.

(** Lines 1065-1159: what is written for the history of one account. *)
Definition history_events (szUsername : string) (Rid nStatus : Z)
    (pHashData : list Z) : list event :=
  flat_map (history_slot szUsername Rid pHashData)
           (history_slots nStatus pHashData).

End History.

(** The published constants for an empty password. *)
Definition empty_lm_hash : list Z :=
  [0xAA; 0xD3; 0xB4; 0x35; 0xB5; 0x14; 0x04; 0xEE;
   0xAA; 0xD3; 0xB4; 0x35; 0xB5; 0x14; 0x04; 0xEE].
Definition empty_nt_hash : list Z :=
  [0x31; 0xD6; 0xCF; 0xE0; 0xD1; 0x6A; 0xE9; 0x31;
   0xB7; 0x3C; 0x59; 0xD7; 0xE0; 0xC0; 0x89; 0xC0].

End AccountStore.

(* ===================================================================== *)
(** * SecretStore: [DumpLSASecrets] (DumpExt.c) and [DumpLsa] (dumplsa.c) *)
(* ===================================================================== *)

Module SecretStore.

(** [LSA_UNICODE_STRING.Length] is a [USHORT]. *)
Definition wrap16 (z : Z) : Z := z mod 2 ^ 16.

(** The calls into lsasrv.dll, as oracles: the status of opening the
    secret named by the buffer with a given [Length], and the status and
    data of querying it. *)
Record lsa_os : Type := {
  LsarOpenSecret : list Z -> Z -> Z;
  LsarQuerySecret : list Z -> Z * option (list Z)
}.

Inductive event : Type :=
| EvOpenSecret (wszSecret : list Z) (Length : Z)
| EvQuerySecret (wszSecret : list Z)
| EvOutput (text : string)             (* fprintf to LSASecrets.txt / SendText *)
| EvFormatted (format : string) (rc : Z)     (* SendText of a formatted status *)
| EvErrorLog (msg : string)            (* WriteToErrorLog; the C literal *)
| EvClose.

Definition wcslen (wszSecret : list Z) : Z := Z.of_nat (List.length wszSecret).

(** The multi-byte form of the name, as printed with [%s]. *)
Definition szSecret (wszSecret : list Z) : string := string_of_bytes (cstr wszSecret).

(** DumpExt.c lines 491-545: query, print, close. *)
Definition DumpLSASecrets_query (os : lsa_os) (wszSecret : list Z) : list event :=
  let '(nStatus, lsaData) := LsarQuerySecret os wszSecret in
  EvQuerySecret wszSecret ::
  (if 0 <=? nStatus then
     EvOutput (szSecret wszSecret ++ HexDumper.newline)%string ::
     match lsaData with
     | Some p => map EvOutput (HexDumper.DumpSecretData p)
                 ++ [EvOutput HexDumper.newline]
     | None => []
     end
   else [EvErrorLog "ERROR! Cannot query LSA Secret on remote host.\n"])
  ++ [EvClose].

(** DumpExt.c lines 470-545: the loop body for one enumerated name. *)
Definition DumpLSASecrets_name (os : lsa_os) (wszSecret : list Z) : list event :=
  let Length := wrap16 (wcslen wszSecret * 2) in
  EvOpenSecret wszSecret Length ::
  if LsarOpenSecret os wszSecret Length <? 0 then
    let Length := wrap16 (Length + 2) in
    EvOpenSecret wszSecret Length ::
    if LsarOpenSecret os wszSecret Length <? 0 then []   (* continue *)
    else DumpLSASecrets_query os wszSecret
  else DumpLSASecrets_query os wszSecret.

(** DumpExt.c lines 461-546: [names] are the subkeys [RegEnumKeyW] yields. *)
Definition DumpLSASecrets (os : lsa_os) (names : list (list Z)) : list event :=
  flat_map (DumpLSASecrets_name os) names.

(** dumplsa.c lines 221-245. *)
Definition DumpLsa_query (os : lsa_os) (wszSecret : list Z) : list event :=
  let '(rc, lsaData) := LsarQuerySecret os wszSecret in
  EvQuerySecret wszSecret ::
  (if rc <? 0 then [EvFormatted "LsarQuerySecret failed : 0x%08x\n" rc]
   else
     EvOutput (szSecret wszSecret) :: EvOutput HexDumper.newline ::
     match lsaData with
     | Some p => map EvOutput (HexDumper.dump_bytes p)
     | None => []
     end)
  ++ [EvClose].

(** dumplsa.c lines 199-245: the loop body for one enumerated name. *)
Definition DumpLsa_name (os : lsa_os) (wszSecret : list Z) : list event :=
  let Length := wrap16 (wcslen wszSecret * 2) in
  EvOpenSecret wszSecret Length ::
  if LsarOpenSecret os wszSecret Length <? 0 then
    let Length := wrap16 (Length + 2) in
    EvOpenSecret wszSecret Length ::
    let rc := LsarOpenSecret os wszSecret Length in
    if rc <? 0 then [EvFormatted "LsarOpenSecret failed : 0x%08X" rc]  (* continue *)
    else DumpLsa_query os wszSecret
  else DumpLsa_query os wszSecret.

(** dumplsa.c lines 187-246. *)
Definition DumpLsa (os : lsa_os) (names : list (list Z)) : list event :=
  flat_map (DumpLsa_name os) names.

Definition is_open (e : event) : bool :=
  match e with EvOpenSecret _ _ => true | _ => false end.

(** An operating system that refuses every open (STATUS_ACCESS_DENIED,
    0xC0000022 read as a signed status). *)
Definition denying_os : lsa_os := {|
  LsarOpenSecret := fun _ _ => 0xC0000022 - 2 ^ 32;
  LsarQuerySecret := fun _ => (0, None)
|}.

(** An operating system that knows the secrets only with the terminating
    null counted in their length: an open succeeds when [Length] is the
    byte length of the name plus 2. *)
Definition null_counting_os : lsa_os := {|
  LsarOpenSecret := fun wszSecret Length =>
    if Length =? 2 * Z.of_nat (List.length wszSecret) + 2
    then 0 else 0xC0000034 - 2 ^ 32;
  LsarQuerySecret := fun _ => (0, Some [0x41; 0x42])
|}.

(** An error report of either tool: a line in the error log, or a
    formatted failure text sent down the pipe. *)
Definition is_error (e : event) : bool :=
  match e with EvErrorLog _ | EvFormatted _ _ => true | _ => false end.

End SecretStore.

(* ===================================================================== *)
(** * ExtractionEngine: [DumpLSAInfo] (DumpExt.c)                         *)
(* ===================================================================== *)

Module Engine.

(** The registry calls of lines 74-86, as oracles: the three status codes
    ([ERROR_SUCCESS] is 0) and the string left in [szCurrentVersion]. *)
Record registry : Type := {
  RegConnectRegistry : Z;
  RegOpenKeyEx : Z;
  RegQueryValueEx : Z;
  szCurrentVersion : string
}.

Inductive event : Type :=
| RunDumpPWCache
| RunDumpLSASecrets
| RunDumpPWHashes
| RunDumpPWHistoryHashes
| RegCloseKey
| EncryptOutputFile (szFile : string)
| WriteToErrorLog (szErrorMsg : string).   (* the C literal *)

Definition ERROR_SUCCESS : Z := 0.

(** [atoi] of the two-character array [{c, '\0'}]: a decimal digit gives
    its value, anything else gives 0. *)
Definition atoi1 (c : ascii) : Z :=
  let n := Z.of_N (N_of_ascii c) in
  if (48 <=? n) && (n <=? 57) then n - 48 else 0.

(** Lines 72-119. *)
Definition cache_category (reg : registry) : list event :=
  (if RegConnectRegistry reg =? ERROR_SUCCESS then
     (if RegOpenKeyEx reg =? ERROR_SUCCESS then
        (if RegQueryValueEx reg =? ERROR_SUCCESS then
           match szCurrentVersion reg with
           | EmptyString => []
           | String c _ => if 4 <? atoi1 c then [RunDumpPWCache] else []
           end
         else [WriteToErrorLog "ERROR! Cannot read registry value HKLM\\SOFTWARE\\Microsoft\\Windows NT\\CurrentVersion\\\\CurrentVersion on remote host.\n"])
      else [WriteToErrorLog "ERROR! Cannot open registry key HKLM\\SOFTWARE\\Microsoft\\Windows NT\\CurrentVersion on remote host.\n"])
     ++ [RegCloseKey]
   else [WriteToErrorLog "ERROR! Cannot open registry key HKLM on remote host.\n"])
  ++ [EncryptOutputFile "PWCache.txt"].

(** Lines 64-141. *)
Definition DumpLSAInfo (reg : registry)
    (bDumpPWCache bDumpLSASecrets bDumpPWHashes bDumpPWHistoryHashes : bool)
  : list event :=
  (if bDumpPWCache then cache_category reg else [])
  ++ (if bDumpLSASecrets
      then [RunDumpLSASecrets; EncryptOutputFile "LSASecrets.txt"] else [])
  ++ (if bDumpPWHashes
      then [RunDumpPWHashes; EncryptOutputFile "PWHashes.txt"] else [])
  ++ (if bDumpPWHistoryHashes
      then [RunDumpPWHistoryHashes; EncryptOutputFile "PWHistoryHashes.txt"]
      else []).

Definition is_error (e : event) : bool :=
  match e with WriteToErrorLog _ => true | _ => false end.

(** A registry whose three calls succeed and report the given version. *)
Definition registry_reporting (version : string) : registry := {|
  RegConnectRegistry := 0; RegOpenKeyEx := 0; RegQueryValueEx := 0;
  szCurrentVersion := version
|}.

End Engine.

(* ===================================================================== *)
(** * Injector: [InjectDLL] (DumpSvc.c) and [InjectDll] (lsadump2.c)      *)
(* ===================================================================== *)

Module Injector.

(** 32-bit layout of [THREAD_ARGS] (DumpSvc.c): three function pointers,
    [CHAR[512]], [CHAR[128]], four [BOOL]. *)
Definition sizeof_THREAD_ARGS : Z := 3 * 4 + 512 + 128 + 4 * 4.

(** 32-bit layout of [REMOTE_INFO] (lsadump2.h): three function pointers and
    three [CHAR[MAX_PATH+1]] with [MAX_PATH] = 260, rounded up to the
    4-byte alignment of the pointers. *)
Definition sizeof_REMOTE_INFO : Z := 4 * ((3 * 4 + 3 * (260 + 1) + 3) / 4).

(** What a [WriteProcessMemory] copies. *)
Inductive source : Type :=
| ArgumentBlock          (* &ThreadArgs / &remInfo *)
| CodeAt (addr : Z).     (* the routine at this local address *)

Inductive event : Type :=
| EvVirtualAllocEx (dwSize : Z)
| EvWriteProcessMemory (lpBaseAddress : Z) (lpBuffer : source) (nSize : Z)
| EvCreateRemoteThread (lpStartAddress lpParameter : Z)
| EvWaitForSingleObject
| EvCloseHandle
| EvVirtualFreeEx (lpAddress : Z)
| EvError (msg : string).      (* WriteToErrorLog / fprintf(stderr); the C literal *)

(** The operating system, as oracles.  Pointers and handles are numbers,
    0 is NULL; the two writes may succeed or fail independently. *)
Record inject_os : Type := {
  OpenProcess : Z;
  pLoadLibrary : Z;
  pGetProcAddress : Z;
  pFreeLibrary : Z;
  VirtualAllocEx : Z -> Z;
  WriteProcessMemory_args : bool;
  WriteProcessMemory_code : bool;
  CreateRemoteThread : Z
}.

(** [(DWORD)Dummy - (DWORD)Thunk]: the distance between the addresses of
    the marker routine and of the routine to transplant. *)
Definition function_size (dummy thunk : Z) : Z := wrap32 (wrap32 dummy - wrap32 thunk).

(** DumpSvc.c lines 321-397; [LsaThreadFunction] and [DummyFunction] are
    the addresses of the two static routines. *)
Definition InjectDLL (os : inject_os) (LsaThreadFunction DummyFunction : Z)
  : list event :=
  if OpenProcess os =? 0
  then [EvError "ERROR! Cannot open LSASS process on remote host.\n"] else
  if (pLoadLibrary os =? 0) || (pGetProcAddress os =? 0) || (pFreeLibrary os =? 0)
  then [EvError "ERROR! Cannot load Kernel32.dll functions on remote host.\n"] else
  let dwFunctionSize := function_size DummyFunction LsaThreadFunction in
  let dwBytesToAlloc := wrap32 (dwFunctionSize + sizeof_THREAD_ARGS + 4) in
  let pRemoteAlloc := VirtualAllocEx os dwBytesToAlloc in
  EvVirtualAllocEx dwBytesToAlloc ::
  if pRemoteAlloc =? 0
  then [EvError "ERROR! Cannot allocate virtual memory on remote host.\n"] else
  EvWriteProcessMemory pRemoteAlloc ArgumentBlock sizeof_THREAD_ARGS ::
  if negb (WriteProcessMemory_args os)
  then [EvError "ERROR! Cannot write to process memory on remote host.\n"] else
  EvWriteProcessMemory (pRemoteAlloc + sizeof_THREAD_ARGS + 4)
                       (CodeAt LsaThreadFunction) dwFunctionSize ::
  if negb (WriteProcessMemory_code os)
  then [EvError "ERROR! Cannot write to process memory on remote host.\n"] else
  EvCreateRemoteThread (pRemoteAlloc + sizeof_THREAD_ARGS + 4) pRemoteAlloc ::
  if CreateRemoteThread os =? 0
  then [EvError "ERROR! Cannot create LSASS thread on remote host.\n"] else
  [EvWaitForSingleObject; EvCloseHandle; EvVirtualFreeEx pRemoteAlloc].

(** lsadump2.c lines 239-318.  The three loader addresses are stored in
    [remInfo] without a test; every path after a successful allocation
    goes through the [exit] label. *)
Definition InjectDll (os : inject_os) (RemoteFunction DummyFunc : Z)
  : list event :=
  let dwFuncSize := function_size DummyFunc RemoteFunction in
  let dwBytesToAlloc := wrap32 (dwFuncSize + sizeof_REMOTE_INFO + 4) in
  let pRemoteAlloc := VirtualAllocEx os dwBytesToAlloc in
  EvVirtualAllocEx dwBytesToAlloc ::
  if pRemoteAlloc =? 0 then [EvError "VirtualAllocEx failed: %d\n"] else
  let exit (hRemoteThread : Z) :=
    (if hRemoteThread =? 0 then [] else [EvCloseHandle])
    ++ [EvVirtualFreeEx pRemoteAlloc] in
  EvWriteProcessMemory pRemoteAlloc ArgumentBlock sizeof_REMOTE_INFO ::
  if negb (WriteProcessMemory_args os)
  then EvError "WriteProcessMemory failed: %d\n" :: exit 0 else
  EvWriteProcessMemory (pRemoteAlloc + sizeof_REMOTE_INFO + 4)
                       (CodeAt RemoteFunction) dwFuncSize ::
  if negb (WriteProcessMemory_code os)
  then EvError "WriteProcessMemory failed: %d\n" :: exit 0 else
  let hRemoteThread := CreateRemoteThread os in
  EvCreateRemoteThread (pRemoteAlloc + sizeof_REMOTE_INFO + 4) pRemoteAlloc ::
  if hRemoteThread =? 0
  then EvError "CreateRemoteThread failed: %d\n" :: exit 0 else
  EvWaitForSingleObject :: exit hRemoteThread.

(** An operating system on which every call succeeds; the allocation is
    placed at 0x00A30000. *)
Definition obliging_os : inject_os := {|
  OpenProcess := 0x1F4;
  pLoadLibrary := 0x7C801D7B; pGetProcAddress := 0x7C80AE40;
  pFreeLibrary := 0x7C80AC7E;
  VirtualAllocEx := fun _ => 0x00A30000;
  WriteProcessMemory_args := true; WriteProcessMemory_code := true;
  CreateRemoteThread := 0x1F8
|}.

(** The same, except that the second [WriteProcessMemory] fails. *)
Definition code_write_fails_os : inject_os := {|
  OpenProcess := 0x1F4;
  pLoadLibrary := 0x7C801D7B; pGetProcAddress := 0x7C80AE40;
  pFreeLibrary := 0x7C80AC7E;
  VirtualAllocEx := fun _ => 0x00A30000;
  WriteProcessMemory_args := true; WriteProcessMemory_code := false;
  CreateRemoteThread := 0x1F8
|}.

(** The layout an event must respect, for an argument block of [size]
    bytes, a routine of [n] bytes at local address [code], and a remote
    allocation at [base]. *)
Definition respects_layout (size n code base : Z) (ev : event) : Prop :=
  match ev with
  | EvVirtualAllocEx dwSize => dwSize = size + 4 + n
  | EvWriteProcessMemory dst src len =>
      (src = ArgumentBlock /\ dst = base /\ len = size)
      \/ (src = CodeAt code /\ dst = base + size + 4 /\ len = n)
  | EvCreateRemoteThread start arg => start = base + size + 4 /\ arg = base
  | _ => True
  end.

Definition is_free (e : event) : bool :=
  match e with EvVirtualFreeEx _ => true | _ => false end.
Definition is_error (e : event) : bool :=
  match e with EvError _ => true | _ => false end.

End Injector.

(* ===================================================================== *)
(** * Reading a dump back                                                 *)
(* ===================================================================== *)

Module HexReader.

(** The groups [" XX"] at the start of a text, as bytes; reading stops at
    the first place that is not a blank followed by two hexadecimal
    digits. *)
Fixpoint read_groups (s : string) : list Z :=
  match s with
  | String " " (String a (String b rest)) =>
      match hex_value a, hex_value b with
      | Some hi, Some lo => (16 * hi + lo) :: read_groups rest
      | _, _ => []
      end
  | _ => []
  end.

(** The bytes shown by a sequence of dump rows. *)
Definition undump (texts : list string) : list Z := flat_map read_groups texts.

(** A character in the range 0x20 .. 0x7E. *)
Definition printable (c : ascii) : bool :=
  let n := Z.of_N (N_of_ascii c) in (32 <=? n) && (n <=? 126).

Fixpoint all_printable (s : string) : bool :=
  match s with
  | EmptyString => true
  | String c s' => printable c && all_printable s'
  end.

(** A row in closed form: the groups of its bytes, the blanks that fill
    the hexadecimal column up to sixteen groups and separate it from the
    text column, and one character per byte. *)
Definition row_of (isprint : Z -> bool) (g : list Z) : string :=
  (String.concat "" (map HexDumper.fmt_group g)
   ++ spaces ((16 - List.length g) * 3 + 2)
   ++ string_of_list_ascii
        (map (fun b => if isprint b then char_of_byte b else "."%char) g))%string.

End HexReader.

(* ===================================================================== *)
(** * Transit obfuscation: [Obfuscate], [EncryptOutputFile] (DumpExt.c),  *)
(** * [DecryptOutputFile] (PWDumpX.c)                                     *)
(* ===================================================================== *)

Module Obfuscation.

(** [strlen] of a buffer: the number of characters before the first NUL. *)
Definition strlen (szData : list Z) : nat := List.length (cstr szData).

(** [szData[i] ^ 1]. *)
Definition flip (c : Z) : Z := Z.lxor c 1.

(** DumpExt.c lines 1256-1275 and PWDumpX.c lines 777-796, which are the
    same text: every character below [strlen] is XOR-ed with 1, then
    [szData[i] = '\0'] with [i = dwSize].  The buffer is returned. *)
Definition Obfuscate (szData : list Z) : list Z :=
  let dwSize := strlen szData in
  map flip (firstn dwSize szData) ++ [0] ++ skipn (S dwSize) szData.

(** The two routines open their files with [fopen( ..., "r" )] and
    [fopen( ..., "a+" )], that is in the text mode of the Microsoft C
    runtime the Win32 program is linked with.  What a stream opened for
    reading delivers for the bytes of a file: the input ends at the first
    CTRL+Z (0x1A), and a carriage return directly followed by a line feed
    is dropped. *)
Fixpoint text_in (bytes : list Z) : list Z :=
  match bytes with
  | [] => []
  | c :: rest =>
      if c =? 26 then []
      else if c =? 13 then
        match rest with
        | c' :: _ => if c' =? 10 then text_in rest else c :: text_in rest
        | [] => c :: text_in rest
        end
      else c :: text_in rest
  end.

(** What such a stream puts into the file for the characters [fprintf]
    hands it: a line feed is written as carriage return, line feed. *)
Definition text_out (chars : list Z) : list Z :=
  flat_map (fun c => if c =? 10 then [13; 10] else [c]) chars.

(** [fopen( szOutputFile, "a+" )] on the bytes of the file: a CTRL+Z that
    ends the file is removed before anything is appended. *)
Definition open_append (file : list Z) : list Z :=
  match rev file with
  | c :: r => if c =? 26 then rev r else file
  | [] => file
  end.

(** [fgets( szLine, n + 1, f )] on the characters the stream still has to
    deliver: at most [n] characters, up to and including the first
    newline; the characters read and what is left of the stream. *)
Fixpoint fgets_take (n : nat) (content : list Z) : list Z * list Z :=
  match n, content with
  | S n', c :: rest =>
      if c =? 10 then ([c], rest)
      else let '(line, rest') := fgets_take n' rest in (c :: line, rest')
  | _, _ => ([], content)
  end.

(** [sizeof( szLine )]. *)
Definition LINE_SIZE : nat := 1024.

(** The loop of [EncryptOutputFile] (DumpExt.c lines 1219-1245) and of
    [DecryptOutputFile] (PWDumpX.c lines 740-766), which are the same text:
    while [fgets] delivers a line, the output file is opened for appending
    and the result of [Obfuscate] on the line is written with
    [fprintf "%s"], unless that [fopen] fails.  [stream] is what the input
    stream still has to deliver, [i] counts the passes, [can_append i]
    tells whether the [fopen] of pass [i] succeeds, [file] holds the bytes
    of the output file; the result is the bytes of the output file when
    the loop ends. *)
Equations? obfuscate_lines (can_append : nat -> bool) (i : nat)
    (stream file : list Z) : list Z by wf (List.length stream) lt :=
  obfuscate_lines can_append i [] file := file;
  obfuscate_lines can_append i (c :: stream') file :=
    obfuscate_lines can_append (S i)
      (snd (fgets_take (LINE_SIZE - 1) (c :: stream')))
      (if can_append i
       then open_append file
            ++ text_out
                 (cstr (Obfuscate
                          (fst (fgets_take (LINE_SIZE - 1) (c :: stream'))
                           ++ [0])))
       else file).
Proof.
  assert (H : forall n l, (List.length (snd (fgets_take n l)) <= List.length l)%nat).
  { induction n as [| n IH]; intros [| x l]; cbn; try lia.
    destruct (x =? 10); [cbn; lia |].
    specialize (IH l). destruct (fgets_take n l). cbn in *. lia. }
  change (List.length (snd (fgets_take (S (LINE_SIZE - 2)) (c :: stream')))
          < S (List.length stream'))%nat.
  cbn [fgets_take]. destruct (c =? 10); [cbn; lia |].
  specialize (H (LINE_SIZE - 2)%nat stream').
  destruct (fgets_take (LINE_SIZE - 2) stream'). cbn in *. lia.
Qed.

(** DumpExt.c lines 1215-1248: the bytes of the [.Obfuscated] file after
    the loop, for an input file holding the bytes [szFile] and an output
    file holding [szOutputFile] beforehand (nothing when it does not
    exist).  [CopyFile] then puts them in place of the input file. *)
Definition EncryptOutputFile_text (can_append : nat -> bool)
    (szFile szOutputFile : list Z) : list Z :=
  obfuscate_lines can_append 0 (text_in szFile) szOutputFile.

(** PWDumpX.c lines 736-769, likewise. *)
Definition DecryptOutputFile_text (can_append : nat -> bool)
    (szFile szOutputFile : list Z) : list Z :=
  obfuscate_lines can_append 0 (text_in szFile) szOutputFile.

(** A text holds neither a NUL nor the character 0x01. *)
Definition clean (text : list Z) : Prop :=
  Forall (fun c => is_byte c /\ c <> 0 /\ c <> 1) text.

Definition cleanb (text : list Z) : bool :=
  forallb (fun c => is_byteb c && negb (c =? 0) && negb (c =? 1)) text.

(** A text holds none of NUL, 0x01, CTRL+Z (0x1A) and ESC (0x1B): the
    characters that [Obfuscate] turns into, or makes out of, a terminator
    or an end-of-file mark. *)
Definition plain (text : list Z) : Prop :=
  Forall (fun c => is_byte c /\ c <> 0 /\ c <> 1 /\ c <> 26 /\ c <> 27) text.

Definition plainb (text : list Z) : bool :=
  forallb (fun c => is_byteb c && negb (c =? 0) && negb (c =? 1)
                    && negb (c =? 26) && negb (c =? 27)) text.

End Obfuscation.

(* ===================================================================== *)
(** * AccountDump: the enumeration of [DumpPWHashes] and                  *)
(** * [DumpPWHistoryHashes] (DumpExt.c)                                   *)
(* ===================================================================== *)

Module AccountDump.

(** An entry of the enumeration buffer: the RID, and the name as
    [wcstombs] leaves it in [szUsername] (names fit its 256 bytes). *)
Record sam_user : Type := { Rid : Z; Name : string }.

(** What successive calls of [SamrEnumerateUsersInDomain] return: a page
    with status 0x105 ("more entries") and then the next call, a last page
    with status 0, or a call with any other status. *)
Inductive enumeration : Type :=
| More (users : list sam_user) (next : enumeration)
| Done (users : list sam_user)
| Failed (nEnumStatus : Z).

(** The calls into advapi32.dll and samsrv.dll, as oracles. *)
Record sam_os : Type := {
  functions_loaded : bool;               (* every GetProcAddress succeeded *)
  LsaOpenPolicy : Z;
  LsaQueryInformationPolicy : Z;
  SamIConnect : Z;
  SamrOpenDomain : Z;
  SamrEnumerateUsersInDomain : enumeration;
  SamrOpenUser : Z -> Z;                   (* by RID *)
  SamrQueryInformationUser : Z -> Z * list Z;
  SamIGetPrivateData : Z -> Z * list Z;    (* status, the dwSize bytes *)
  can_append : bool                        (* fopen( ..., "a+" ) succeeds *)
}.

(** What the code holds and must give back.  (The module handle of
    samsrv.dll is apart: see [FreeLibrary] below.) *)
Inductive resource : Type :=
| LsaPolicy             (* LsaOpenPolicy / LsaClose *)
| DomainInfo            (* LsaQueryInformationPolicy / LsaFreeMemory *)
| SamServer             (* SamIConnect / SamrCloseHandle *)
| Domain                (* SamrOpenDomain / SamrCloseHandle *)
| EnumBuffer            (* SamrEnumerateUsersInDomain /
                           SamIFree_SAMPR_ENUMERATION_BUFFER *)
| User (rid : Z)        (* SamrOpenUser / SamrCloseHandle *)
| UserInfo (rid : Z)    (* SamrQueryInformationUser /
                           SamIFree_SAMPR_USER_INFO_BUFFER *)
| PrivateData (rid : Z). (* SamIGetPrivateData / LocalFree *)

Inductive event : Type :=
| Acquire (r : resource)
| Release (r : resource)
| Line (text : string)           (* a line of the output file *)
| ErrorLog (msg : string)        (* WriteToErrorLog; the C literal *)
| FreeLibrary.                   (* FreeLibrary( hSAMSrv ) *)

(** Lines 767-834 (and 996-1063): one line for the 32 bytes copied from
    the returned buffer, if the output file opens. *)
Definition current_hash (os : sam_os) (u : sam_user) (pHashData : list Z)
  : list event :=
  if can_append os
  then [Line (AccountStore.hash_line (Name u) (Rid u) (firstn 32 pHashData))]
  else [].

(** Lines 755-838: the body of [for ( i = 0; i < dwNumber; i++ )] in
    [DumpPWHashes]. *)
Definition hashes_user (os : sam_os) (u : sam_user) : list event :=
  if 0 <=? SamrOpenUser os (Rid u) then
    Acquire (User (Rid u)) ::
    (let '(nStatus, pHashData) := SamrQueryInformationUser os (Rid u) in
     if 0 <=? nStatus then
       Acquire (UserInfo (Rid u)) :: current_hash os u pHashData
       ++ [Release (UserInfo (Rid u))]
     else [])
    ++ [Release (User (Rid u))]
  else [].

Section History.
Context {hp : AccountStore.HistoryPrimitives}.

Definition history_event (os : sam_os) (e : AccountStore.event) : list event :=
  match e with
  | AccountStore.EvLine text => if can_append os then [Line text] else []
  | AccountStore.EvErrorLog msg => [ErrorLog msg]
  end.

(** Lines 1065-1159: the private data of the account.  A call that
    succeeds and reports [dwSize > 0] has allocated that many bytes; the
    buffer is released with [LocalFree] inside the test on its size. *)
Definition private_data (os : sam_os) (u : sam_user) : list event :=
  let '(nStatus, pHashData) := SamIGetPrivateData os (Rid u) in
  (if (0 <=? nStatus) && negb (Nat.eqb (List.length pHashData) 0)
   then [Acquire (PrivateData (Rid u))] else [])
  ++ (if (0 <=? nStatus) && (0x3c <? Z.of_nat (List.length pHashData))
      then flat_map (history_event os)
             (AccountStore.history_events (Name u) (Rid u) nStatus pHashData)
           ++ [Release (PrivateData (Rid u))]
      else []).

(** Lines 984-1163: the body of the loop in [DumpPWHistoryHashes]. *)
Definition history_user (os : sam_os) (u : sam_user) : list event :=
  if 0 <=? SamrOpenUser os (Rid u) then
    Acquire (User (Rid u)) ::
    (let '(nStatus, pHashData) := SamrQueryInformationUser os (Rid u) in
     if 0 <=? nStatus then
       Acquire (UserInfo (Rid u)) :: current_hash os u pHashData
       ++ [Release (UserInfo (Rid u))] ++ private_data os u
     else [])
    ++ [Release (User (Rid u))]
  else [].

End History.

(** Lines 745-843 (and 974-1168): the [do ... while ( nEnumStatus == 0x105 )]
    loop; a page is handled when its status is 0 or 0x105. *)
Fixpoint enumerate (per_user : sam_user -> list event) (e : enumeration)
  : list event :=
  match e with
  | More users next =>
      Acquire EnumBuffer :: flat_map per_user users ++ [Release EnumBuffer]
      ++ enumerate per_user next
  | Done users =>
      Acquire EnumBuffer :: flat_map per_user users ++ [Release EnumBuffer]
  | Failed _ => []
  end.

(** The frame the two routines share, line for line: load the functions,
    open the policy, query the account domain, connect, open the domain,
    enumerate, and undo each step. *)
Definition dump_accounts (os : sam_os) (per_user : sam_user -> list event)
  : list event :=
  if functions_loaded os then
    (if 0 <=? LsaOpenPolicy os then
       Acquire LsaPolicy ::
       (if 0 <=? LsaQueryInformationPolicy os then
          Acquire DomainInfo ::
          (if 0 <=? SamIConnect os then
             Acquire SamServer ::
             (if 0 <=? SamrOpenDomain os then
                Acquire Domain
                :: enumerate per_user (SamrEnumerateUsersInDomain os)
                ++ [Release Domain]
              else [ErrorLog "ERROR! Cannot open SAM on remote host.\n"])
             ++ [Release SamServer]
           else [ErrorLog "ERROR! Cannot connect to SAM on remote host.\n"])
          ++ [Release DomainInfo]
        else [ErrorLog "ERROR! Cannot query LSA information policy on remote host.\n"])
       ++ [Release LsaPolicy]
     else [ErrorLog "ERROR! Cannot open LSA policy on remote host.\n"])
    ++ [FreeLibrary]
  else [ErrorLog "ERROR! Cannot load SAM functions on remote host.\n"].

(** DumpExt.c lines 665-879. *)
Definition DumpPWHashes (os : sam_os) : list event :=
  dump_accounts os (hashes_user os).

(** DumpExt.c lines 881-1204. *)
Definition DumpPWHistoryHashes {hp : AccountStore.HistoryPrimitives}
    (os : sam_os) : list event :=
  dump_accounts os (history_user os).

(** The entries of all the pages handled. *)
Fixpoint all_users (e : enumeration) : list sam_user :=
  match e with
  | More users next => users ++ all_users next
  | Done users => users
  | Failed _ => []
  end.

Definition resource_eqb (a b : resource) : bool :=
  match a, b with
  | LsaPolicy, LsaPolicy | DomainInfo, DomainInfo | SamServer, SamServer
  | Domain, Domain | EnumBuffer, EnumBuffer => true
  | User r, User r' | UserInfo r, UserInfo r'
  | PrivateData r, PrivateData r' => r =? r'
  | _, _ => false
  end.

(** Every release gives back the resource acquired last, and nothing is
    held at the end. *)
Fixpoint lifo (held : list resource) (evs : list event) : bool :=
  match evs with
  | [] => match held with [] => true | _ => false end
  | Acquire r :: evs' => lifo (r :: held) evs'
  | Release r :: evs' =>
      match held with
      | r' :: held' => resource_eqb r r' && lifo held' evs'
      | [] => false
      end
  | _ :: evs' => lifo held evs'
  end.

Definition lines (evs : list event) : list string :=
  flat_map (fun e => match e with Line text => [text] | _ => [] end) evs.

Definition errors (evs : list event) : list string :=
  flat_map (fun e => match e with ErrorLog msg => [msg] | _ => [] end) evs.

(** The four steps before the enumeration all succeed. *)
Definition reaches_enumeration (os : sam_os) : bool :=
  functions_loaded os && (0 <=? LsaOpenPolicy os)
  && (0 <=? LsaQueryInformationPolicy os) && (0 <=? SamIConnect os)
  && (0 <=? SamrOpenDomain os).

(** The account is opened and its hashes are returned. *)
Definition queried (os : sam_os) (u : sam_user) : bool :=
  (0 <=? SamrOpenUser os (Rid u))
  && (0 <=? fst (SamrQueryInformationUser os (Rid u))).

(** [SamIGetPrivateData] returns no buffer for the account, or one of more
    than 0x3c bytes. *)
Definition private_data_released (os : sam_os) (u : sam_user) : bool :=
  (fst (SamIGetPrivateData os (Rid u)) <? 0)
  || Nat.eqb (List.length (snd (SamIGetPrivateData os (Rid u)))) 0
  || (0x3c <? Z.of_nat (List.length (snd (SamIGetPrivateData os (Rid u))))).

(** An operating system on which every step succeeds and the accounts come
    in two pages. *)
Definition two_pages_os : sam_os := {|
  functions_loaded := true;
  LsaOpenPolicy := 0; LsaQueryInformationPolicy := 0;
  SamIConnect := 0; SamrOpenDomain := 0;
  SamrEnumerateUsersInDomain :=
    More [{| Rid := 500; Name := "Administrator" |}]
         (Done [{| Rid := 501; Name := "Guest" |}]);
  SamrOpenUser := fun rid => if rid =? 501 then 0xC0000022 - 2 ^ 32 else 0;
  SamrQueryInformationUser :=
    fun _ => (0, AccountStore.empty_nt_hash ++ AccountStore.empty_lm_hash);
  SamIGetPrivateData := fun _ => (0, repeat 0 40);
  can_append := true
|}.

(** The same, with a history of two slots for every account. *)
Definition two_slots_os : sam_os := {|
  functions_loaded := true;
  LsaOpenPolicy := 0; LsaQueryInformationPolicy := 0;
  SamIConnect := 0; SamrOpenDomain := 0;
  SamrEnumerateUsersInDomain :=
    SamrEnumerateUsersInDomain two_pages_os;
  SamrOpenUser := SamrOpenUser two_pages_os;
  SamrQueryInformationUser := SamrQueryInformationUser two_pages_os;
  SamIGetPrivateData := fun _ => (0, AccountStore.two_slot_blob);
  can_append := true
|}.

End AccountDump.

(* ===================================================================== *)
(** * Options: the option string of [main] (PWDumpX.c)                    *)
(* ===================================================================== *)

Module Options.

(** The characters of a literal, as [char] values. *)
Definition chars (s : string) : list Z :=
  map (fun a => Z.of_N (N_of_ascii a)) (list_ascii_of_string s).

(** [strlwr] and [strupr] in the C locale. *)
Definition strlwr (s : list Z) : list Z :=
  map (fun c => if (65 <=? c) && (c <=? 90) then c + 32 else c) s.
Definition strupr (s : list Z) : list Z :=
  map (fun c => if (97 <=? c) && (c <=? 122) then c - 32 else c) s.

(** [strcmp( a, b ) == 0]. *)
Definition strcmp_eq (a b : list Z) : bool :=
  if list_eq_dec Z.eq_dec a b then true else false.

(** The five locals the option loop sets. *)
Record options : Type := {
  bContinue : bool;
  bDumpPWCache : bool;
  bDumpLSASecrets : bool;
  bDumpPWHashes : bool;
  bDumpPWHistoryHashes : bool
}.

(** Lines 105-128: the body of the loop over [szArguments]. *)
Definition scan_argument (o : options) (c : Z) : options := {|
  bContinue :=
    if negb (c =? 45) && negb (c =? 99) && negb (c =? 108)
       && negb (c =? 112) && negb (c =? 104)
    then false else bContinue o;
  bDumpPWCache := if c =? 99 then true else bDumpPWCache o;
  bDumpLSASecrets := if c =? 108 then true else bDumpLSASecrets o;
  bDumpPWHashes := if c =? 112 then true else bDumpPWHashes o;
  bDumpPWHistoryHashes := if c =? 104 then true else bDumpPWHistoryHashes o
|}.

(** Lines 83-129: [argv[1]] copied, lower-cased and scanned up to its
    terminator. *)
Definition scan_arguments (arg : list Z) : options :=
  fold_left scan_argument (strlwr (cstr arg))
    {| bContinue := true; bDumpPWCache := false; bDumpLSASecrets := false;
       bDumpPWHashes := false; bDumpPWHistoryHashes := false |}.

(** What [main] does with its command line: print the usage text, run
    with four category flags, or copy an argument of 128 characters or
    more into a 128-byte local with [strcpy]. *)
Inductive outcome : Type :=
| Usage
| Overrun
| Run (cache secrets hashes history : bool).

Definition fits (arg : list Z) : bool :=
  Z.of_nat (List.length (cstr arg)) <? 128.

(** Lines 58-132 and 279-287; [argv] includes the program name. *)
Definition main_options (argv : list (list Z)) : outcome :=
  match argv with
  | [_; target; username; password] =>
      if fits target && fits username && fits password
      then Run false false true false else Overrun
  | [_; arguments; target; username; password] =>
      if fits arguments && fits target && fits username && fits password
      then let o := scan_arguments arguments in
           if bContinue o
           then Run (bDumpPWCache o) (bDumpLSASecrets o) (bDumpPWHashes o)
                    (bDumpPWHistoryHashes o)
           else Usage
      else Overrun
  | _ => Usage
  end.

End Options.

(* ===================================================================== *)
(** * Service: [GetLSASSPID] and [DumpInformation] (DumpSvc.c)            *)
(* ===================================================================== *)

Module Service.

(** What the calls answer for one entry of [dwProcessIDs]:
    [OpenProcess], [EnumProcessModules], and the name [GetModuleBaseName]
    stores in [szProcessName] ([None]: the call fails and leaves the
    buffer as it was; its result is not tested). *)
Record process : Type := {
  pid : Z;
  opens : bool;
  modules : bool;
  base_name : option (list Z)
}.

Inductive event : Type :=
| EvOpenProcess (dwProcessID : Z)
| EvCloseHandle (dwProcessID : Z)
| EvFreeLibrary                       (* FreeLibrary( hPSAPI ) *)
| EvOpenToken
| EvCloseToken
| EvEnablePrivilege      (* AdjustTokenPrivileges( hToken, FALSE, &tp, ... ) *)
| EvDisableAllPrivileges (* AdjustTokenPrivileges( hToken, TRUE, NULL, ... ) *)
| EvInject (e : Injector.event)
| EvErrorLog (msg : string).          (* WriteToErrorLog; the C literal *)

Definition LSASS_EXE : list Z := Options.chars "LSASS.EXE".

(** Lines 236-265: the loop over the process IDs; [szProcessName] is the
    content of the name buffer when the pass begins. *)
Fixpoint scan (szProcessName : list Z) (ps : list process)
  : option Z * list event :=
  match ps with
  | [] => (None, [])
  | p :: ps' =>
      if pid p =? 0 then scan szProcessName ps'
      else if negb (opens p) then scan szProcessName ps'
      else if negb (modules p) then
        let '(r, evs) := scan szProcessName ps' in
        (r, EvOpenProcess (pid p) :: EvCloseHandle (pid p) :: evs)
      else
        let szProcessName' :=
          Options.strupr (match base_name p with
                          | Some name => name
                          | None => szProcessName
                          end) in
        if Options.strcmp_eq szProcessName' LSASS_EXE
        then (Some (pid p), [EvOpenProcess (pid p); EvCloseHandle (pid p)])
        else
          let '(r, evs) := scan szProcessName' ps' in
          (r, EvOpenProcess (pid p) :: EvCloseHandle (pid p) :: evs)
  end.

(** The operating system of the service, as oracles. *)
Record service_os : Type := {
  psapi_loaded : bool;                     (* the three GetProcAddress *)
  EnumProcesses : option (list process);   (* None: the call fails *)
  uninitialised : list Z;                  (* szProcessName at entry *)
  OpenProcessToken : bool;
  LookupPrivilegeValue : bool;
  AdjustTokenPrivileges : bool;
  lsass : Injector.inject_os;
  LsaThreadFunction : Z;
  DummyFunction : Z
}.

(** Lines 207-276: [bReturn] with [*dwLSASSPID], as an option. *)
Definition GetLSASSPID (os : service_os) : option Z * list event :=
  if psapi_loaded os then
    match EnumProcesses os with
    | Some dwProcessIDs =>
        let '(r, evs) := scan (uninitialised os) dwProcessIDs in
        (r, evs ++ [EvFreeLibrary])
    | None => (None, [EvFreeLibrary])
    end
  else
    (None, [EvErrorLog "ERROR! Cannot load Psapi.dll functions on remote host.\n"]).

(** Lines 161-205. *)
Definition DumpInformation (os : service_os) : list event :=
  let '(r, evs) := GetLSASSPID os in
  evs ++
  match r with
  | Some dwLSASSPID =>
      if OpenProcessToken os then
        EvOpenToken ::
        (if LookupPrivilegeValue os then
           if AdjustTokenPrivileges os then
             EvEnablePrivilege ::
             map EvInject
               (Injector.InjectDLL (lsass os) (LsaThreadFunction os)
                  (DummyFunction os))
             ++ [EvDisableAllPrivileges]
           else [EvErrorLog "ERROR! Cannot enable SE_DEBUG_NAME privilege on remote host.\n"]
         else [EvErrorLog "ERROR! Cannot lookup SE_DEBUG_NAME privilege value on remote host.\n"])
        ++ [EvCloseToken]
      else [EvErrorLog "ERROR! Cannot open PWDumpX process token on remote host.\n"]
  | None => [EvErrorLog "ERROR! Cannot get LSASS process ID on remote host.\n"]
  end.

(** A line of ErrorLog.txt, written by the service or by [InjectDLL]. *)
Definition is_error (e : event) : bool :=
  match e with
  | EvErrorLog _ | EvInject (Injector.EvError _) => true
  | _ => false
  end.

(** The entry is the one the scan stops at: a non-zero ID, opened, its
    modules listed, its name read and equal to LSASS.EXE without regard
    to case. *)
Definition names_lsass (p : process) : bool :=
  negb (pid p =? 0) && opens p && modules p
  && match base_name p with
     | Some name => Options.strcmp_eq (Options.strupr name) LSASS_EXE
     | None => false
     end.

(** Process handles are opened one at a time and closed at once. *)
Fixpoint handles_paired (evs : list event) : bool :=
  match evs with
  | EvOpenProcess a :: EvCloseHandle b :: evs' => (a =? b) && handles_paired evs'
  | EvOpenProcess _ :: _ => false
  | EvCloseHandle _ :: _ => false
  | _ :: evs' => handles_paired evs'
  | [] => true
  end.

(** A process table: the idle process, one that cannot be opened, one whose
    name cannot be read, and lsass.exe. *)
Definition sample_processes : list process :=
  [ {| pid := 0; opens := false; modules := false; base_name := None |};
    {| pid := 4; opens := false; modules := false; base_name := None |};
    {| pid := 388; opens := true; modules := true;
       base_name := Some (Options.chars "smss.exe") |};
    {| pid := 612; opens := true; modules := true; base_name := None |};
    {| pid := 680; opens := true; modules := true;
       base_name := Some (Options.chars "lsass.exe") |};
    {| pid := 900; opens := true; modules := true;
       base_name := Some (Options.chars "LSASS.EXE") |} ].

Definition sample_os : service_os := {|
  psapi_loaded := true;
  EnumProcesses := Some sample_processes;
  uninitialised := [];
  OpenProcessToken := true;
  LookupPrivilegeValue := true;
  AdjustTokenPrivileges := true;
  lsass := Injector.obliging_os;
  LsaThreadFunction := 0x00401000;
  DummyFunction := 0x00401060
|}.

End Service.

(* ===================================================================== *)
(** * Snprintf: [my_snprintf] (dumplsa.c)                                 *)
(* ===================================================================== *)

Module Snprintf.

(** Overwrite the beginning of a buffer. *)
Definition store (buf data : list Z) : list Z :=
  data ++ skipn (List.length data) buf.

(** [_vsnprintf( buf, count, format, args )], [text] being the formatted
    characters: the text and a terminator when they take fewer than
    [count] characters, otherwise the first [count] characters of the text
    and no terminator. *)
Definition _vsnprintf (buf : list Z) (count : nat) (text : list Z) : list Z :=
  if (List.length text <? count)%nat
  then store buf (text ++ [0])
  else store buf (firstn count text).

(** Lines 89-96: [_vsnprintf (buf, len-1, ...); buf[len-1] = 0;]. *)
Definition my_snprintf (buf : list Z) (len : nat) (text : list Z) : list Z :=
  let buf' := _vsnprintf buf (len - 1) text in
  firstn (len - 1) buf' ++ [0] ++ skipn len buf'.

End Snprintf.

(* ===================================================================== *)
(** * Properties                                                          *)
(* ===================================================================== *)

(** ** Bytes and hexadecimal digits *)

Lemma is_byteb_spec b : is_byteb b = true <-> is_byte b.
Proof.
  unfold is_byteb, is_byte.
  rewrite andb_true_iff, Z.leb_le, Z.ltb_lt. tauto.
Qed.

Lemma is_bytes_forallb l : forallb is_byteb l = true -> is_bytes l.
Proof.
  intros H. apply Forall_forall. intros x Hx.
  rewrite forallb_forall in H. apply is_byteb_spec. auto.
Qed.

Lemma is_bytes_nth l i : is_bytes l -> is_byte (nth i l 0).
Proof.
  intros H. destruct (Nat.lt_ge_cases i (List.length l)) as [Hi | Hi].
  - pose proof (proj1 (Forall_forall _ _) H) as Hall. apply Hall, nth_In, Hi.
  - rewrite nth_overflow by exact Hi. unfold is_byte. lia.
Qed.

(** A digit printed by [%X] reads back as its value. *)
Lemma hex_value_digit d : 0 <= d < 16 -> hex_value (hex_digit d) = Some d.
Proof.
  intros Hd.
  assert (Hcases : d = 0 \/ d = 1 \/ d = 2 \/ d = 3 \/ d = 4 \/ d = 5 \/ d = 6
                   \/ d = 7 \/ d = 8 \/ d = 9 \/ d = 10 \/ d = 11 \/ d = 12
                   \/ d = 13 \/ d = 14 \/ d = 15) by lia.
  repeat (destruct Hcases as [-> | Hcases]; [reflexivity |]).
  subst d. reflexivity.
Qed.

Lemma byte_nibbles x : is_byte x -> 0 <= x / 16 < 16 /\ 0 <= x mod 16 < 16.
Proof.
  unfold is_byte. intros Hx. split.
  - split; [apply Z.div_pos; lia | apply Z.div_lt_upper_bound; lia].
  - apply Z.mod_pos_bound. lia.
Qed.

(** ** HexDumper *)

Section HexDumperFacts.
Import HexDumper.
Variable isprint : Z -> bool.

Lemma dump_rows_long p :
  (16 < List.length p)%nat ->
  dump_rows isprint p = fmt_full_row isprint p :: dump_rows isprint (skipn 16 p).
Proof.
  intros H. rewrite dump_rows_equation_1. unfold dump_rows_unfold_clause_1.
  destruct (lt_dec 16 (List.length p)); [reflexivity | lia].
Qed.

Lemma dump_rows_last p :
  (0 < List.length p <= 16)%nat -> dump_rows isprint p = [fmt_tail_row isprint p].
Proof.
  intros H. rewrite dump_rows_equation_1. unfold dump_rows_unfold_clause_1.
  destruct (lt_dec 16 (List.length p)); [lia |].
  destruct (Nat.ltb_spec 0 (List.length p)); [reflexivity | lia].
Qed.

Lemma dump_rows_nil : dump_rows isprint [] = [].
Proof. reflexivity. Qed.

End HexDumperFacts.

Section HexDumperRows.
Import HexDumper.
Variable isprint : Z -> bool.

Lemma dump_rows_length_le n : forall p,
  (List.length p <= n)%nat ->
  List.length (dump_rows isprint p) = ((List.length p + 15) / 16)%nat.
Proof.
  induction n as [| n IH]; intros p Hn.
  - destruct p; [reflexivity | simpl in Hn; lia].
  - destruct (Nat.eq_dec (List.length p) 0) as [H0 | H0].
    + destruct p; [reflexivity | discriminate].
    + destruct (le_lt_dec (List.length p) 16) as [Hle | Hgt].
      * rewrite dump_rows_last by lia.
        assert (H : ((List.length p + 15) / 16 = 1)%nat).
        { symmetry. apply (Nat.div_unique _ 16 1 (List.length p - 1)); lia. }
        rewrite H. reflexivity.
      * rewrite dump_rows_long by lia. cbn [List.length].
        rewrite IH by (rewrite length_skipn; lia).
        rewrite length_skipn.
        replace (List.length p + 15)%nat
          with ((List.length p - 16 + 15) + 1 * 16)%nat by lia.
        rewrite Nat.div_add by lia. lia.
Qed.

Lemma dump_rows_length p :
  List.length (dump_rows isprint p) = ((List.length p + 15) / 16)%nat.
Proof. apply (dump_rows_length_le (List.length p)). lia. Qed.

(** A last row of sixteen bytes has the layout of a full row. *)
Lemma fmt_tail_row_16 p :
  List.length p = 16%nat -> fmt_tail_row isprint p = fmt_full_row isprint p.
Proof.
  intros H.
  do 16 (destruct p as [| ? p]; [discriminate |]).
  destruct p; [| discriminate].
  reflexivity.
Qed.

Lemma dump_rows_nth i : forall p,
  (16 * (i + 1) <= List.length p)%nat ->
  nth i (dump_rows isprint p) EmptyString
  = fmt_full_row isprint (skipn (16 * i) p).
Proof.
  induction i as [| i IH]; intros p Hlen.
  - change (16 * 0)%nat with 0%nat. rewrite skipn_O.
    destruct (le_lt_dec (List.length p) 16) as [Hle | Hgt].
    + rewrite dump_rows_last by lia. cbn [nth].
      apply fmt_tail_row_16. lia.
    + rewrite dump_rows_long by lia. reflexivity.
  - rewrite dump_rows_long by lia. cbn [nth].
    rewrite IH by (rewrite length_skipn; lia).
    rewrite skipn_skipn. f_equal. f_equal. lia.
Qed.

End HexDumperRows.

Section HexDumperLayout.
Import HexDumper.
Variable isprint : Z -> bool.

Local Ltac cell_cases k Hk :=
  do 16 (destruct k as [| k];
         [ first [ exfalso; cbn in Hk; lia | cbn; split; reflexivity ] |]);
  exfalso; cbn in Hk; lia.

(** In a full row, byte [k] is shown as the group at columns [3k .. 3k+2]
    and as the character at column [50 + k]; the row is written with its
    newline. *)
Lemma fmt_full_row_layout p k :
  (16 <= List.length p)%nat -> (k < 16)%nat ->
  substring (3 * k) 3 (fmt_full_row isprint p ++ newline) = fmt_group (nth k p 0)
  /\ String.get (50 + k) (fmt_full_row isprint p ++ newline)
     = Some (if isprint (nth k p 0) then char_of_byte (nth k p 0) else "."%char).
Proof.
  intros Hlen Hk.
  do 16 (destruct p as [| ? p]; [cbn in Hlen; lia |]).
  unfold fmt_full_row. cbn [firstn].
  do 16 (destruct k as [| k]; [cbn; split; reflexivity |]).
  lia.
Qed.

Lemma fmt_full_row_length p :
  (16 <= List.length p)%nat ->
  String.length (fmt_full_row isprint p ++ newline) = 67%nat
  /\ substring 48 2 (fmt_full_row isprint p ++ newline) = "  "%string
  /\ substring 66 1 (fmt_full_row isprint p ++ newline) = newline.
Proof.
  intros Hlen.
  do 16 (destruct p as [| ? p]; [cbn in Hlen; lia |]).
  repeat split; reflexivity.
Qed.

(** The last row keeps the same columns, whatever its number of bytes. *)
Lemma fmt_tail_row_layout p k :
  (List.length p <= 16)%nat -> (k < List.length p)%nat ->
  substring (3 * k) 3 (fmt_tail_row isprint p ++ newline) = fmt_group (nth k p 0)
  /\ String.get (50 + k) (fmt_tail_row isprint p ++ newline)
     = Some (if isprint (nth k p 0) then char_of_byte (nth k p 0) else "."%char).
Proof.
  intros Hlen Hk.
  do 17 (destruct p as [| ? p]; [cell_cases k Hk |]).
  cbn in Hlen. lia.
Qed.

End HexDumperLayout.

Section HexDumperBytes.
Import HexDumper.
Variable isprint : Z -> bool.

Lemma dump_rows_nth_last i : forall p,
  (16 * i < List.length p <= 16 * (i + 1))%nat ->
  nth i (dump_rows isprint p) EmptyString
  = fmt_tail_row isprint (skipn (16 * i) p).
Proof.
  induction i as [| i IH]; intros p Hlen.
  - change (16 * 0)%nat with 0%nat. rewrite skipn_O.
    rewrite dump_rows_last by lia. reflexivity.
  - rewrite dump_rows_long by lia. cbn [nth].
    rewrite IH by (rewrite length_skipn; lia).
    rewrite skipn_skipn. f_equal. f_equal. lia.
Qed.

Lemma nth_map_newline i (rows : list string) :
  (i < List.length rows)%nat ->
  nth i (map (fun r => (r ++ newline)%string) rows) EmptyString
  = (nth i rows EmptyString ++ newline)%string.
Proof.
  intros Hi.
  rewrite (nth_indep _ EmptyString (EmptyString ++ newline)%string)
    by (rewrite length_map; exact Hi).
  apply (map_nth (fun r => (r ++ newline)%string)).
Qed.

(** Every byte of the blob has its cell: byte [n] is in row [n / 16], as
    the group at columns [3k .. 3k+2] and the character at column [50 + k],
    [k = n mod 16]. *)
Lemma dump_rows_cell p n :
  (n < List.length p)%nat ->
  let row := (nth (n / 16) (dump_rows isprint p) EmptyString ++ newline)%string in
  let x := nth n p 0 in
  substring (3 * (n mod 16)) 3 row = fmt_group x
  /\ String.get (50 + n mod 16) row
     = Some (if isprint x then char_of_byte x else "."%char).
Proof.
  intros Hn row x. subst row x.
  pose proof (Nat.div_mod_eq n 16) as Hdm.
  pose proof (Nat.mod_upper_bound n 16 ltac:(lia)) as Hk.
  set (i := (n / 16)%nat) in *. set (k := (n mod 16)%nat) in *.
  replace (nth n p 0) with (nth k (skipn (16 * i) p) 0)
    by (rewrite nth_skipn; f_equal; lia).
  destruct (le_lt_dec (16 * (i + 1)) (List.length p)) as [Hfull | Hlast].
  - rewrite dump_rows_nth by exact Hfull.
    apply fmt_full_row_layout; [rewrite length_skipn; lia | exact Hk].
  - rewrite dump_rows_nth_last by lia.
    apply fmt_tail_row_layout; rewrite length_skipn; lia.
Qed.

End HexDumperBytes.

(** C9.  For every byte blob [b], [DumpSecretData] and [dump_bytes] write the
    same [ceil(len b / 16)] lines.  A line made from a full group of sixteen
    bytes is 66 characters and a newline: sixteen groups of a blank and two
    hexadecimal digits (which read back as the byte), two blanks, and
    sixteen characters.  The character shown for a byte, in every line, is
    the byte itself when it lies in 0x20..0x7E and a dot otherwise. *)
Theorem C9_hex_dump_lines (b : list Z) (Hb : is_bytes b) :
  let out := HexDumper.DumpSecretData b in
  List.length out = ((List.length b + 15) / 16)%nat
  /\ HexDumper.dump_bytes b = out
  /\ (forall i, (16 * (i + 1) <= List.length b)%nat ->
        String.length (nth i out EmptyString) = 67%nat
        /\ substring 48 2 (nth i out EmptyString) = "  "%string
        /\ substring 66 1 (nth i out EmptyString) = HexDumper.newline)
  /\ (forall n, (n < List.length b)%nat ->
        let line := nth (n / 16) out EmptyString in
        let x := nth n b 0 in
        substring (3 * (n mod 16)) 3 line
        = String " " (String (hex_digit (x / 16))
                        (String (hex_digit (x mod 16)) EmptyString))
        /\ hex_value (hex_digit (x / 16)) = Some (x / 16)
        /\ hex_value (hex_digit (x mod 16)) = Some (x mod 16)
        /\ 16 * (x / 16) + x mod 16 = x
        /\ String.get (50 + n mod 16) line
           = Some (if (0x20 <=? x) && (x <=? 0x7E)
                   then char_of_byte x else "."%char)).
Proof.
  intros out. subst out. unfold HexDumper.DumpSecretData, HexDumper.dump_bytes.
  split; [| split; [| split]].
  - rewrite length_map. apply dump_rows_length.
  - reflexivity.
  - intros i Hi.
    rewrite nth_map_newline.
    2:{ rewrite dump_rows_length.
        assert (i + 1 <= (List.length b + 15) / 16)%nat
          by (apply Nat.div_le_lower_bound; lia).
        lia. }
    rewrite dump_rows_nth by exact Hi.
    apply fmt_full_row_length. rewrite length_skipn. lia.
  - intros n Hn. cbv zeta. set (x := nth n b 0).
    assert (Hrow : (n / 16 < List.length (HexDumper.dump_rows HexDumper.IsReadableChar b))%nat).
    { rewrite dump_rows_length.
      apply Nat.Div0.div_lt_upper_bound.
      pose proof (Nat.div_mod_eq (List.length b + 15) 16).
      pose proof (Nat.mod_upper_bound (List.length b + 15) 16 ltac:(lia)). lia. }
    rewrite nth_map_newline by exact Hrow.
    destruct (dump_rows_cell HexDumper.IsReadableChar b n Hn) as [Hgroup Hchar].
    fold x in Hgroup, Hchar.
    pose proof (is_bytes_nth b n Hb) as Hx. fold x in Hx.
    destruct (byte_nibbles x Hx) as [Hhi Hlo].
    split; [exact Hgroup |].
    split; [apply hex_value_digit; exact Hhi |].
    split; [apply hex_value_digit; exact Hlo |].
    split; [pose proof (Z.div_mod x 16); lia |].
    exact Hchar.
Qed.

Example DumpSecretData_short :
  HexDumper.DumpSecretData [0x41; 0x42; 0; 0x7E; 0x7F; 0x1F; 0x20]
  = [(" 41 42 00 7E 7F 1F 20                             AB.~.. "
      ++ HexDumper.newline)%string].
Proof. reflexivity. Qed.

Example DumpSecretData_sixteen :
  HexDumper.DumpSecretData (map Z.of_nat (seq 60 16))
  = [(" 3C 3D 3E 3F 40 41 42 43 44 45 46 47 48 49 4A 4B  <=>?@ABCDEFGHIJK"
      ++ HexDumper.newline)%string].
Proof. reflexivity. Qed.

Example dump_bytes_seventeen :
  HexDumper.dump_bytes (map Z.of_nat (seq 60 17))
  = [(" 3C 3D 3E 3F 40 41 42 43 44 45 46 47 48 49 4A 4B  <=>?@ABCDEFGHIJK"
      ++ HexDumper.newline)%string;
     (" 4C                                               L"
      ++ HexDumper.newline)%string].
Proof. reflexivity. Qed.

Lemma C9_hex_dump_lines_witness :
  is_bytes (map Z.of_nat (seq 60 17))
  /\ List.length (HexDumper.DumpSecretData (map Z.of_nat (seq 60 17))) = 2%nat.
Proof.
  assert (H : is_bytes (map Z.of_nat (seq 60 17)))
    by (apply is_bytes_forallb; reflexivity).
  split; [exact H |].
  exact (proj1 (C9_hex_dump_lines (map Z.of_nat (seq 60 17)) H)).
Defined.

(** ** AccountStore: rendering of the hash halves *)

Section HashRendering.
Import AccountStore.

Local Ltac split32 h Hlen :=
  do 32 (destruct h as [| ? h]; [discriminate Hlen |]);
  destruct h; [| discriminate Hlen].

Lemma lm_words_iff h :
  List.length h = 32%nat -> is_bytes h ->
  ((word_le h 4 =? 0x35b4d3aa) && (word_le h 5 =? 0xee0414b5)
   && (word_le h 6 =? 0x35b4d3aa) && (word_le h 7 =? 0xee0414b5) = true
   <-> sub h 16 16 = empty_lm_hash).
Proof.
  intros Hlen Hb.
  assert (Hn : forall k, is_byte (nth k h 0)) by (intro; apply is_bytes_nth, Hb).
  pose proof (Hn 16%nat); pose proof (Hn 17%nat); pose proof (Hn 18%nat);
  pose proof (Hn 19%nat); pose proof (Hn 20%nat); pose proof (Hn 21%nat);
  pose proof (Hn 22%nat); pose proof (Hn 23%nat); pose proof (Hn 24%nat);
  pose proof (Hn 25%nat); pose proof (Hn 26%nat); pose proof (Hn 27%nat);
  pose proof (Hn 28%nat); pose proof (Hn 29%nat); pose proof (Hn 30%nat);
  pose proof (Hn 31%nat).
  clear Hn Hb. split32 h Hlen. cbn [nth] in *.
  unfold word_le, sub, empty_lm_hash. cbn [nth skipn firstn Nat.mul Nat.add].
  rewrite !andb_true_iff, !Z.eqb_eq. unfold is_byte in *.
  split.
  - intros [[[W4 W5] W6] W7]. repeat f_equal; lia.
  - intros E. injection E as -> -> -> -> -> -> -> -> -> -> -> -> -> -> -> ->.
    repeat split; reflexivity.
Qed.

Lemma nt_words_iff h :
  List.length h = 32%nat -> is_bytes h ->
  ((word_le h 0 =? 0xe0cfd631) && (word_le h 1 =? 0x31e96ad1)
   && (word_le h 2 =? 0xd7593cb7) && (word_le h 3 =? 0xc089c0e0) = true
   <-> sub h 0 16 = empty_nt_hash).
Proof.
  intros Hlen Hb.
  assert (Hn : forall k, is_byte (nth k h 0)) by (intro; apply is_bytes_nth, Hb).
  pose proof (Hn 0%nat); pose proof (Hn 1%nat); pose proof (Hn 2%nat);
  pose proof (Hn 3%nat); pose proof (Hn 4%nat); pose proof (Hn 5%nat);
  pose proof (Hn 6%nat); pose proof (Hn 7%nat); pose proof (Hn 8%nat);
  pose proof (Hn 9%nat); pose proof (Hn 10%nat); pose proof (Hn 11%nat);
  pose proof (Hn 12%nat); pose proof (Hn 13%nat); pose proof (Hn 14%nat);
  pose proof (Hn 15%nat).
  clear Hn Hb. split32 h Hlen. cbn [nth] in *.
  unfold word_le, sub, empty_nt_hash. cbn [nth skipn firstn Nat.mul Nat.add].
  rewrite !andb_true_iff, !Z.eqb_eq. unfold is_byte in *.
  split.
  - intros [[[W0 W1] W2] W3]. repeat f_equal; lia.
  - intros E. injection E as -> -> -> -> -> -> -> -> -> -> -> -> -> -> -> ->.
    repeat split; reflexivity.
Qed.






End HashRendering.


Example hash_line_empty_password :
  AccountStore.hash_line "bob" 1001
    (AccountStore.empty_nt_hash ++ AccountStore.empty_lm_hash)
  = ("bob:1001:NO PASSWORD*********************:NO PASSWORD*********************:::"
     ++ HexDumper.newline)%string.
Proof. reflexivity. Qed.

Example hash_line_swapped_halves :
  AccountStore.hash_line "bob" 1001
    (AccountStore.empty_lm_hash ++ AccountStore.empty_nt_hash)
  = ("bob:1001:31D6CFE0D16AE931B73C59D7E0C089C0:AAD3B435B51404EEAAD3B435B51404EE:::"
     ++ HexDumper.newline)%string.
Proof. reflexivity. Qed.


(** ** AccountStore: password history *)

Section HistoryFacts.
Import AccountStore.
Context {hp : HistoryPrimitives}.

Lemma history_slot_at_most_one szUsername Rid pHashData j :
  (List.length (history_slot szUsername Rid pHashData j) <= 1)%nat
  /\ forallb (fun e => negb (is_error e)) (history_slot szUsername Rid pHashData j)
     = true.
Proof.
  unfold history_slot.
  destruct (SystemFunction025 _ Rid); [| split; [cbn; lia | reflexivity]].
  destruct (SystemFunction027 _ Rid); split; cbn; try lia; reflexivity.
Qed.

Lemma history_flat_map szUsername Rid pHashData js :
  (List.length (flat_map (history_slot szUsername Rid pHashData) js)
   <= List.length js)%nat
  /\ forallb (fun e => negb (is_error e))
             (flat_map (history_slot szUsername Rid pHashData) js) = true.
Proof.
  induction js as [| j js [IHlen IHerr]]; [split; [cbn; lia | reflexivity] |].
  destruct (history_slot_at_most_one szUsername Rid pHashData j) as [H1 H2].
  cbn [flat_map]. rewrite length_app, forallb_app, H2, IHerr.
  split; [cbn [List.length]; lia | reflexivity].
Qed.

Lemma history_flat_map_all szUsername Rid pHashData js :
  (forall mem, SystemFunction025 mem Rid <> None) ->
  (forall mem, SystemFunction027 mem Rid <> None) ->
  List.length (flat_map (history_slot szUsername Rid pHashData) js)
  = List.length js.
Proof.
  intros H25 H27. induction js as [| j js IH]; [reflexivity |].
  cbn [flat_map]. rewrite length_app, IH. unfold history_slot.
  destruct (SystemFunction025 _ Rid) eqn:E25; [| exfalso; eapply H25; eassumption].
  destruct (SystemFunction027 _ Rid) eqn:E27; [| exfalso; eapply H27; eassumption].
  reflexivity.
Qed.

Lemma history_slots_some nStatus pHashData :
  let dwSize := Z.of_nat (List.length pHashData) in
  let count := CacheDecoder.byte_at pHashData 0x3C in
  0 <= nStatus -> 60 < dwSize -> 0 < count / 16 -> count + 0x64 < dwSize ->
  history_slots nStatus pHashData
  = map Z.of_nat (seq 1 (Z.to_nat (count / 16))).
Proof.
  intros dwSize count Hs Hsz Hc Hoff. unfold history_slots.
  fold dwSize. unfold SAM_HISTORY_COUNT_OFFSET, SAM_HISTORY_NTLM_OFFSET.
  fold count.
  destruct (Z.leb_spec 0 nStatus); [| lia].
  destruct (Z.ltb_spec 0x3c dwSize); [| lia].
  destruct (Z.ltb_spec 0 (count / 16)); [| lia].
  destruct (Z.ltb_spec (count + 0x64) dwSize); [| lia].
  reflexivity.
Qed.

Lemma history_slots_none nStatus pHashData :
  let dwSize := Z.of_nat (List.length pHashData) in
  let count := CacheDecoder.byte_at pHashData 0x3C in
  dwSize <= 60 \/ count / 16 = 0 \/ nStatus < 0 \/ dwSize <= count + 0x64 ->
  history_slots nStatus pHashData = [].
Proof.
  intros dwSize count H. unfold history_slots.
  fold dwSize. unfold SAM_HISTORY_COUNT_OFFSET, SAM_HISTORY_NTLM_OFFSET.
  fold count.
  destruct (Z.leb_spec 0 nStatus); cbn [andb]; [| reflexivity].
  destruct (Z.ltb_spec 0x3c dwSize); cbn [andb]; [| reflexivity].
  destruct (Z.ltb_spec 0 (count / 16)); cbn [andb]; [| reflexivity].
  destruct (Z.ltb_spec (count + 0x64) dwSize); [lia | reflexivity].
Qed.

Lemma history_slot_written szUsername Rid pHashData j :
  let first :=
    SystemFunction025 (skipn (Z.to_nat (0x10 * j + 0x44)) pHashData) Rid in
  let second :=
    SystemFunction027
      (skipn (Z.to_nat (0x10 * j + 0x44 + CacheDecoder.byte_at pHashData 0x3C))
             pHashData) Rid in
  (history_slot szUsername Rid pHashData j <> []
   <-> first <> None /\ second <> None)
  /\ (forall lo hi, first = Some lo -> second = Some hi ->
       history_slot szUsername Rid pHashData j
       = [EvLine (history_line szUsername j Rid (lo ++ hi))])
  /\ List.length (history_slot szUsername Rid pHashData j)
     = (if match first, second with
           | Some _, Some _ => true
           | _, _ => false
           end then 1 else 0)%nat.
Proof.
  cbv zeta. unfold history_slot, SAM_HISTORY_NTLM_OFFSET.
  destruct (SystemFunction025 _ Rid) as [lo |].
  - destruct (SystemFunction027 _ Rid) as [hi |].
    + split; [| split; [| reflexivity]].
      * split; [intros _; split; discriminate | intros _; discriminate].
      * intros lo' hi' [= <-] [= <-]. reflexivity.
    + split; [| split; [| reflexivity]].
      * split; [intros H; now contradiction H | intros [_ H]; now contradiction H].
      * intros lo' hi' _ [=].
  - split; [| split; [| reflexivity]].
    + split; [intros H; now contradiction H | intros [H _]; now contradiction H].
    + intros lo' hi' [=].
Qed.

End HistoryFacts.

(** C7, as stated, fails: a 100-byte blob carries the count byte 16, so
    the claim promises one history slot, but the loop is not entered and
    nothing is written, whatever the decode calls would return. *)
Lemma C7_history_size_guard :
  60 < Z.of_nat (List.length AccountStore.short_history_blob)
  /\ CacheDecoder.byte_at AccountStore.short_history_blob 0x3C / 16 = 1
  /\ AccountStore.history_slots 0 AccountStore.short_history_blob = []
  /\ AccountStore.history_events (hp := AccountStore.xor_decode) "bob" 1001 0
       AccountStore.short_history_blob = [].
Proof. repeat split. Qed.

(** C7, amended.  History retrieval never records an error.  It yields no
    history when the private-data call fails, when the blob has at most 60
    bytes, when its count byte at 0x3C divided by 16 is 0, or when the blob
    has at most (that byte + 0x64) bytes.  Otherwise the loop visits the
    slots 1 .. byte/16, that many of them, and writes at most one line per
    slot: exactly one when both decode calls succeed.  For every slot, a
    line is written if and only if the call of [SystemFunction025] on the
    memory at [0x10 * j + 0x44] and the call of [SystemFunction027] on the
    memory at [0x10 * j + 0x44 + byte] both succeed, and the line is then
    the history line of the 32 bytes they decoded; so the lines written
    are as many as the visited slots whose two calls succeed. *)
Theorem C7_history_slot_count
    (hp : AccountStore.HistoryPrimitives) (szUsername : string)
    (Rid nStatus : Z) (pHashData : list Z) :
  let dwSize := Z.of_nat (List.length pHashData) in
  let count := CacheDecoder.byte_at pHashData 0x3C in
  let events := AccountStore.history_events szUsername Rid nStatus pHashData in
  let slots := AccountStore.history_slots nStatus pHashData in
  forallb (fun e => negb (AccountStore.is_error e)) events = true
  /\ (List.length events <= List.length slots)%nat
  /\ (dwSize <= 60 \/ count / 16 = 0 \/ nStatus < 0 \/ dwSize <= count + 0x64 ->
      slots = [] /\ events = [])
  /\ (0 <= nStatus -> 60 < dwSize -> 0 < count / 16 -> count + 0x64 < dwSize ->
      slots = map Z.of_nat (seq 1 (Z.to_nat (count / 16)))
      /\ Z.of_nat (List.length slots) = count / 16
      /\ ((forall mem, AccountStore.SystemFunction025 mem Rid <> None) ->
          (forall mem, AccountStore.SystemFunction027 mem Rid <> None) ->
          Z.of_nat (List.length events) = count / 16))
  /\ (forall j,
        let first :=
          AccountStore.SystemFunction025
            (skipn (Z.to_nat (0x10 * j + 0x44)) pHashData) Rid in
        let second :=
          AccountStore.SystemFunction027
            (skipn (Z.to_nat (0x10 * j + 0x44 + count)) pHashData) Rid in
        (AccountStore.history_slot szUsername Rid pHashData j <> []
         <-> first <> None /\ second <> None)
        /\ (forall lo hi, first = Some lo -> second = Some hi ->
             AccountStore.history_slot szUsername Rid pHashData j
             = [AccountStore.EvLine
                  (AccountStore.history_line szUsername j Rid (lo ++ hi))]))
  /\ events
     = flat_map (AccountStore.history_slot szUsername Rid pHashData) slots
  /\ List.length events
     = List.length
         (filter
            (fun j =>
               match AccountStore.SystemFunction025
                       (skipn (Z.to_nat (0x10 * j + 0x44)) pHashData) Rid,
                     AccountStore.SystemFunction027
                       (skipn (Z.to_nat (0x10 * j + 0x44 + count)) pHashData)
                       Rid
               with
               | Some _, Some _ => true
               | _, _ => false
               end) slots).
Proof.
  intros dwSize count events slots.
  subst events slots. unfold AccountStore.history_events.
  destruct (history_flat_map szUsername Rid pHashData
              (AccountStore.history_slots nStatus pHashData)) as [Hlen Herr].
  split; [exact Herr |]. split; [exact Hlen |].
  split; [| split; [| split; [| split; [reflexivity |]]]].
  - intros H. rewrite (history_slots_none nStatus pHashData H).
    split; reflexivity.
  - intros Hs Hsz Hc Hoff.
    rewrite (history_slots_some nStatus pHashData Hs Hsz Hc Hoff).
    fold count.
    assert (Hn : Z.of_nat (List.length (map Z.of_nat (seq 1 (Z.to_nat (count / 16)))))
                 = count / 16)
      by (rewrite length_map, length_seq; lia).
    split; [reflexivity |]. split; [exact Hn |].
    intros H25 H27. rewrite history_flat_map_all by assumption. exact Hn.
  - intros j.
    destruct (history_slot_written szUsername Rid pHashData j) as [W1 [W2 _]].
    split; [exact W1 | exact W2].
  - clear Hlen Herr.
    induction (AccountStore.history_slots nStatus pHashData) as [| j js IH];
      [reflexivity |].
    cbn [flat_map filter]. rewrite length_app, IH.
    destruct (history_slot_written szUsername Rid pHashData j) as [_ [_ W3]].
    rewrite W3. fold count.
    destruct (AccountStore.SystemFunction025 _ Rid);
      [destruct (AccountStore.SystemFunction027 _ Rid) |]; reflexivity.
Qed.

Example history_two_slots :
  List.length (AccountStore.history_events (hp := AccountStore.xor_decode)
                 "bob" 1001 0 AccountStore.two_slot_blob) = 2%nat.
Proof. reflexivity. Qed.

Lemma C7_history_slot_count_witness :
  Z.of_nat (List.length
              (AccountStore.history_events (hp := AccountStore.xor_decode)
                 "bob" 1001 0 AccountStore.two_slot_blob))
  = CacheDecoder.byte_at AccountStore.two_slot_blob 0x3C / 16.
Proof.
  refine (proj2 (proj2 (proj1 (proj2 (proj2 (proj2
            (C7_history_slot_count AccountStore.xor_decode "bob" 1001 0
               AccountStore.two_slot_blob))))
            _ _ _ _)) _ _).
  - discriminate.
  - reflexivity.
  - reflexivity.
  - reflexivity.
  - intros mem. discriminate.
  - intros mem. discriminate.
Defined.

(** ** SecretStore: opening a secret *)

Section OpenSecret.
Import SecretStore.

Lemma DumpLSASecrets_query_no_open os w :
  filter is_open (DumpLSASecrets_query os w) = [].
Proof.
  unfold DumpLSASecrets_query. destruct (LsarQuerySecret os w) as [nStatus lsaData].
  cbn [filter is_open]. rewrite filter_app. cbn [filter is_open].
  rewrite app_nil_r.
  destruct (0 <=? nStatus); [| reflexivity].
  cbn [filter is_open]. destruct lsaData as [p |]; [| reflexivity].
  rewrite filter_app. cbn [filter is_open]. rewrite app_nil_r.
  induction (HexDumper.DumpSecretData p); [reflexivity | exact IHl].
Qed.

Lemma DumpLsa_query_no_open os w :
  filter is_open (DumpLsa_query os w) = [].
Proof.
  unfold DumpLsa_query. destruct (LsarQuerySecret os w) as [rc lsaData].
  cbn [filter is_open]. rewrite filter_app. cbn [filter is_open].
  rewrite app_nil_r.
  destruct (rc <? 0); [reflexivity |].
  cbn [filter is_open]. destruct lsaData as [p |]; [| reflexivity].
  induction (HexDumper.dump_bytes p); [reflexivity | exact IHl].
Qed.

Lemma wrap16_name_length w :
  wcslen w < 1024 ->
  wrap16 (wcslen w * 2) = 2 * wcslen w
  /\ wrap16 (wrap16 (wcslen w * 2) + 2) = 2 * wcslen w + 2.
Proof.
  intros H. unfold wrap16, wcslen in *.
  rewrite (Z.mod_small (Z.of_nat (List.length w) * 2)) by lia.
  rewrite Z.mod_small by lia. lia.
Qed.

End OpenSecret.

(** C8.  For every enumerated secret name (one that fits the name buffer),
    both tools open the secret first with [Length] = the byte length of the
    name, and, only if that fails, once more with [Length + 2]; there is no
    third attempt.  When the retry fails as well the name is given up:
    lsadump2's [DumpLsa] then reports the failure, but PWDumpX's
    [DumpLSASecrets] goes on to the next name and records nothing. *)
Theorem C8_open_retry_once (os : SecretStore.lsa_os) (wszSecret : list Z)
    (Hfit : SecretStore.wcslen wszSecret < 1024) :
  let Length := 2 * SecretStore.wcslen wszSecret in
  let attempts :=
    if SecretStore.LsarOpenSecret os wszSecret Length <? 0
    then [SecretStore.EvOpenSecret wszSecret Length;
          SecretStore.EvOpenSecret wszSecret (Length + 2)]
    else [SecretStore.EvOpenSecret wszSecret Length] in
  filter SecretStore.is_open (SecretStore.DumpLSASecrets_name os wszSecret) = attempts
  /\ filter SecretStore.is_open (SecretStore.DumpLsa_name os wszSecret) = attempts
  /\ (SecretStore.LsarOpenSecret os wszSecret Length < 0 ->
      SecretStore.LsarOpenSecret os wszSecret (Length + 2) < 0 ->
      SecretStore.DumpLsa_name os wszSecret
      = [SecretStore.EvOpenSecret wszSecret Length;
         SecretStore.EvOpenSecret wszSecret (Length + 2);
         SecretStore.EvFormatted "LsarOpenSecret failed : 0x%08X"
           (SecretStore.LsarOpenSecret os wszSecret (Length + 2))]
      /\ SecretStore.DumpLSASecrets_name os wszSecret
         = [SecretStore.EvOpenSecret wszSecret Length;
            SecretStore.EvOpenSecret wszSecret (Length + 2)]
      /\ filter SecretStore.is_error (SecretStore.DumpLSASecrets_name os wszSecret)
         = []).
Proof.
  intros Length attempts. subst attempts Length.
  destruct (wrap16_name_length wszSecret Hfit) as [H1 H2].
  unfold SecretStore.DumpLSASecrets_name, SecretStore.DumpLsa_name.
  rewrite H2, H1.
  destruct (Z.ltb_spec (SecretStore.LsarOpenSecret os wszSecret
                          (2 * SecretStore.wcslen wszSecret)) 0) as [F1 | S1].
  - destruct (Z.ltb_spec (SecretStore.LsarOpenSecret os wszSecret
                            (2 * SecretStore.wcslen wszSecret + 2)) 0) as [F2 | S2].
    + repeat split; reflexivity.
    + cbn [filter SecretStore.is_open].
      rewrite DumpLSASecrets_query_no_open, DumpLsa_query_no_open.
      repeat split; try reflexivity; intros; lia.
  - cbn [filter SecretStore.is_open].
    rewrite DumpLSASecrets_query_no_open, DumpLsa_query_no_open.
    repeat split; try reflexivity; intros; lia.
Qed.

Example DumpLSASecrets_retry_succeeds :
  filter SecretStore.is_open
    (SecretStore.DumpLSASecrets SecretStore.null_counting_os [[0x58; 0x59]])
  = [SecretStore.EvOpenSecret [0x58; 0x59] 4;
     SecretStore.EvOpenSecret [0x58; 0x59] 6].
Proof. reflexivity. Qed.

Example DumpLSASecrets_silent_skip :
  SecretStore.DumpLSASecrets SecretStore.denying_os [[0x58; 0x59]]
  = [SecretStore.EvOpenSecret [0x58; 0x59] 4;
     SecretStore.EvOpenSecret [0x58; 0x59] 6].
Proof. reflexivity. Qed.

Lemma C8_open_retry_once_witness :
  SecretStore.wcslen [0x58; 0x59] < 1024
  /\ filter SecretStore.is_error
       (SecretStore.DumpLSASecrets_name SecretStore.denying_os [0x58; 0x59]) = []
  /\ filter SecretStore.is_error
       (SecretStore.DumpLsa_name SecretStore.denying_os [0x58; 0x59])
     = [SecretStore.EvFormatted "LsarOpenSecret failed : 0x%08X" (0xC0000022 - 2 ^ 32)].
Proof.
  split; [reflexivity |].
  split; [| reflexivity].
  exact (proj2 (proj2 (proj2 (proj2
           (C8_open_retry_once SecretStore.denying_os [0x58; 0x59] eq_refl))
           eq_refl eq_refl))).
Defined.

(** ** ExtractionEngine: the version gate of the cache category *)

Section VersionGate.
Import Engine.

Lemma cache_category_runs reg :
  In RunDumpPWCache (cache_category reg)
  <-> RegConnectRegistry reg = 0 /\ RegOpenKeyEx reg = 0
      /\ RegQueryValueEx reg = 0
      /\ exists c rest, szCurrentVersion reg = String c rest /\ 4 < atoi1 c.
Proof.
  unfold cache_category, ERROR_SUCCESS.
  destruct (Z.eqb_spec (RegConnectRegistry reg) 0) as [E1 | N1].
  2:{ cbn. split; [intros [H | [H | []]]; discriminate | intros [H _]; contradiction]. }
  destruct (Z.eqb_spec (RegOpenKeyEx reg) 0) as [E2 | N2].
  2:{ cbn. split; [intros [H | [H | [H | []]]]; discriminate
                  | intros (_ & H & _); contradiction]. }
  destruct (Z.eqb_spec (RegQueryValueEx reg) 0) as [E3 | N3].
  2:{ cbn. split; [intros [H | [H | [H | []]]]; discriminate
                  | intros (_ & _ & H & _); contradiction]. }
  destruct (szCurrentVersion reg) as [| c rest].
  { cbn. split; [intros [H | [H | []]]; discriminate
                | intros (_ & _ & _ & c & rest & H & _); discriminate]. }
  destruct (Z.ltb_spec 4 (atoi1 c)) as [Hgt | Hle].
  - cbn. split; [| auto]. intros _. repeat split; try assumption.
    exists c, rest. split; [reflexivity | exact Hgt].
  - cbn. split; [intros [H | [H | []]]; discriminate |].
    intros (_ & _ & _ & c' & rest' & H & Hgt). injection H as -> ->. lia.
Qed.

Lemma other_categories_no_cache reg s h hh :
  ~ In RunDumpPWCache (DumpLSAInfo reg false s h hh).
Proof.
  unfold DumpLSAInfo. destruct s, h, hh; cbn; intuition discriminate.
Qed.

End VersionGate.

(** C10.  [DumpPWCache] is run exactly when the cache category is asked
    for, the three registry calls succeed, and the first character of
    [CurrentVersion] is a digit greater than 4.  When the value is read and
    that digit is 4 or lower (or the first character is no digit) the cache
    category runs nothing and logs nothing; it only closes the key and
    post-processes its output file.  The events of the other three
    categories are the same whatever the registry holds. *)
Theorem C10_cache_version_gate (reg : Engine.registry)
    (bDumpPWCache bDumpLSASecrets bDumpPWHashes bDumpPWHistoryHashes : bool) :
  (In Engine.RunDumpPWCache
      (Engine.DumpLSAInfo reg bDumpPWCache bDumpLSASecrets bDumpPWHashes
         bDumpPWHistoryHashes)
   <-> bDumpPWCache = true
       /\ Engine.RegConnectRegistry reg = 0 /\ Engine.RegOpenKeyEx reg = 0
       /\ Engine.RegQueryValueEx reg = 0
       /\ exists c rest, Engine.szCurrentVersion reg = String c rest
                         /\ 4 < Engine.atoi1 c)
  /\ (Engine.RegConnectRegistry reg = 0 -> Engine.RegOpenKeyEx reg = 0 ->
      Engine.RegQueryValueEx reg = 0 ->
      (forall c rest, Engine.szCurrentVersion reg = String c rest ->
                      Engine.atoi1 c <= 4) ->
      filter Engine.is_error (Engine.cache_category reg) = []
      /\ Engine.DumpLSAInfo reg true bDumpLSASecrets bDumpPWHashes
           bDumpPWHistoryHashes
         = [Engine.RegCloseKey; Engine.EncryptOutputFile "PWCache.txt"]
           ++ Engine.DumpLSAInfo reg false bDumpLSASecrets bDumpPWHashes
                bDumpPWHistoryHashes)
  /\ (forall reg',
        Engine.DumpLSAInfo reg bDumpPWCache bDumpLSASecrets bDumpPWHashes
          bDumpPWHistoryHashes
        = Engine.DumpLSAInfo reg bDumpPWCache false false false
          ++ Engine.DumpLSAInfo reg' false bDumpLSASecrets bDumpPWHashes
               bDumpPWHistoryHashes).
Proof.
  split; [| split].
  - destruct bDumpPWCache.
    + unfold Engine.DumpLSAInfo. rewrite in_app_iff, cache_category_runs.
      split.
      * intros [H | H]; [tauto |]. exfalso.
        apply (other_categories_no_cache reg bDumpLSASecrets bDumpPWHashes
                 bDumpPWHistoryHashes).
        exact H.
      * intros [_ H]. left. exact H.
    + split; [| intros [H _]; discriminate].
      intros H. exfalso.
      exact (other_categories_no_cache reg _ _ _ H).
  - intros E1 E2 E3 Hv. unfold Engine.DumpLSAInfo, Engine.cache_category,
      Engine.ERROR_SUCCESS.
    rewrite E1, E2, E3. cbn [Z.eqb].
    destruct (Engine.szCurrentVersion reg) as [| c rest] eqn:Ev;
      [split; reflexivity |].
    specialize (Hv c rest eq_refl).
    destruct (Z.ltb_spec 4 (Engine.atoi1 c)); [lia | split; reflexivity].
  - intros reg'. unfold Engine.DumpLSAInfo. cbn [app].
    rewrite !app_nil_r. reflexivity.
Qed.

Example DumpLSAInfo_version_4 :
  Engine.DumpLSAInfo
    (Engine.registry_reporting "4.0")
    true true false false
  = [Engine.RegCloseKey; Engine.EncryptOutputFile "PWCache.txt";
     Engine.RunDumpLSASecrets; Engine.EncryptOutputFile "LSASecrets.txt"].
Proof. reflexivity. Qed.

Example DumpLSAInfo_version_5 :
  Engine.DumpLSAInfo
    (Engine.registry_reporting "5.1")
    true false false true
  = [Engine.RunDumpPWCache; Engine.RegCloseKey;
     Engine.EncryptOutputFile "PWCache.txt";
     Engine.RunDumpPWHistoryHashes;
     Engine.EncryptOutputFile "PWHistoryHashes.txt"].
Proof. reflexivity. Qed.

Lemma C10_cache_version_gate_witness :
  Engine.DumpLSAInfo
    (Engine.registry_reporting "4.0")
    true true true true
  = [Engine.RegCloseKey; Engine.EncryptOutputFile "PWCache.txt"]
    ++ Engine.DumpLSAInfo (Engine.registry_reporting "4.0") false true true true.
Proof.
  refine (proj2 (proj1 (proj2 (C10_cache_version_gate
                          (Engine.registry_reporting "4.0") true true true true))
            eq_refl eq_refl eq_refl _)).
  intros c rest E. injection E as <- _. discriminate.
Defined.

(** ** Injector *)

Section InjectorFacts.
Import Injector.

Lemma wrap32_small z : 0 <= z < 2 ^ 32 -> wrap32 z = z.
Proof. intros H. unfold wrap32. apply Z.mod_small. exact H. Qed.

Lemma function_size_range dummy thunk : 0 <= function_size dummy thunk < 2 ^ 32.
Proof. unfold function_size, wrap32. apply Z.mod_pos_bound. lia. Qed.

Local Ltac layout_cases :=
  repeat match goal with
  | |- forall ev, In ev _ -> _ => intros ev Hin
  | H : In _ (if ?c then _ else _) |- _ => destruct c
  | H : In _ (_ :: _) |- _ => destruct H as [<- | H]
  | H : In _ (_ ++ _) |- _ => apply in_app_or in H; destruct H as [H | H]
  | H : In _ [] |- _ => destruct H
  | |- respects_layout _ _ _ _ _ =>
      cbn; first [ exact I | lia | left; repeat split; reflexivity
                 | right; repeat split; reflexivity | split; reflexivity ]
  end.

Lemma InjectDLL_layout os thunk dummy :
  let n := function_size dummy thunk in
  n + sizeof_THREAD_ARGS + 4 < 2 ^ 32 ->
  forall ev, In ev (InjectDLL os thunk dummy) ->
  respects_layout sizeof_THREAD_ARGS n thunk
    (VirtualAllocEx os (sizeof_THREAD_ARGS + 4 + n)) ev.
Proof.
  intros n Hfit. pose proof (function_size_range dummy thunk) as Hn. fold n in Hn.
  unfold InjectDLL. fold n.
  rewrite (wrap32_small (n + sizeof_THREAD_ARGS + 4))
    by (unfold sizeof_THREAD_ARGS in *; lia).
  replace (n + sizeof_THREAD_ARGS + 4) with (sizeof_THREAD_ARGS + 4 + n) by lia.
  layout_cases.
Qed.

Lemma InjectDll_layout os thunk dummy :
  let n := function_size dummy thunk in
  n + sizeof_REMOTE_INFO + 4 < 2 ^ 32 ->
  forall ev, In ev (InjectDll os thunk dummy) ->
  respects_layout sizeof_REMOTE_INFO n thunk
    (VirtualAllocEx os (sizeof_REMOTE_INFO + 4 + n)) ev.
Proof.
  intros n Hfit. pose proof (function_size_range dummy thunk) as Hn. fold n in Hn.
  unfold InjectDll. fold n.
  rewrite (wrap32_small (n + sizeof_REMOTE_INFO + 4))
    by (unfold sizeof_REMOTE_INFO in *; cbn in *; lia).
  replace (n + sizeof_REMOTE_INFO + 4) with (sizeof_REMOTE_INFO + 4 + n) by lia.
  layout_cases.
Qed.

End InjectorFacts.

(** C4.  In both injection routines, as long as the sum fits a DWORD, the
    remote allocation has exactly [sizeof(argument block) + 4 + n] bytes,
    [n] being the measured length of the routine to transplant; the argument
    block is written at the base of the allocation and the [n] bytes of the
    routine [sizeof(argument block) + 4] bytes after it; and the remote
    thread starts at the copied routine with the base of the allocation as
    its argument.  When every call succeeds these three steps all happen. *)
Theorem C4_injection_layout (os : Injector.inject_os) (thunk dummy : Z)
    (Hfit : Injector.function_size dummy thunk + Injector.sizeof_REMOTE_INFO + 4
            < 2 ^ 32) :
  let n := Injector.function_size dummy thunk in
  let A := Injector.sizeof_THREAD_ARGS in
  let R := Injector.sizeof_REMOTE_INFO in
  (forall ev, In ev (Injector.InjectDLL os thunk dummy) ->
     Injector.respects_layout A n thunk (Injector.VirtualAllocEx os (A + 4 + n)) ev)
  /\ (forall ev, In ev (Injector.InjectDll os thunk dummy) ->
     Injector.respects_layout R n thunk (Injector.VirtualAllocEx os (R + 4 + n)) ev)
  /\ (Injector.OpenProcess os <> 0 -> Injector.pLoadLibrary os <> 0 ->
      Injector.pGetProcAddress os <> 0 -> Injector.pFreeLibrary os <> 0 ->
      Injector.VirtualAllocEx os (A + 4 + n) <> 0 ->
      Injector.WriteProcessMemory_args os = true ->
      Injector.WriteProcessMemory_code os = true ->
      Injector.CreateRemoteThread os <> 0 ->
      let base := Injector.VirtualAllocEx os (A + 4 + n) in
      Injector.InjectDLL os thunk dummy
      = [Injector.EvVirtualAllocEx (A + 4 + n);
         Injector.EvWriteProcessMemory base Injector.ArgumentBlock A;
         Injector.EvWriteProcessMemory (base + A + 4) (Injector.CodeAt thunk) n;
         Injector.EvCreateRemoteThread (base + A + 4) base;
         Injector.EvWaitForSingleObject; Injector.EvCloseHandle;
         Injector.EvVirtualFreeEx base])
  /\ (Injector.VirtualAllocEx os (R + 4 + n) <> 0 ->
      Injector.WriteProcessMemory_args os = true ->
      Injector.WriteProcessMemory_code os = true ->
      Injector.CreateRemoteThread os <> 0 ->
      let base := Injector.VirtualAllocEx os (R + 4 + n) in
      Injector.InjectDll os thunk dummy
      = [Injector.EvVirtualAllocEx (R + 4 + n);
         Injector.EvWriteProcessMemory base Injector.ArgumentBlock R;
         Injector.EvWriteProcessMemory (base + R + 4) (Injector.CodeAt thunk) n;
         Injector.EvCreateRemoteThread (base + R + 4) base;
         Injector.EvWaitForSingleObject; Injector.EvCloseHandle;
         Injector.EvVirtualFreeEx base]).
Proof.
  intros n A R. subst A R.
  pose proof (function_size_range dummy thunk) as Hn. fold n in Hn, Hfit.
  assert (HfitA : n + Injector.sizeof_THREAD_ARGS + 4 < 2 ^ 32)
    by (unfold Injector.sizeof_THREAD_ARGS, Injector.sizeof_REMOTE_INFO in *;
        cbn in *; lia).
  split; [apply InjectDLL_layout; exact HfitA |].
  split; [apply InjectDll_layout; exact Hfit |].
  split.
  - intros Ho Hl Hg Hf Ha Hw1 Hw2 Ht base. subst base.
    unfold Injector.InjectDLL. fold n.
    rewrite (wrap32_small (n + Injector.sizeof_THREAD_ARGS + 4))
      by (unfold Injector.sizeof_THREAD_ARGS in *; lia).
    replace (n + Injector.sizeof_THREAD_ARGS + 4)
      with (Injector.sizeof_THREAD_ARGS + 4 + n) by lia.
    rewrite Hw1, Hw2.
    rewrite (proj2 (Z.eqb_neq _ _) Ho), (proj2 (Z.eqb_neq _ _) Hl),
      (proj2 (Z.eqb_neq _ _) Hg), (proj2 (Z.eqb_neq _ _) Hf),
      (proj2 (Z.eqb_neq _ _) Ha), (proj2 (Z.eqb_neq _ _) Ht).
    reflexivity.
  - intros Ha Hw1 Hw2 Ht base. subst base.
    unfold Injector.InjectDll. fold n.
    rewrite (wrap32_small (n + Injector.sizeof_REMOTE_INFO + 4))
      by (unfold Injector.sizeof_REMOTE_INFO in *; cbn in *; lia).
    replace (n + Injector.sizeof_REMOTE_INFO + 4)
      with (Injector.sizeof_REMOTE_INFO + 4 + n) by lia.
    rewrite Hw1, Hw2.
    rewrite (proj2 (Z.eqb_neq _ _) Ha), (proj2 (Z.eqb_neq _ _) Ht).
    reflexivity.
Qed.

Example InjectDLL_success :
  Injector.InjectDLL Injector.obliging_os 0x401500 0x401560
  = [Injector.EvVirtualAllocEx (668 + 4 + 96);
     Injector.EvWriteProcessMemory 0x00A30000 Injector.ArgumentBlock 668;
     Injector.EvWriteProcessMemory (0x00A30000 + 668 + 4)
       (Injector.CodeAt 0x401500) 96;
     Injector.EvCreateRemoteThread (0x00A30000 + 668 + 4) 0x00A30000;
     Injector.EvWaitForSingleObject; Injector.EvCloseHandle;
     Injector.EvVirtualFreeEx 0x00A30000].
Proof. reflexivity. Qed.

Example InjectDll_success :
  Injector.InjectDll Injector.obliging_os 0x401500 0x401560
  = [Injector.EvVirtualAllocEx (796 + 4 + 96);
     Injector.EvWriteProcessMemory 0x00A30000 Injector.ArgumentBlock 796;
     Injector.EvWriteProcessMemory (0x00A30000 + 796 + 4)
       (Injector.CodeAt 0x401500) 96;
     Injector.EvCreateRemoteThread (0x00A30000 + 796 + 4) 0x00A30000;
     Injector.EvWaitForSingleObject; Injector.EvCloseHandle;
     Injector.EvVirtualFreeEx 0x00A30000].
Proof. reflexivity. Qed.

Lemma C4_injection_layout_witness :
  Injector.function_size 0x401560 0x401500 + Injector.sizeof_REMOTE_INFO + 4
  < 2 ^ 32
  /\ Injector.respects_layout 668 96 0x401500 0x00A30000
       (Injector.EvVirtualAllocEx 768).
Proof.
  split; [reflexivity |].
  exact (proj1 (C4_injection_layout Injector.obliging_os 0x401500 0x401560
                  eq_refl)
           (Injector.EvVirtualAllocEx 768) (or_introl eq_refl)).
Defined.

(** C5, on the code: when the allocation in the target succeeds and a later
    step fails, PWDumpX's [InjectDLL] logs the failure and returns without
    any [VirtualFreeEx], so the remote memory stays allocated; lsadump2's
    [InjectDll] releases it on every such path, as the last thing it
    does. *)
Theorem C5_remote_memory_on_failure (os : Injector.inject_os) (thunk dummy : Z)
    (Hopen : Injector.OpenProcess os <> 0)
    (Hloader : Injector.pLoadLibrary os <> 0 /\ Injector.pGetProcAddress os <> 0
               /\ Injector.pFreeLibrary os <> 0)
    (Hfail : Injector.WriteProcessMemory_args os = false
             \/ Injector.WriteProcessMemory_code os = false
             \/ Injector.CreateRemoteThread os = 0) :
  let sizeA := wrap32 (Injector.function_size dummy thunk
                       + Injector.sizeof_THREAD_ARGS + 4) in
  let sizeR := wrap32 (Injector.function_size dummy thunk
                       + Injector.sizeof_REMOTE_INFO + 4) in
  (Injector.VirtualAllocEx os sizeA <> 0 ->
     In (Injector.EvVirtualAllocEx sizeA) (Injector.InjectDLL os thunk dummy)
     /\ filter Injector.is_free (Injector.InjectDLL os thunk dummy) = []
     /\ List.length (filter Injector.is_error (Injector.InjectDLL os thunk dummy))
        = 1%nat)
  /\ (Injector.VirtualAllocEx os sizeR <> 0 ->
     exists before,
       Injector.InjectDll os thunk dummy
       = before ++ [Injector.EvVirtualFreeEx (Injector.VirtualAllocEx os sizeR)]
       /\ List.length (filter Injector.is_error before) = 1%nat).
Proof.
  intros sizeA sizeR. destruct Hloader as (Hl & Hg & Hf).
  split.
  - intros Ha. unfold Injector.InjectDLL. fold sizeA.
    rewrite (proj2 (Z.eqb_neq _ _) Hopen), (proj2 (Z.eqb_neq _ _) Hl),
      (proj2 (Z.eqb_neq _ _) Hg), (proj2 (Z.eqb_neq _ _) Hf),
      (proj2 (Z.eqb_neq _ _) Ha).
    cbn [orb].
    destruct (Injector.WriteProcessMemory_args os);
      [| repeat split; [left; reflexivity]].
    destruct (Injector.WriteProcessMemory_code os);
      [| repeat split; [left; reflexivity]].
    destruct (Z.eqb_spec (Injector.CreateRemoteThread os) 0) as [E | N];
      [repeat split; [left; reflexivity] |].
    exfalso. destruct Hfail as [H | [H | H]]; [discriminate | discriminate | auto].
  - intros Ha. unfold Injector.InjectDll. fold sizeR.
    rewrite (proj2 (Z.eqb_neq _ _) Ha).
    destruct (Injector.WriteProcessMemory_args os);
      [| eexists [_; _; _]; split; reflexivity].
    destruct (Injector.WriteProcessMemory_code os);
      [| eexists [_; _; _; _]; split; reflexivity].
    destruct (Z.eqb_spec (Injector.CreateRemoteThread os) 0) as [E | N];
      [eexists [_; _; _; _; _]; split; reflexivity |].
    exfalso. destruct Hfail as [H | [H | H]]; [discriminate | discriminate | auto].
Qed.

Example InjectDLL_code_write_fails :
  Injector.InjectDLL Injector.code_write_fails_os 0x401500 0x401560
  = [Injector.EvVirtualAllocEx 768;
     Injector.EvWriteProcessMemory 0x00A30000 Injector.ArgumentBlock 668;
     Injector.EvWriteProcessMemory (0x00A30000 + 668 + 4)
       (Injector.CodeAt 0x401500) 96;
     Injector.EvError "ERROR! Cannot write to process memory on remote host.\n"].
Proof. reflexivity. Qed.

Example InjectDll_code_write_fails :
  Injector.InjectDll Injector.code_write_fails_os 0x401500 0x401560
  = [Injector.EvVirtualAllocEx 896;
     Injector.EvWriteProcessMemory 0x00A30000 Injector.ArgumentBlock 796;
     Injector.EvWriteProcessMemory (0x00A30000 + 796 + 4)
       (Injector.CodeAt 0x401500) 96;
     Injector.EvError "WriteProcessMemory failed: %d\n";
     Injector.EvVirtualFreeEx 0x00A30000].
Proof. reflexivity. Qed.

Lemma C5_remote_memory_on_failure_witness :
  filter Injector.is_free
    (Injector.InjectDLL Injector.code_write_fails_os 0x401500 0x401560) = [].
Proof.
  refine (proj1 (proj2 (proj1
           (C5_remote_memory_on_failure Injector.code_write_fails_os
              0x401500 0x401560 _ _ _) _))).
  - discriminate.
  - repeat split; discriminate.
  - right; left; reflexivity.
  - discriminate.
Defined.

(** ** CacheDecoder *)

Section CacheFacts.
Import CacheDecoder.

(** The two pads are the first 64 key bytes, each XOR-ed with the
    constant. *)
Lemma xor_key_pads pLsaKey :
  (64 <= List.length pLsaKey)%nat ->
  xor_key pLsaKey k_ipad = map (fun b => Z.lxor b 0x36) (firstn 64 pLsaKey)
  /\ xor_key pLsaKey k_opad = map (fun b => Z.lxor b 0x5c) (firstn 64 pLsaKey).
Proof.
  intros H.
  do 64 (destruct pLsaKey as [| ? pLsaKey]; [cbn in H; lia |]).
  split; reflexivity.
Qed.

Lemma narrow_length buf base dwLen :
  List.length (narrow buf base dwLen) = Z.to_nat ((dwLen + 1) / 2).
Proof. unfold narrow. rewrite length_map, length_seq. reflexivity. Qed.

Lemma narrow_nth buf base dwLen i :
  2 * Z.of_nat i < dwLen ->
  nth i (narrow buf base dwLen) 0 = byte_at buf (base + 2 * Z.of_nat i).
Proof.
  intros Hi.
  assert (Hlt : (i < Z.to_nat ((dwLen + 1) / 2))%nat).
  { assert (Hq : Z.of_nat i + 1 <= (dwLen + 1) / 2)
      by (apply Z.div_le_lower_bound; lia).
    lia. }
  unfold narrow.
  rewrite (nth_indep _ 0 ((fun k => byte_at buf (base + 2 * Z.of_nat k)) 0%nat))
    by (rewrite length_map, length_seq; exact Hlt).
  rewrite (map_nth (fun k => byte_at buf (base + 2 * Z.of_nat k))).
  rewrite seq_nth by exact Hlt. reflexivity.
Qed.

Lemma narrow_fits buf base dwLen :
  dwLen < 255 -> (128 <=? List.length (narrow buf base dwLen))%nat = false.
Proof.
  intros H. rewrite narrow_length. apply Nat.leb_gt.
  assert ((dwLen + 1) / 2 < 128) by (apply Z.div_lt_upper_bound; lia).
  lia.
Qed.

Lemma extract_fits buf u d n :
  u < 255 -> d < 255 -> n < 255 ->
  exists e, extract buf u d n = inr e.
Proof.
  intros Hu Hd Hn. unfold extract.
  rewrite !narrow_fits by assumption. cbn [orb]. eexists. reflexivity.
Qed.

(** What [extract] returns, field by field. *)
Lemma extract_fields buf u d n e :
  extract buf u d n = inr e ->
  szUsername e = narrow buf 168 u
  /\ szDomain e = narrow buf (168 + u + dwJoke u) d
  /\ szDNSDomain e = narrow buf (168 + u + dwJoke u + d + dwJoke d) n
  /\ verifier e = sub buf 96 16.
Proof.
  unfold extract. destruct (_ || _ || _)%bool; [discriminate |].
  intros E. injection E as <-. repeat split.
Qed.

Section WithPrimitives.
Context {cp : CryptoPrimitives}.

Lemma md5_two_app {laws : CryptoLaws cp} a b : md5_two a b = MD5 (a ++ b).
Proof. unfold md5_two, MD5. rewrite md5_update_app. reflexivity. Qed.

Lemma unprotect_spec {laws : CryptoLaws cp} pLsaKey bCacheVal dwSize :
  (64 <= List.length pLsaKey)%nat -> 96 <= dwSize ->
  unprotect pLsaKey bCacheVal dwSize
  = inr (decrypted_record pLsaKey bCacheVal dwSize).
Proof.
  intros Hkey Hsize. unfold unprotect, decrypted_record, HMAC_MD5.
  destruct (Nat.ltb_spec (List.length pLsaKey) 64); [lia |].
  destruct (Z.ltb_spec dwSize 96); [lia |].
  destruct (xor_key_pads pLsaKey Hkey) as [-> ->].
  rewrite !md5_two_app.
  replace (96 + Z.to_nat (dwSize - 96))%nat with (Z.to_nat dwSize) by lia.
  reflexivity.
Qed.

Lemma unprotect_inr pLsaKey bCacheVal dwSize buf' :
  unprotect pLsaKey bCacheVal dwSize = inr buf' ->
  (64 <= List.length pLsaKey)%nat /\ 96 <= dwSize
  /\ exists rest, buf' = firstn 96 bCacheVal ++ rest.
Proof.
  unfold unprotect.
  destruct (Nat.ltb_spec (List.length pLsaKey) 64); [discriminate |].
  destruct (Z.ltb_spec dwSize 96); [discriminate |].
  intros E. injection E as <-. repeat split; try assumption.
  eexists. reflexivity.
Qed.

Lemma decrypted_record_length {laws : CryptoLaws cp} pLsaKey bCacheVal dwSize :
  96 <= dwSize <= Z.of_nat (List.length bCacheVal) ->
  List.length (decrypted_record pLsaKey bCacheVal dwSize) = List.length bCacheVal.
Proof.
  intros H. unfold decrypted_record, sub.
  rewrite !length_app, rc4_crypt_length, !length_firstn, !length_skipn. lia.
Qed.

(** The header, below offset 96, is the same before and after. *)
Lemma header_unchanged bCacheVal rest k :
  (96 <= List.length bCacheVal)%nat -> 0 <= k < 96 ->
  byte_at (firstn 96 bCacheVal ++ rest) k = byte_at bCacheVal k.
Proof.
  intros Hlen Hk. unfold byte_at.
  rewrite app_nth1 by (rewrite length_firstn; lia).
  rewrite nth_firstn.
  destruct (Nat.ltb_spec (Z.to_nat k) 96); [reflexivity | lia].
Qed.

Lemma DumpPWCache_record_skipped pLsaKey bCacheVal dwSize :
  DumpPWCache_record pLsaKey bCacheVal dwSize = Skipped
  <-> dwSize = 0 \/ byte_at bCacheVal 0 = 0.
Proof.
  unfold DumpPWCache_record.
  destruct (Z.eqb_spec dwSize 0) as [E | N]; [tauto |].
  destruct (Z.eqb_spec (byte_at bCacheVal 0) 0) as [E0 | N0]; [tauto |].
  split; [| tauto].
  destruct (unprotect pLsaKey bCacheVal dwSize); [discriminate |].
  destruct (extract _ _ _ _); discriminate.
Qed.

Lemma DumpPWCache_record_decoded pLsaKey bCacheVal dwSize buf' e :
  DumpPWCache_record pLsaKey bCacheVal dwSize = Decoded buf' e ->
  unprotect pLsaKey bCacheVal dwSize = inr buf'
  /\ extract buf' (byte_at bCacheVal 0) (byte_at bCacheVal 2)
       (byte_at bCacheVal 60) = inr e.
Proof.
  unfold DumpPWCache_record.
  destruct (dwSize =? 0); [discriminate |].
  destruct (byte_at bCacheVal 0 =? 0); [discriminate |].
  destruct (unprotect pLsaKey bCacheVal dwSize) as [u | b]; [discriminate |].
  destruct (extract b _ _ _) as [u | e'] eqn:Ex; [discriminate |].
  intros E. injection E as <- <-. split; [reflexivity | exact Ex].
Qed.

(** A record of at least 96 bytes with a non-zero username length is
    decoded, whatever its three length fields point to. *)
Lemma DumpPWCache_record_decodes pLsaKey bCacheVal dwSize :
  (64 <= List.length pLsaKey)%nat -> 96 <= dwSize ->
  byte_at bCacheVal 0 <> 0 ->
  byte_at bCacheVal 0 < 255 -> byte_at bCacheVal 2 < 255 ->
  byte_at bCacheVal 60 < 255 ->
  exists buf' e, DumpPWCache_record pLsaKey bCacheVal dwSize = Decoded buf' e.
Proof.
  intros Hkey Hsize Hu0 Hu Hd Hn. unfold DumpPWCache_record, unprotect.
  destruct (Z.eqb_spec dwSize 0); [lia |].
  destruct (Z.eqb_spec (byte_at bCacheVal 0) 0); [contradiction |].
  destruct (Nat.ltb_spec (List.length pLsaKey) 64); [lia |].
  destruct (Z.ltb_spec dwSize 96); [lia |].
  match goal with
  | |- context [extract ?b ?u ?d ?n] =>
      destruct (extract_fits b u d n Hu Hd Hn) as [e ->]
  end.
  eexists; eexists; reflexivity.
Qed.

End WithPrimitives.
End CacheFacts.

Lemma stand_in_laws : CacheDecoder.CryptoLaws CacheDecoder.stand_in.
Proof.
  split.
  - intros c a b. cbn. symmetry. apply app_assoc.
  - intros s d. cbn. apply length_map.
Qed.

Example sample_record_decodes :
  CacheDecoder.DumpPWCache_record (cp := CacheDecoder.stand_in)
    CacheDecoder.sample_key64
    (CacheDecoder.buffer_holding CacheDecoder.sample_record 0xCC) 182
  = CacheDecoder.Decoded
      (CacheDecoder.buffer_holding
         (CacheDecoder.sample_header ++ CacheDecoder.sample_payload) 0xCC)
      {| CacheDecoder.szUsername := [0x75; 0x73; 0x65; 0x72];
         CacheDecoder.verifier := map Z.of_nat (seq 160 16);
         CacheDecoder.szDomain := [0x44; 0x4D];
         CacheDecoder.szDNSDomain := [] |}.
Proof. vm_compute. reflexivity. Qed.

Example sample_record_line :
  CacheDecoder.cache_lines
    (CacheDecoder.DumpPWCache_loop (cp := CacheDecoder.stand_in)
       CacheDecoder.sample_key64 (repeat 0xCC 4096)
       [CacheDecoder.sample_record])
  = [("user:A0A1A2A3A4A5A6A7A8A9AAABACADAEAF:DM:" ++ HexDumper.newline)%string].
Proof. vm_compute. reflexivity. Qed.

(** C1, as stated, fails: with a master key of 16 bytes the loop that
    builds the pads reads [pLsaKey[16 .. 63]], past the key; no pad is
    "key XOR constant" there, whatever the primitives are. *)
Lemma C1_sixteen_byte_key :
  List.length CacheDecoder.sample_key16 = 16%nat
  /\ (forall cp : CacheDecoder.CryptoPrimitives,
        CacheDecoder.DumpPWCache_record (cp := cp) CacheDecoder.sample_key16
          (CacheDecoder.buffer_holding CacheDecoder.sample_record 0xCC) 182
        = CacheDecoder.Undefined CacheDecoder.KeyOverread).
Proof. split; [reflexivity | intros cp; reflexivity]. Qed.

(** C1, amended.  For every master-key buffer of at least 64 bytes and every
    record of at least 96 bytes, the session key is HMAC-MD5 over the first
    64 key bytes: the inner and outer pads are those 64 bytes XOR-ed with
    0x36 and 0x5c, [innerDigest = MD5(innerPad || record[64:80])],
    [sessionKey = MD5(outerPad || innerDigest)]; the bytes from offset 96 to
    the end of the record are then run through RC4 under that key, in
    place, everything else in the buffer staying as it was. *)
Theorem C1_session_key_derivation
    (cp : CacheDecoder.CryptoPrimitives) (laws : CacheDecoder.CryptoLaws cp)
    (pLsaKey bCacheVal : list Z) (dwSize : Z)
    (Hkey : (64 <= List.length pLsaKey)%nat)
    (Hsize : 96 <= dwSize <= Z.of_nat (List.length bCacheVal)) :
  let K := firstn 64 pLsaKey in
  let MD5 m := CacheDecoder.md5_finish
                 (CacheDecoder.md5_update CacheDecoder.md5_starts m) in
  let innerPad := map (fun b => Z.lxor b 0x36) K in
  let outerPad := map (fun b => Z.lxor b 0x5c) K in
  let innerDigest := MD5 (innerPad ++ sub bCacheVal 64 16) in
  let sessionKey := MD5 (outerPad ++ innerDigest) in
  let decrypted :=
    firstn 96 bCacheVal
    ++ CacheDecoder.rc4_crypt (CacheDecoder.rc4_setup sessionKey)
         (sub bCacheVal 96 (Z.to_nat (dwSize - 96)))
    ++ skipn (Z.to_nat dwSize) bCacheVal in
  List.length innerPad = 64%nat /\ List.length outerPad = 64%nat
  /\ CacheDecoder.unprotect pLsaKey bCacheVal dwSize = inr decrypted
  /\ (forall buf' e,
        CacheDecoder.DumpPWCache_record pLsaKey bCacheVal dwSize
        = CacheDecoder.Decoded buf' e -> buf' = decrypted)
  /\ List.length decrypted = List.length bCacheVal.
Proof.
  intros K MD5 innerPad outerPad innerDigest sessionKey decrypted.
  assert (Hun : CacheDecoder.unprotect pLsaKey bCacheVal dwSize = inr decrypted)
    by (apply unprotect_spec; [exact Hkey | lia]).
  split; [subst innerPad K; rewrite length_map, length_firstn; lia |].
  split; [subst outerPad K; rewrite length_map, length_firstn; lia |].
  split; [exact Hun |].
  split.
  - intros buf' e Hdec.
    apply DumpPWCache_record_decoded in Hdec. destruct Hdec as [Hun' _].
    rewrite Hun in Hun'. injection Hun' as <-. reflexivity.
  - apply (decrypted_record_length pLsaKey bCacheVal dwSize Hsize).
Qed.

Lemma C1_session_key_derivation_witness :
  (64 <= List.length CacheDecoder.sample_key64)%nat
  /\ List.length
       (map (fun b => Z.lxor b 0x36) (firstn 64 CacheDecoder.sample_key64))
     = 64%nat.
Proof.
  assert (Hkey : (64 <= List.length CacheDecoder.sample_key64)%nat)
    by (vm_compute; lia).
  split; [exact Hkey |].
  refine (proj1 (C1_session_key_derivation CacheDecoder.stand_in stand_in_laws
                   CacheDecoder.sample_key64
                   (CacheDecoder.buffer_holding CacheDecoder.sample_record 0xCC)
                   182 Hkey _)).
  vm_compute. split; discriminate.
Defined.

(** C2, as stated, fails: a record of 100 bytes announces an 8-byte
    username, which the extraction reads at offsets 168 .. 175, past the
    100 bytes supplied; the claim calls this a failure, but the record is
    decoded, whatever the primitives are. *)
Lemma C2_read_past_record :
  Z.of_nat (List.length CacheDecoder.short_record)
  < 168 + CacheDecoder.byte_at CacheDecoder.short_record 0
  /\ (forall cp : CacheDecoder.CryptoPrimitives,
        exists buf' e,
          CacheDecoder.DumpPWCache_record (cp := cp) CacheDecoder.sample_key64
            (CacheDecoder.buffer_holding CacheDecoder.short_record 0xCC) 100
          = CacheDecoder.Decoded buf' e).
Proof.
  split; [reflexivity |].
  intros cp. apply DumpPWCache_record_decodes.
  - vm_compute. lia.
  - lia.
  - discriminate.
  - reflexivity.
  - reflexivity.
  - reflexivity.
Qed.

(** C2, amended.  A record is skipped exactly when its length is 0 or its
    username-length byte is 0; the loop then goes on with the next record.
    There is no test against 96 and none of the three length fields
    against the record length: every record of at least 96 bytes with a
    non-zero username length is decoded (given 64 key bytes and length
    bytes below 255), and the loop goes on after it as well. *)
Theorem C2_record_skip_rule
    (cp : CacheDecoder.CryptoPrimitives) (pLsaKey stale data : list Z)
    (rest : list (list Z)) (Hfit : (List.length data <= 4096)%nat) :
  let bCacheVal := data ++ skipn (List.length data) stale in
  let dwSize := Z.of_nat (List.length data) in
  let result := CacheDecoder.DumpPWCache_record pLsaKey bCacheVal dwSize in
  (result = CacheDecoder.Skipped
   <-> dwSize = 0 \/ CacheDecoder.byte_at bCacheVal 0 = 0)
  /\ ((64 <= List.length pLsaKey)%nat -> 96 <= dwSize ->
      CacheDecoder.byte_at bCacheVal 0 <> 0 ->
      CacheDecoder.byte_at bCacheVal 0 < 255 ->
      CacheDecoder.byte_at bCacheVal 2 < 255 ->
      CacheDecoder.byte_at bCacheVal 60 < 255 ->
      exists buf' e, result = CacheDecoder.Decoded buf' e)
  /\ (result = CacheDecoder.Skipped ->
      CacheDecoder.DumpPWCache_loop pLsaKey stale (data :: rest)
      = CacheDecoder.Skipped :: CacheDecoder.DumpPWCache_loop pLsaKey bCacheVal rest)
  /\ (forall buf' e, result = CacheDecoder.Decoded buf' e ->
      CacheDecoder.DumpPWCache_loop pLsaKey stale (data :: rest)
      = CacheDecoder.Decoded buf' e
        :: CacheDecoder.DumpPWCache_loop pLsaKey buf' rest).
Proof.
  intros bCacheVal dwSize result.
  split; [apply DumpPWCache_record_skipped |].
  split; [apply DumpPWCache_record_decodes |].
  assert (Hq : (4096 <? List.length data)%nat = false) by (apply Nat.ltb_ge; exact Hfit).
  split.
  - intros Hr. cbn [CacheDecoder.DumpPWCache_loop]. rewrite Hq.
    fold bCacheVal dwSize result. rewrite Hr. reflexivity.
  - intros buf' e Hr. cbn [CacheDecoder.DumpPWCache_loop]. rewrite Hq.
    fold bCacheVal dwSize result. rewrite Hr. reflexivity.
Qed.

Example padded_record_line :
  CacheDecoder.cache_lines
    (CacheDecoder.DumpPWCache_loop (cp := CacheDecoder.stand_in)
       CacheDecoder.sample_key64 (repeat 0xCC 4096)
       [CacheDecoder.padded_record])
  = [("bob:B0B1B2B3B4B5B6B7B8B9BABBBCBDBEBF:DM:d.x" ++ HexDumper.newline)%string].
Proof. vm_compute. reflexivity. Qed.

Example loop_goes_on_after_skip :
  CacheDecoder.cache_lines
    (CacheDecoder.DumpPWCache_loop (cp := CacheDecoder.stand_in)
       CacheDecoder.sample_key64 (repeat 0xCC 4096)
       [[]; 0 :: repeat 1 120; CacheDecoder.sample_record])
  = [("user:A0A1A2A3A4A5A6A7A8A9AAABACADAEAF:DM:" ++ HexDumper.newline)%string].
Proof. vm_compute. reflexivity. Qed.

Lemma C2_record_skip_rule_witness :
  (List.length (0 :: repeat 1 120) <= 4096)%nat
  /\ CacheDecoder.DumpPWCache_record (cp := CacheDecoder.stand_in)
       CacheDecoder.sample_key64
       ((0 :: repeat 1 120) ++ skipn 121 (repeat 0xCC 4096)) 121
     = CacheDecoder.Skipped.
Proof.
  assert (Hfit : (List.length (0 :: repeat 1 120) <= 4096)%nat)
    by (vm_compute; lia).
  split; [exact Hfit |].
  refine (proj2 (proj1 (C2_record_skip_rule CacheDecoder.stand_in
                          CacheDecoder.sample_key64 (repeat 0xCC 4096)
                          (0 :: repeat 1 120) [] Hfit)) _).
  right. reflexivity.
Defined.

(** C3, as stated, fails in its example: for a domain length of 4,
    [4 / 2 = 2] and [2 mod 2 = 0], so the second padding is 0, not 2. *)
Lemma C3_padding_of_four :
  CacheDecoder.dwJoke 8 = 0 /\ CacheDecoder.dwJoke 4 = 0
  /\ (CacheDecoder.dwJoke 4 =? 2) = false.
Proof. repeat split. Qed.

(** C3, amended.  For every record that is decoded, the username, domain and
    DNS-domain lengths are the bytes at offsets 0, 2 and 60 of the buffer
    (the same before and after the decryption, which leaves the first 96
    bytes alone).  With [pad1 = 2*((usernameLen/2) mod 2)] and
    [pad2 = 2*((domainLen/2) mod 2)], the username is every second byte
    from offset 168, the domain from [168 + usernameLen + pad1], the DNS
    domain from [168 + usernameLen + pad1 + domainLen + pad2], all read in
    the decrypted buffer; the verifier is the 16 bytes at offset 96.  For
    lengths 8 and 4 the paddings are 0 and 0; a length of 6 is padded
    by 2. *)
Theorem C3_field_offsets
    (cp : CacheDecoder.CryptoPrimitives) (pLsaKey bCacheVal : list Z)
    (dwSize : Z) (buf' : list Z) (e : CacheDecoder.CacheEntry)
    (Hbuf : (96 <= List.length bCacheVal)%nat)
    (Hdec : CacheDecoder.DumpPWCache_record pLsaKey bCacheVal dwSize
            = CacheDecoder.Decoded buf' e) :
  let usernameLen := CacheDecoder.byte_at buf' 0 in
  let domainLen := CacheDecoder.byte_at buf' 2 in
  let dnsDomainLen := CacheDecoder.byte_at buf' 60 in
  let pad1 := 2 * ((usernameLen / 2) mod 2) in
  let pad2 := 2 * ((domainLen / 2) mod 2) in
  (usernameLen = CacheDecoder.byte_at bCacheVal 0
   /\ domainLen = CacheDecoder.byte_at bCacheVal 2
   /\ dnsDomainLen = CacheDecoder.byte_at bCacheVal 60)
  /\ (List.length (CacheDecoder.szUsername e) = Z.to_nat ((usernameLen + 1) / 2)
      /\ forall i, 2 * Z.of_nat i < usernameLen ->
           nth i (CacheDecoder.szUsername e) 0
           = CacheDecoder.byte_at buf' (168 + 2 * Z.of_nat i))
  /\ (List.length (CacheDecoder.szDomain e) = Z.to_nat ((domainLen + 1) / 2)
      /\ forall i, 2 * Z.of_nat i < domainLen ->
           nth i (CacheDecoder.szDomain e) 0
           = CacheDecoder.byte_at buf' (168 + usernameLen + pad1 + 2 * Z.of_nat i))
  /\ (List.length (CacheDecoder.szDNSDomain e) = Z.to_nat ((dnsDomainLen + 1) / 2)
      /\ forall i, 2 * Z.of_nat i < dnsDomainLen ->
           nth i (CacheDecoder.szDNSDomain e) 0
           = CacheDecoder.byte_at buf'
               (168 + usernameLen + pad1 + domainLen + pad2 + 2 * Z.of_nat i))
  /\ CacheDecoder.verifier e = sub buf' 96 16
  /\ ((usernameLen = 8 -> domainLen = 4 -> pad1 = 0 /\ pad2 = 0)
      /\ (domainLen = 6 -> pad2 = 2)).
Proof.
  intros usernameLen domainLen dnsDomainLen pad1 pad2.
  destruct (DumpPWCache_record_decoded _ _ _ _ _ Hdec) as [Hun Hex].
  destruct (unprotect_inr _ _ _ _ Hun) as (_ & _ & rest & Hbuf').
  assert (H0 : usernameLen = CacheDecoder.byte_at bCacheVal 0)
    by (subst usernameLen buf'; apply header_unchanged; [exact Hbuf | lia]).
  assert (H2 : domainLen = CacheDecoder.byte_at bCacheVal 2)
    by (subst domainLen buf'; apply header_unchanged; [exact Hbuf | lia]).
  assert (H60 : dnsDomainLen = CacheDecoder.byte_at bCacheVal 60)
    by (subst dnsDomainLen buf'; apply header_unchanged; [exact Hbuf | lia]).
  rewrite <- H0, <- H2, <- H60 in Hex.
  destruct (extract_fields _ _ _ _ _ Hex) as (Eu & Ed & En & Ev).
  unfold CacheDecoder.dwJoke in Ed, En. fold pad1 pad2 in Ed, En.
  split; [auto |].
  split; [rewrite Eu; split; [apply narrow_length | intros i Hi; apply narrow_nth, Hi] |].
  split; [rewrite Ed; split; [apply narrow_length | intros i Hi; apply narrow_nth, Hi] |].
  split; [rewrite En; split; [apply narrow_length | intros i Hi; apply narrow_nth, Hi] |].
  split; [exact Ev |].
  subst pad1 pad2. split.
  - intros -> ->. split; reflexivity.
  - intros ->. reflexivity.
Qed.

Lemma C3_field_offsets_witness :
  (96 <= List.length (CacheDecoder.buffer_holding CacheDecoder.sample_record 0xCC))%nat
  /\ CacheDecoder.verifier
       {| CacheDecoder.szUsername := [0x75; 0x73; 0x65; 0x72];
          CacheDecoder.verifier := map Z.of_nat (seq 160 16);
          CacheDecoder.szDomain := [0x44; 0x4D];
          CacheDecoder.szDNSDomain := [] |}
     = sub (CacheDecoder.buffer_holding
              (CacheDecoder.sample_header ++ CacheDecoder.sample_payload) 0xCC)
           96 16.
Proof.
  assert (Hbuf : (96 <= List.length (CacheDecoder.buffer_holding
                                       CacheDecoder.sample_record 0xCC))%nat)
    by (vm_compute; lia).
  split; [exact Hbuf |].
  refine (proj1 (proj2 (proj2 (proj2 (proj2
            (C3_field_offsets CacheDecoder.stand_in CacheDecoder.sample_key64
               (CacheDecoder.buffer_holding CacheDecoder.sample_record 0xCC)
               182 _ _ Hbuf _)))))).
  vm_compute. reflexivity.
Defined.

(* ===================================================================== *)
(** * Further properties                                                  *)
(* ===================================================================== *)

(** ** Strings *)

Lemma str_app_assoc (a b c : string) : ((a ++ b) ++ c = a ++ (b ++ c))%string.
Proof. induction a as [| x a IH]; cbn; [reflexivity | rewrite IH; reflexivity]. Qed.

Lemma str_app_nil_r (a : string) : (a ++ "")%string = a.
Proof. induction a as [| x a IH]; cbn; [reflexivity | rewrite IH; reflexivity]. Qed.

Lemma str_app_length (a b : string) :
  String.length (a ++ b) = (String.length a + String.length b)%nat.
Proof. induction a as [| x a IH]; cbn; [reflexivity | rewrite IH; reflexivity]. Qed.

Lemma concat_cons (h : string) (t : list string) :
  String.concat "" (h :: t) = (h ++ String.concat "" t)%string.
Proof. destruct t; cbn; [rewrite str_app_nil_r |]; reflexivity. Qed.

Lemma spaces_length n : String.length (spaces n) = n.
Proof. induction n as [| n IH]; cbn; [reflexivity | rewrite IH; reflexivity]. Qed.

Lemma string_of_list_ascii_length l :
  String.length (string_of_list_ascii l) = List.length l.
Proof. induction l as [| c l IH]; cbn; [reflexivity | rewrite IH; reflexivity]. Qed.

(** ** Rows in closed form *)

Section RowForm.
Import HexDumper HexReader.
Variable isprint : Z -> bool.

Let shown (b : Z) : ascii := if isprint b then char_of_byte b else "."%char.

Lemma tail_loop_closed p : forall szDumpBuff szTempBuffer,
  tail_loop isprint p szDumpBuff szTempBuffer
  = ((szDumpBuff ++ String.concat "" (map fmt_group p))%string,
     szTempBuffer ++ map shown p).
Proof.
  induction p as [| b p IH]; intros d t.
  - cbn. rewrite str_app_nil_r, app_nil_r. reflexivity.
  - cbn [tail_loop map]. rewrite IH, concat_cons, str_app_assoc, <- app_assoc.
    reflexivity.
Qed.

Lemma fmt_tail_row_closed p : fmt_tail_row isprint p = row_of isprint p.
Proof.
  unfold fmt_tail_row, row_of. rewrite tail_loop_closed. reflexivity.
Qed.

Lemma fmt_full_row_closed p :
  (16 <= List.length p)%nat ->
  fmt_full_row isprint p = row_of isprint (firstn 16 p).
Proof.
  intros H. unfold fmt_full_row, row_of.
  rewrite length_firstn, Nat.min_l by exact H. reflexivity.
Qed.

(** One step of the dump, whatever the number of bytes left. *)
Lemma dump_rows_step p :
  p <> [] ->
  dump_rows isprint p
  = row_of isprint (firstn 16 p) :: dump_rows isprint (skipn 16 p).
Proof.
  intros Hp.
  assert (Hlen : (0 < List.length p)%nat)
    by (destruct p; [contradiction | cbn; lia]).
  destruct (le_lt_dec (List.length p) 16) as [Hle | Hgt].
  - rewrite dump_rows_last by lia.
    rewrite firstn_all2 by exact Hle.
    rewrite skipn_all2 by exact Hle.
    rewrite fmt_tail_row_closed. reflexivity.
  - rewrite dump_rows_long by exact Hgt.
    rewrite fmt_full_row_closed by lia. reflexivity.
Qed.

Lemma row_of_length g :
  (List.length g <= 16)%nat ->
  String.length (row_of isprint g) = (50 + List.length g)%nat.
Proof.
  intros H. unfold row_of.
  rewrite !str_app_length, spaces_length, string_of_list_ascii_length, length_map.
  assert (Hg : String.length (String.concat "" (map fmt_group g))
               = (3 * List.length g)%nat).
  { clear H. induction g as [| x g IH]; [reflexivity |].
    cbn [map]. rewrite concat_cons, str_app_length, IH. cbn. lia. }
  rewrite Hg. lia.
Qed.

End RowForm.

(** ** What a row is made of, and reading it back *)

Section RowContent.
Import HexDumper HexReader.

Lemma all_printable_app a b :
  all_printable (a ++ b) = all_printable a && all_printable b.
Proof.
  induction a as [| c a IH]; cbn; [reflexivity |].
  rewrite IH, andb_assoc. reflexivity.
Qed.

Lemma printable_hex_digit d : 0 <= d < 16 -> printable (hex_digit d) = true.
Proof.
  intros Hd.
  assert (Hcases : d = 0 \/ d = 1 \/ d = 2 \/ d = 3 \/ d = 4 \/ d = 5 \/ d = 6
                   \/ d = 7 \/ d = 8 \/ d = 9 \/ d = 10 \/ d = 11 \/ d = 12
                   \/ d = 13 \/ d = 14 \/ d = 15) by lia.
  repeat (destruct Hcases as [-> | Hcases]; [reflexivity |]).
  subst d. reflexivity.
Qed.

Lemma N_of_char_of_byte b :
  is_byte b -> Z.of_N (N_of_ascii (char_of_byte b)) = b.
Proof.
  unfold is_byte, char_of_byte. intros H.
  rewrite N_ascii_embedding by lia. lia.
Qed.

Lemma printable_shown b :
  is_byte b ->
  printable (if IsReadableChar b then char_of_byte b else "."%char) = true.
Proof.
  intros Hb. unfold IsReadableChar.
  destruct ((32 <=? b) && (b <=? 126)) eqn:E; [| reflexivity].
  unfold printable. rewrite N_of_char_of_byte by exact Hb. exact E.
Qed.

Lemma all_printable_spaces n : all_printable (spaces n) = true.
Proof. induction n as [| n IH]; cbn; [reflexivity | exact IH]. Qed.

Lemma all_printable_row g :
  is_bytes g -> all_printable (row_of IsReadableChar g) = true.
Proof.
  intros Hg. unfold row_of.
  rewrite !all_printable_app, all_printable_spaces.
  assert (H1 : all_printable (String.concat "" (map fmt_group g)) = true).
  { induction Hg as [| x g Hx Hg IH]; [reflexivity |].
    cbn [map]. rewrite concat_cons, all_printable_app, IH.
    destruct (byte_nibbles x Hx) as [Hhi Hlo].
    cbn. rewrite !printable_hex_digit by assumption. reflexivity. }
  assert (H2 : all_printable
                 (string_of_list_ascii
                    (map (fun b => if IsReadableChar b then char_of_byte b
                                   else "."%char) g)) = true).
  { clear H1. induction Hg as [| x g Hx Hg IH]; [reflexivity |].
    cbn [map string_of_list_ascii all_printable].
    rewrite printable_shown by exact Hx. exact IH. }
  rewrite H1, H2. reflexivity.
Qed.

(** The groups of a row read back as its bytes, whatever follows the two
    blanks after them. *)
Lemma read_groups_groups g t :
  is_bytes g ->
  read_groups (String.concat "" (map fmt_group g) ++ String " " (String " " t)) = g.
Proof.
  intros Hg. induction Hg as [| x g Hx Hg IH].
  - cbn. destruct t; reflexivity.
  - cbn [map]. rewrite concat_cons, str_app_assoc.
    destruct (byte_nibbles x Hx) as [Hhi Hlo].
    change (fmt_group x)
      with (String " " (String (hex_digit (x / 16))
                          (String (hex_digit (x mod 16)) EmptyString))).
    cbn [append]. cbn [read_groups].
    rewrite (hex_value_digit _ Hhi), (hex_value_digit _ Hlo), IH.
    f_equal. pose proof (Z.div_mod x 16). lia.
Qed.

Lemma read_groups_row isprint g t :
  is_bytes g -> read_groups (row_of isprint g ++ t) = g.
Proof.
  intros Hg. unfold row_of.
  replace ((16 - List.length g) * 3 + 2)%nat
    with (S (S ((16 - List.length g) * 3))) by lia.
  cbn [spaces]. rewrite !str_app_assoc. cbn [append].
  apply read_groups_groups, Hg.
Qed.

Lemma is_bytes_split n g :
  is_bytes g -> is_bytes (firstn n g) /\ is_bytes (skipn n g).
Proof.
  intros H. unfold is_bytes in *.
  rewrite <- (firstn_skipn n g) in H. apply Forall_app in H. exact H.
Qed.

Lemma is_bytes_firstn n g : is_bytes g -> is_bytes (firstn n g).
Proof. intros H. apply (is_bytes_split n g H). Qed.

Lemma is_bytes_skipn n g : is_bytes g -> is_bytes (skipn n g).
Proof. intros H. apply (is_bytes_split n g H). Qed.

(** Induction over a blob sixteen bytes at a time. *)
Lemma chunk_ind (P : list Z -> Prop) :
  P [] ->
  (forall p, p <> [] -> P (skipn 16 p) -> P p) ->
  forall p, P p.
Proof.
  intros Hnil Hstep p.
  assert (H : forall n p, (List.length p <= n)%nat -> P p).
  { induction n as [| n IH]; intros q Hq.
    - destruct q; [exact Hnil | cbn in Hq; lia].
    - destruct q as [| x q]; [exact Hnil |].
      apply Hstep; [discriminate |].
      apply IH. rewrite length_skipn. cbn in *. lia. }
  apply (H (List.length p)). lia.
Qed.

Lemma undump_rows isprint p (t : string) :
  is_bytes p ->
  undump (map (fun row => (row ++ t)%string) (dump_rows isprint p)) = p.
Proof.
  revert p. apply (chunk_ind (fun p => is_bytes p -> _ = p)).
  - reflexivity.
  - intros p Hp IH Hb.
    rewrite dump_rows_step by exact Hp.
    cbn [map undump flat_map]. fold (undump (map (fun row => (row ++ t)%string)
                                               (dump_rows isprint (skipn 16 p)))).
    rewrite read_groups_row by (apply is_bytes_firstn, Hb).
    rewrite IH by (apply is_bytes_skipn, Hb).
    apply firstn_skipn.
Qed.

Lemma dump_rows_printable p :
  is_bytes p ->
  Forall (fun row => all_printable row = true
                     /\ (51 <= String.length row <= 66)%nat)
         (dump_rows IsReadableChar p).
Proof.
  revert p. apply (chunk_ind (fun p => is_bytes p -> Forall _ _)).
  - intros _. constructor.
  - intros p Hp IH Hb.
    rewrite dump_rows_step by exact Hp. constructor.
    + split; [apply all_printable_row, is_bytes_firstn, Hb |].
      rewrite row_of_length by (rewrite length_firstn; lia).
      rewrite length_firstn.
      destruct p; [contradiction | cbn [List.length]; lia].
    + apply IH, is_bytes_skipn, Hb.
Qed.

Lemma dump_rows_app isprint a b :
  (List.length a mod 16 = 0)%nat ->
  dump_rows isprint (a ++ b) = dump_rows isprint a ++ dump_rows isprint b.
Proof.
  revert a. apply (chunk_ind (fun a => _ -> dump_rows isprint (a ++ b) = _)).
  - reflexivity.
  - intros a Ha IH Hmod.
    assert (Hlen : (16 <= List.length a)%nat).
    { destruct (le_lt_dec 16 (List.length a)) as [H | H]; [exact H |].
      rewrite Nat.mod_small in Hmod by exact H.
      destruct a; [contradiction | discriminate]. }
    rewrite (dump_rows_step isprint a Ha).
    rewrite dump_rows_step by (destruct a; [contradiction | discriminate]).
    rewrite firstn_app, skipn_app.
    replace (16 - List.length a)%nat with 0%nat by lia.
    cbn [firstn skipn]. rewrite app_nil_r.
    cbn [app]. f_equal. apply IH.
    rewrite length_skipn.
    rewrite <- (Nat.Div0.mod_add (List.length a - 16) 1 16).
    replace (List.length a - 16 + 1 * 16)%nat with (List.length a) by lia.
    exact Hmod.
Qed.

End RowContent.

(** X1.  For every byte blob, each text [DumpSecretData] writes is a row
    followed by a newline; the row has between 51 and 66 characters, all of
    them in 0x20 .. 0x7E.  So a row fits [szDumpBuff], holds no NUL that
    would cut it short when printed with [%s], and never breaks the line
    structure of the output file. *)
Theorem X1_rows_are_printable_text (b : list Z) (Hb : is_bytes b) :
  Forall (fun text =>
            exists row, text = (row ++ HexDumper.newline)%string
                        /\ HexReader.all_printable row = true
                        /\ (51 <= String.length row <= 66)%nat)
         (HexDumper.DumpSecretData b).
Proof.
  unfold HexDumper.DumpSecretData.
  pose proof (dump_rows_printable b Hb) as H.
  induction H as [| row rows [Hp Hl] _ IH]; [constructor |].
  cbn [map]. constructor; [| exact IH].
  exists row. repeat split; assumption || lia.
Qed.

Lemma X1_rows_are_printable_text_witness :
  is_bytes [0x41; 0; 0x0A; 0xFF]
  /\ Forall (fun text =>
               exists row, text = (row ++ HexDumper.newline)%string
                           /\ HexReader.all_printable row = true
                           /\ (51 <= String.length row <= 66)%nat)
            (HexDumper.DumpSecretData [0x41; 0; 0x0A; 0xFF]).
Proof.
  assert (H : is_bytes [0x41; 0; 0x0A; 0xFF])
    by (apply is_bytes_forallb; reflexivity).
  split; [exact H | exact (X1_rows_are_printable_text _ H)].
Defined.

(** X2.  The dump loses nothing: reading the hexadecimal groups of the
    texts written by [DumpSecretData], or by [dump_bytes], gives back the
    blob, byte for byte.  In particular two different blobs never have the
    same dump. *)
Theorem X2_dump_round_trip (b : list Z) (Hb : is_bytes b) :
  HexReader.undump (HexDumper.DumpSecretData b) = b
  /\ HexReader.undump (HexDumper.dump_bytes b) = b
  /\ (forall b', is_bytes b' ->
        HexDumper.DumpSecretData b' = HexDumper.DumpSecretData b -> b' = b).
Proof.
  assert (H : forall p, is_bytes p ->
                HexReader.undump (HexDumper.DumpSecretData p) = p)
    by (intros p Hp; apply undump_rows, Hp).
  split; [apply H, Hb |].
  split; [apply undump_rows, Hb |].
  intros b' Hb' E. rewrite <- (H b' Hb'), E. apply H, Hb.
Qed.

Lemma X2_dump_round_trip_witness :
  is_bytes (map Z.of_nat (seq 230 26))
  /\ HexReader.undump (HexDumper.DumpSecretData (map Z.of_nat (seq 230 26)))
     = map Z.of_nat (seq 230 26).
Proof.
  assert (H : is_bytes (map Z.of_nat (seq 230 26)))
    by (apply is_bytes_forallb; reflexivity).
  split; [exact H | exact (proj1 (X2_dump_round_trip _ H))].
Defined.

(** X3.  Dumping is compositional at sixteen-byte boundaries: when the
    length of [a] is a multiple of 16, the dump of [a ++ b] is the dump of
    [a] followed by the dump of [b]. *)
Theorem X3_dump_of_concatenation (a b : list Z)
    (Ha : (List.length a mod 16 = 0)%nat) :
  HexDumper.DumpSecretData (a ++ b)
  = HexDumper.DumpSecretData a ++ HexDumper.DumpSecretData b
  /\ HexDumper.dump_bytes (a ++ b)
     = HexDumper.dump_bytes a ++ HexDumper.dump_bytes b.
Proof.
  unfold HexDumper.DumpSecretData, HexDumper.dump_bytes.
  rewrite !dump_rows_app by exact Ha. rewrite !map_app. split; reflexivity.
Qed.

Lemma X3_dump_of_concatenation_witness :
  HexDumper.DumpSecretData (repeat 0x41 32 ++ [1; 2; 3])
  = HexDumper.DumpSecretData (repeat 0x41 32) ++ HexDumper.DumpSecretData [1; 2; 3].
Proof.
  exact (proj1 (X3_dump_of_concatenation (repeat 0x41 32) [1; 2; 3] eq_refl)).
Defined.

(** ** Transit obfuscation *)

Section ObfuscationFacts.
Import Obfuscation.

Lemma flip_flip c : flip (flip c) = c.
Proof. unfold flip. rewrite Z.lxor_assoc. cbn. apply Z.lxor_0_r. Qed.

Lemma flip_zero c : flip c = 0 <-> c = 1.
Proof. unfold flip. apply Z.lxor_eq_0_iff. Qed.

Lemma flip_one c : flip c = 1 <-> c = 0.
Proof.
  split; [| intros ->; reflexivity].
  intros H. rewrite <- (flip_flip c), H. reflexivity.
Qed.

Lemma flip_byte c : is_byte c -> is_byte (flip c).
Proof.
  unfold is_byte, flip. intros H.
  assert (Hnn : 0 <= Z.lxor c 1) by (apply Z.lxor_nonneg; lia).
  split; [exact Hnn |].
  destruct (Z.eq_dec (Z.lxor c 1) 0) as [-> | Hnz]; [lia |].
  change 256 with (2 ^ 8). apply (proj2 (Z.log2_lt_pow2 (Z.lxor c 1) 8 ltac:(lia))).
  pose proof (Z.log2_lxor c 1 ltac:(lia) ltac:(lia)) as Hl.
  assert (Hc : Z.log2 c < 8).
  { destruct (Z.eq_dec c 0) as [-> | Hc0]; [cbn; lia |].
    apply (proj1 (Z.log2_lt_pow2 c 8 ltac:(lia))). cbn. lia. }
  change (Z.log2 1) with 0 in Hl. lia.
Qed.

End ObfuscationFacts.

Section ObfuscateText.
Import Obfuscation.

Lemma cstr_text s rest :
  Forall (fun c => c <> 0) s -> cstr (s ++ 0 :: rest) = s.
Proof.
  induction 1 as [| c s Hc Hs IH]; [reflexivity |].
  cbn. destruct (Z.eqb_spec c 0); [contradiction |]. rewrite IH. reflexivity.
Qed.

Lemma Obfuscate_buffer s rest :
  Forall (fun c => c <> 0) s ->
  Obfuscate (s ++ 0 :: rest) = map flip s ++ 0 :: rest.
Proof.
  intros Hs. unfold Obfuscate, strlen. rewrite (cstr_text s rest Hs).
  rewrite firstn_app, firstn_all, Nat.sub_diag. cbn [firstn].
  rewrite app_nil_r.
  rewrite skipn_app, skipn_all2 by lia.
  replace (S (List.length s) - List.length s)%nat with 1%nat by lia.
  reflexivity.
Qed.

Lemma clean_nonzero s : clean s -> Forall (fun c => c <> 0) s.
Proof. unfold clean. apply Forall_impl. tauto. Qed.

Lemma clean_flip s : clean s -> clean (map flip s).
Proof.
  unfold clean. intros H. apply Forall_map.
  eapply Forall_impl; [| exact H]. cbn. intros c (Hb & H0 & H1).
  split; [apply flip_byte, Hb |].
  split; [rewrite flip_zero | rewrite flip_one]; assumption.
Qed.

Lemma map_flip_flip s : map flip (map flip s) = s.
Proof.
  rewrite map_map. rewrite <- (map_id s) at 2.
  apply map_ext. intros c. apply flip_flip.
Qed.

Lemma cleanb_spec s : cleanb s = true -> clean s.
Proof.
  unfold cleanb, clean. intros H. apply Forall_forall. intros c Hc.
  rewrite forallb_forall in H. specialize (H c Hc).
  apply andb_true_iff in H. destruct H as [H H1].
  apply andb_true_iff in H. destruct H as [Hb H0].
  apply is_byteb_spec in Hb.
  apply negb_true_iff, Z.eqb_neq in H0.
  apply negb_true_iff, Z.eqb_neq in H1. tauto.
Qed.

Lemma fgets_take_app n l :
  fst (fgets_take n l) ++ snd (fgets_take n l) = l.
Proof.
  revert l. induction n as [| n IH]; intros [| c l]; try reflexivity.
  cbn [fgets_take]. destruct (c =? 10); [reflexivity |].
  specialize (IH l). destruct (fgets_take n l). cbn in *.
  rewrite IH. reflexivity.
Qed.

Lemma fgets_take_shrinks n c l :
  (List.length (snd (fgets_take (S n) (c :: l))) <= List.length l)%nat.
Proof.
  pose proof (fgets_take_app (S n) (c :: l)) as H.
  apply (f_equal (@List.length Z)) in H. rewrite length_app in H.
  assert (Hf : (1 <= List.length (fst (fgets_take (S n) (c :: l))))%nat).
  { cbn [fgets_take]. destruct (c =? 10); [cbn; lia |].
    destruct (fgets_take n l). cbn. lia. }
  cbn [List.length] in H. lia.
Qed.

Lemma plain_clean s : plain s -> clean s.
Proof. unfold plain, clean. apply Forall_impl. tauto. Qed.

Lemma plain_no_eof s : plain s -> ~ In 26 s.
Proof.
  unfold plain. intros H Hin. rewrite Forall_forall in H.
  specialize (H _ Hin). tauto.
Qed.

Lemma plain_flip s : plain s -> plain (map flip s).
Proof.
  unfold plain. intros H. apply Forall_map.
  eapply Forall_impl; [| exact H]. cbn. intros c (Hb & H0 & H1 & H26 & H27).
  split; [apply flip_byte, Hb |].
  split; [rewrite flip_zero; assumption |].
  split; [rewrite flip_one; assumption |].
  split; intros E; apply (f_equal flip) in E; rewrite flip_flip in E;
    [apply H27 | apply H26]; exact E.
Qed.

Lemma plainb_spec s : plainb s = true -> plain s.
Proof.
  unfold plainb, plain. intros H. apply Forall_forall. intros c Hc.
  rewrite forallb_forall in H. specialize (H c Hc).
  do 4 (apply andb_true_iff in H; destruct H as [H ?]).
  apply is_byteb_spec in H.
  repeat match goal with
         | E : negb _ = true |- _ => apply negb_true_iff, Z.eqb_neq in E
         end.
  tauto.
Qed.

Lemma text_out_app a b : text_out (a ++ b) = text_out a ++ text_out b.
Proof. apply flat_map_app. Qed.

Lemma text_out_no_eof s : ~ In 26 s -> ~ In 26 (text_out s).
Proof.
  unfold text_out. intros H Hin. apply in_flat_map in Hin.
  destruct Hin as [c [Hc Hin]].
  destruct (Z.eqb_spec c 10) as [-> | Hne].
  - cbn in Hin. lia.
  - cbn in Hin. destruct Hin as [E | []]. subst c. exact (H Hc).
Qed.

Lemma text_out_cons c s :
  text_out (c :: s) = (if c =? 10 then [13; 10] else [c]) ++ text_out s.
Proof. reflexivity. Qed.

Lemma text_out_head s :
  text_out s = [] \/ exists c r, text_out s = c :: r /\ c <> 10.
Proof.
  destruct s as [| c s]; [now left |]. right. rewrite text_out_cons.
  destruct (Z.eqb_spec c 10).
  - exists 13, (10 :: text_out s). split; [reflexivity | discriminate].
  - exists c, (text_out s). split; [reflexivity | assumption].
Qed.

Lemma text_in_keeps c rest :
  c <> 26 -> c <> 13 -> text_in (c :: rest) = c :: text_in rest.
Proof.
  intros H26 H13. cbn [text_in].
  destruct (Z.eqb_spec c 26); [contradiction |].
  destruct (Z.eqb_spec c 13); [contradiction | reflexivity].
Qed.

Lemma text_in_crlf rest : text_in (13 :: 10 :: rest) = 10 :: text_in rest.
Proof. reflexivity. Qed.

Lemma text_in_cr c rest :
  c <> 10 -> text_in (13 :: c :: rest) = 13 :: text_in (c :: rest).
Proof.
  intros H. change (text_in (13 :: c :: rest))
    with (if c =? 10 then text_in (c :: rest) else 13 :: text_in (c :: rest)).
  destruct (Z.eqb_spec c 10); [contradiction | reflexivity].
Qed.

Lemma text_in_out s : ~ In 26 s -> text_in (text_out s) = s.
Proof.
  induction s as [| c s IH]; intros H; [reflexivity |].
  assert (Hc : c <> 26) by (intros ->; apply H; now left).
  assert (Hs : ~ In 26 s) by (intros Hin; apply H; now right).
  specialize (IH Hs). rewrite text_out_cons.
  destruct (Z.eqb_spec c 10) as [-> | H10].
  - cbn [app]. now rewrite text_in_crlf, IH.
  - cbn [app]. destruct (Z.eq_dec c 13) as [-> | H13].
    + destruct (text_out_head s) as [E | [c' [r [E Hc']]]].
      * rewrite E in *. cbn in IH. now rewrite <- IH.
      * rewrite E in *. now rewrite text_in_cr, IH.
    + now rewrite text_in_keeps, IH.
Qed.

Lemma open_append_id file : ~ In 26 file -> open_append file = file.
Proof.
  intros H. unfold open_append.
  destruct (rev file) as [| c r] eqn:E; [reflexivity |].
  destruct (Z.eqb_spec c 26) as [-> | Hne]; [| reflexivity].
  exfalso. apply H, in_rev. rewrite E. now left.
Qed.

Lemma obfuscate_lines_plain can_append :
  (forall k, can_append k = true) ->
  forall n stream file i,
    (List.length stream <= n)%nat -> plain stream -> ~ In 26 file ->
    obfuscate_lines can_append i stream file
    = file ++ text_out (map flip stream).
Proof.
  intros Hall. induction n as [| n IH]; intros stream file i Hn Hp Hf.
  - destruct stream; [| cbn in Hn; lia].
    rewrite obfuscate_lines_equation_1. cbn. now rewrite app_nil_r.
  - destruct stream as [| c stream].
    { rewrite obfuscate_lines_equation_1. cbn. now rewrite app_nil_r. }
    rewrite obfuscate_lines_equation_2, Hall.
    pose proof (fgets_take_app (LINE_SIZE - 1) (c :: stream)) as Happ.
    pose proof (fgets_take_shrinks (LINE_SIZE - 2) c stream) as Hlen.
    change (S (LINE_SIZE - 2)) with (LINE_SIZE - 1)%nat in Hlen.
    destruct (fgets_take (LINE_SIZE - 1) (c :: stream)) as [line rest].
    cbn [fst snd] in *.
    assert (Hsplit : plain line /\ plain rest).
    { unfold plain in *. rewrite <- Happ in Hp. apply Forall_app in Hp.
      exact Hp. }
    destruct Hsplit as [Hline Hrest].
    change (line ++ [0]) with (line ++ 0 :: []).
    rewrite Obfuscate_buffer by (apply clean_nonzero, plain_clean, Hline).
    rewrite cstr_text
      by (apply clean_nonzero, clean_flip, plain_clean, Hline).
    rewrite open_append_id by exact Hf.
    rewrite IH.
    + rewrite <- app_assoc, <- text_out_app, <- map_app, Happ. reflexivity.
    + cbn in Hn. lia.
    + exact Hrest.
    + intros Hin. apply in_app_or in Hin. destruct Hin as [Hin | Hin].
      * exact (Hf Hin).
      * revert Hin. apply text_out_no_eof, plain_no_eof, plain_flip, Hline.
Qed.

End ObfuscateText.

(** X4.  On a text holding neither NUL nor the character 0x01, [Obfuscate]
    flips the low bit of every character and touches nothing else in the
    buffer: the text it returns has the same length, and obfuscating it
    again restores the buffer. *)
Theorem X4_obfuscate_involution (s rest : list Z) (Hs : Obfuscation.clean s) :
  Obfuscation.Obfuscate (s ++ 0 :: rest)
  = map Obfuscation.flip s ++ 0 :: rest
  /\ cstr (Obfuscation.Obfuscate (s ++ 0 :: rest)) = map Obfuscation.flip s
  /\ Obfuscation.Obfuscate (Obfuscation.Obfuscate (s ++ 0 :: rest))
     = s ++ 0 :: rest.
Proof.
  pose proof (Obfuscate_buffer s rest (clean_nonzero s Hs)) as H1.
  split; [exact H1 |]. split.
  - rewrite H1. apply cstr_text, clean_nonzero, clean_flip, Hs.
  - rewrite H1, Obfuscate_buffer by (apply clean_nonzero, clean_flip, Hs).
    rewrite map_flip_flip. reflexivity.
Qed.

Lemma X4_obfuscate_involution_witness :
  Obfuscation.clean [0x62; 0x6F; 0x62; 0x3A; 0x0A]
  /\ cstr (Obfuscation.Obfuscate ([0x62; 0x6F; 0x62; 0x3A; 0x0A] ++ 0 :: [7; 7]))
     = [0x63; 0x6E; 0x63; 0x3B; 0x0B].
Proof.
  assert (H : Obfuscation.clean [0x62; 0x6F; 0x62; 0x3A; 0x0A])
    by (apply cleanb_spec; reflexivity).
  split; [exact H |].
  exact (proj1 (proj2 (X4_obfuscate_involution _ [7; 7] H))).
Defined.

(** X5.  A character 0x01 becomes a NUL: the text [Obfuscate] returns ends
    at the first 0x01 of its input, so whatever followed it on the line
    is not written to the output file. *)
Theorem X5_obfuscate_truncates (pre post rest : list Z)
    (Hpre : Obfuscation.clean pre) (Hpost : Forall (fun c => c <> 0) post) :
  cstr (Obfuscation.Obfuscate ((pre ++ 1 :: post) ++ 0 :: rest))
  = map Obfuscation.flip pre
  /\ (List.length
        (cstr (Obfuscation.Obfuscate ((pre ++ 1%Z :: post) ++ 0%Z :: rest)))
      < List.length (pre ++ 1%Z :: post))%nat.
Proof.
  assert (Hnz : Forall (fun c => c <> 0) (pre ++ 1 :: post)).
  { apply Forall_app. split; [apply clean_nonzero, Hpre |].
    constructor; [discriminate | exact Hpost]. }
  assert (E : cstr (Obfuscation.Obfuscate ((pre ++ 1 :: post) ++ 0 :: rest))
              = map Obfuscation.flip pre).
  { rewrite Obfuscate_buffer by exact Hnz.
    rewrite map_app. cbn [map]. change (Obfuscation.flip 1) with 0.
    rewrite <- app_assoc. cbn [app].
    apply cstr_text, clean_nonzero, clean_flip, Hpre. }
  split; [exact E |].
  rewrite E, length_map, length_app. cbn [List.length]. lia.
Qed.

Lemma X5_obfuscate_truncates_witness :
  Obfuscation.clean [0x41; 0x42]
  /\ cstr (Obfuscation.Obfuscate (([0x41; 0x42] ++ 1 :: [0x43; 0x44]) ++ 0 :: []))
     = [0x40; 0x43].
Proof.
  assert (H : Obfuscation.clean [0x41; 0x42]) by (apply cleanb_spec; reflexivity).
  split; [exact H |].
  refine (proj1 (X5_obfuscate_truncates [0x41; 0x42] [0x43; 0x44] [] H _)).
  repeat constructor; discriminate.
Defined.

(** X6.  Take a file that was written in text mode from characters
    holding none of NUL, 0x01, CTRL+Z and ESC, and let every append
    succeed.  Reading the file in text mode gives those characters back;
    [EncryptOutputFile] writes them with the low bit of every character
    flipped, however [fgets] cuts them into lines; and
    [DecryptOutputFile] applied to the result writes the original file,
    byte for byte. *)
Theorem X6_file_round_trip (can_append : nat -> bool) (chars : list Z)
    (Hopen : forall k, can_append k = true)
    (Hplain : Obfuscation.plain chars) :
  Obfuscation.text_in (Obfuscation.text_out chars) = chars
  /\ Obfuscation.EncryptOutputFile_text can_append
       (Obfuscation.text_out chars) []
     = Obfuscation.text_out (map Obfuscation.flip chars)
  /\ Obfuscation.DecryptOutputFile_text can_append
       (Obfuscation.EncryptOutputFile_text can_append
          (Obfuscation.text_out chars) []) []
     = Obfuscation.text_out chars.
Proof.
  pose proof (text_in_out chars (plain_no_eof chars Hplain)) as Hin.
  assert (Henc : Obfuscation.EncryptOutputFile_text can_append
                   (Obfuscation.text_out chars) []
                 = Obfuscation.text_out (map Obfuscation.flip chars)).
  { unfold Obfuscation.EncryptOutputFile_text. rewrite Hin.
    rewrite (obfuscate_lines_plain can_append Hopen (List.length chars)
               chars [] 0); [reflexivity | lia | exact Hplain |].
    intros []. }
  split; [exact Hin |]. split; [exact Henc |].
  rewrite Henc. unfold Obfuscation.DecryptOutputFile_text.
  pose proof (plain_flip chars Hplain) as Hflip.
  rewrite (text_in_out _ (plain_no_eof _ Hflip)).
  rewrite (obfuscate_lines_plain can_append Hopen
             (List.length (map Obfuscation.flip chars)) _ [] 0);
    [| lia | exact Hflip | intros []].
  cbn [app]. now rewrite map_flip_flip.
Qed.

Example EncryptOutputFile_two_lines :
  Obfuscation.EncryptOutputFile_text (fun _ => true)
    [0x61; 0x3A; 0x0D; 0x0A; 0x62; 0x3A; 0x0D; 0x0A] []
  = [0x60; 0x3B; 0x0B; 0x63; 0x3B; 0x0B].
Proof. reflexivity. Qed.

Example escape_character_ends_the_decryption :
  Obfuscation.EncryptOutputFile_text (fun _ => true)
    [0x41; 0x1B; 0x42; 0x0D; 0x0A] []
  = [0x40; 0x1A; 0x43; 0x0B]
  /\ Obfuscation.DecryptOutputFile_text (fun _ => true)
       [0x40; 0x1A; 0x43; 0x0B] []
     = [0x41].
Proof. split; reflexivity. Qed.

Lemma X6_file_round_trip_witness :
  Obfuscation.DecryptOutputFile_text (fun _ => true)
    (Obfuscation.EncryptOutputFile_text (fun _ => true)
       (Obfuscation.text_out [0x61; 0x3A; 0x0A; 0x62; 0x0B; 0x0C; 0x0A]) [])
    []
  = Obfuscation.text_out [0x61; 0x3A; 0x0A; 0x62; 0x0B; 0x0C; 0x0A].
Proof.
  refine (proj2 (proj2 (X6_file_round_trip (fun _ => true)
                          [0x61; 0x3A; 0x0A; 0x62; 0x0B; 0x0C; 0x0A]
                          (fun _ => eq_refl) _))).
  apply plainb_spec. reflexivity.
Defined.

(** ** CacheDecoder: alignment, bounds of the reads, stale bytes *)

Section CacheLayout.
Import CacheDecoder.

Lemma dwJoke_cases x : dwJoke x = 0 \/ dwJoke x = 2.
Proof.
  unfold dwJoke. pose proof (Z.mod_pos_bound (x / 2) 2 ltac:(lia)). lia.
Qed.

Lemma dwJoke_aligns x : x mod 2 = 0 -> (x + dwJoke x) mod 4 = 0.
Proof.
  intros Hx. unfold dwJoke.
  pose proof (Z.div_mod x 2 ltac:(lia)) as H1.
  pose proof (Z.div_mod (x / 2) 2 ltac:(lia)) as H2.
  set (q := x / 2) in *. set (r := q mod 2) in *. set (q' := q / 2) in *.
  replace (x + 2 * r) with ((q' + r) * 4) by lia.
  apply Z.mod_mul. lia.
Qed.

Lemma narrow_agree N b1 b2 base dwLen :
  (forall k, (k < N)%nat -> nth k b1 0 = nth k b2 0) ->
  0 <= base -> base + dwLen <= Z.of_nat N ->
  narrow b1 base dwLen = narrow b2 base dwLen.
Proof.
  intros Hag Hbase Hlen. unfold narrow. apply map_ext_in.
  intros k Hk. apply in_seq in Hk. unfold byte_at. apply Hag.
  assert (Z.of_nat k < (dwLen + 1) / 2) by lia.
  assert (2 * ((dwLen + 1) / 2) <= dwLen + 1)
    by (apply Z.mul_div_le; lia).
  lia.
Qed.

Lemma sub_agree N b1 b2 off len :
  (forall k, (k < N)%nat -> nth k b1 0 = nth k b2 0) ->
  (off + len <= N)%nat ->
  (N <= List.length b1)%nat -> (N <= List.length b2)%nat ->
  sub b1 off len = sub b2 off len.
Proof.
  intros Hag Hoff H1 H2. unfold sub.
  apply (nth_ext _ _ 0 0).
  - rewrite !length_firstn, !length_skipn. lia.
  - intros i Hi. rewrite length_firstn, length_skipn in Hi.
    rewrite !nth_firstn.
    destruct (Nat.ltb_spec i len); [| reflexivity].
    rewrite !nth_skipn. apply Hag. lia.
Qed.

Lemma extract_agree b1 b2 u d n :
  (forall k, (k < 937)%nat -> nth k b1 0 = nth k b2 0) ->
  (937 <= List.length b1)%nat -> (937 <= List.length b2)%nat ->
  is_byte u -> is_byte d -> is_byte n ->
  extract b1 u d n = extract b2 u d n.
Proof.
  unfold is_byte. intros Hag H1 H2 Hu Hd Hn. unfold extract.
  destruct (dwJoke_cases u) as [Ju | Ju], (dwJoke_cases d) as [Jd | Jd];
    rewrite Ju, Jd;
    rewrite (narrow_agree 937 b1 b2 168 u Hag) by lia;
    rewrite (narrow_agree 937 b1 b2 _ d Hag) by lia;
    rewrite (narrow_agree 937 b1 b2 _ n Hag) by lia;
    rewrite (sub_agree 937 b1 b2 96 16 Hag) by lia;
    reflexivity.
Qed.

Section WithLaws.
Context {cp : CryptoPrimitives} {laws : CryptoLaws cp}.

(** Past the end of the record the buffer is what it was. *)
Lemma decrypted_record_beyond pLsaKey bCacheVal dwSize k :
  96 <= dwSize <= Z.of_nat (List.length bCacheVal) -> dwSize <= k ->
  byte_at (decrypted_record pLsaKey bCacheVal dwSize) k = byte_at bCacheVal k.
Proof.
  intros Hs Hk. unfold decrypted_record, byte_at.
  set (X := rc4_crypt _ _).
  assert (HX : List.length X = Z.to_nat (dwSize - 96)).
  { subst X. rewrite rc4_crypt_length. unfold sub.
    rewrite length_firstn, length_skipn. lia. }
  rewrite app_nth2 by (rewrite length_firstn; lia).
  rewrite app_nth2 by (rewrite length_firstn; lia).
  rewrite nth_skipn, HX, length_firstn. f_equal. lia.
Qed.

Lemma decrypted_record_first pLsaKey bCacheVal dwSize :
  96 <= dwSize <= Z.of_nat (List.length bCacheVal) ->
  sub (decrypted_record pLsaKey bCacheVal dwSize) 96 16
  = firstn 16
      (rc4_crypt
         (rc4_setup (HMAC_MD5 (firstn 64 pLsaKey) (sub bCacheVal 64 16)))
         (sub bCacheVal 96 (Z.to_nat (dwSize - 96)))
       ++ skipn (Z.to_nat dwSize) bCacheVal).
Proof.
  intros Hs. unfold decrypted_record, sub at 1.
  rewrite skipn_app, length_firstn.
  replace (Nat.min 96 (List.length bCacheVal)) with 96%nat by lia.
  rewrite Nat.sub_diag, skipn_firstn_comm, Nat.sub_diag.
  reflexivity.
Qed.

End WithLaws.

Lemma DumpPWCache_loop_oversize {cp : CryptoPrimitives} pLsaKey big rest :
  (4096 < List.length big)%nat ->
  forall pre bCacheVal,
  DumpPWCache_loop pLsaKey bCacheVal (pre ++ big :: rest)
  = DumpPWCache_loop pLsaKey bCacheVal pre.
Proof.
  intros Hbig. induction pre as [| data pre IH]; intros buf.
  - cbn [app DumpPWCache_loop].
    rewrite (proj2 (Nat.ltb_lt _ _) Hbig). reflexivity.
  - cbn [app DumpPWCache_loop].
    destruct (4096 <? List.length data)%nat; [reflexivity |].
    destruct (DumpPWCache_record _ _ _); try reflexivity; rewrite IH; reflexivity.
Qed.

End CacheLayout.

(** X7.  The padding 4-byte-aligns the variable-length fields: it is 0 or
    2, and for even (UTF-16) lengths the domain and the DNS domain start
    at offsets that are multiples of 4. *)
Theorem X7_fields_are_aligned (dwUsername dwDomain : Z)
    (Hu : dwUsername mod 2 = 0) (Hd : dwDomain mod 2 = 0) :
  (CacheDecoder.dwJoke dwUsername = 0 \/ CacheDecoder.dwJoke dwUsername = 2)
  /\ (168 + dwUsername + CacheDecoder.dwJoke dwUsername) mod 4 = 0
  /\ (168 + dwUsername + CacheDecoder.dwJoke dwUsername
      + dwDomain + CacheDecoder.dwJoke dwDomain) mod 4 = 0.
Proof.
  pose proof (dwJoke_aligns dwUsername Hu) as Au.
  pose proof (dwJoke_aligns dwDomain Hd) as Ad.
  split; [apply dwJoke_cases |].
  apply Z.mod_divide in Au; [| lia]. apply Z.mod_divide in Ad; [| lia].
  destruct Au as [a Ea], Ad as [b Eb].
  split.
  - replace (168 + dwUsername + CacheDecoder.dwJoke dwUsername)
      with ((42 + a) * 4) by lia.
    apply Z.mod_mul. lia.
  - replace (168 + dwUsername + CacheDecoder.dwJoke dwUsername
             + dwDomain + CacheDecoder.dwJoke dwDomain)
      with ((42 + a + b) * 4) by lia.
    apply Z.mod_mul. lia.
Qed.

Lemma X7_fields_are_aligned_witness :
  (168 + 6 + CacheDecoder.dwJoke 6) mod 4 = 0.
Proof.
  exact (proj1 (proj2 (X7_fields_are_aligned 6 4 eq_refl eq_refl))).
Defined.

(** X8.  Whatever the three length bytes are, the extraction reads the
    buffer at offsets 0 .. 936 only, well inside its 4096 bytes: two
    buffers that agree on their first 937 bytes give the same entry (or
    the same failure). *)
Theorem X8_extraction_stays_in_buffer (b1 b2 : list Z) (u d n : Z)
    (Hagree : forall k, (k < 937)%nat -> nth k b1 0 = nth k b2 0)
    (H1 : (937 <= List.length b1)%nat) (H2 : (937 <= List.length b2)%nat)
    (Hu : is_byte u) (Hd : is_byte d) (Hn : is_byte n) :
  CacheDecoder.extract b1 u d n = CacheDecoder.extract b2 u d n.
Proof. apply extract_agree; assumption. Qed.

Lemma X8_extraction_stays_in_buffer_witness :
  CacheDecoder.extract (repeat 7 937 ++ repeat 1 3159) 254 254 254
  = CacheDecoder.extract (repeat 7 937 ++ repeat 2 3159) 254 254 254.
Proof.
  apply X8_extraction_stays_in_buffer.
  - intros k Hk. rewrite !app_nth1 by (rewrite repeat_length; exact Hk).
    reflexivity.
  - rewrite length_app, !repeat_length. vm_compute. lia.
  - rewrite length_app, !repeat_length. vm_compute. lia.
  - split; [discriminate | reflexivity].
  - split; [discriminate | reflexivity].
  - split; [discriminate | reflexivity].
Defined.

Section CacheStale.
Import CacheDecoder.

Lemma narrow_agree_from M b1 b2 base dwLen :
  (forall k, M <= k -> byte_at b1 k = byte_at b2 k) ->
  M <= base ->
  narrow b1 base dwLen = narrow b2 base dwLen.
Proof.
  intros Hag Hbase. unfold narrow. apply map_ext_in.
  intros k _. apply Hag. lia.
Qed.

Lemma byte_at_after_store data prev k :
  Z.of_nat (List.length data) <= k ->
  byte_at (data ++ skipn (List.length data) prev) k = byte_at prev k.
Proof.
  intros Hk. unfold byte_at.
  rewrite app_nth2 by lia. rewrite nth_skipn. f_equal. lia.
Qed.

Lemma byte_at_in_store data rest k :
  0 <= k < Z.of_nat (List.length data) ->
  byte_at (data ++ rest) k = byte_at data k.
Proof. intros Hk. unfold byte_at. apply app_nth1. lia. Qed.

End CacheStale.

(** X9.  The buffer is not cleared between records.  For a record of 96 to
    168 bytes, everything the extraction reads from offset 168 on is what
    the previous records left there: the username, domain and DNS domain
    written for it are read from the previous content of the buffer, at
    the offsets its own length bytes select. *)
Theorem X9_short_record_reads_previous
    (cp : CacheDecoder.CryptoPrimitives) (laws : CacheDecoder.CryptoLaws cp)
    (pLsaKey prev data buf' : list Z) (e : CacheDecoder.CacheEntry)
    (Hprev : List.length prev = 4096%nat)
    (Hdata : (96 <= List.length data <= 168)%nat)
    (Hbytes : is_bytes data)
    (Hdec : CacheDecoder.DumpPWCache_record pLsaKey
              (data ++ skipn (List.length data) prev)
              (Z.of_nat (List.length data))
            = CacheDecoder.Decoded buf' e) :
  let u := CacheDecoder.byte_at data 0 in
  let d := CacheDecoder.byte_at data 2 in
  let n := CacheDecoder.byte_at data 60 in
  (forall k, Z.of_nat (List.length data) <= k ->
     CacheDecoder.byte_at buf' k = CacheDecoder.byte_at prev k)
  /\ CacheDecoder.szUsername e = CacheDecoder.narrow prev 168 u
  /\ CacheDecoder.szDomain e
     = CacheDecoder.narrow prev (168 + u + CacheDecoder.dwJoke u) d
  /\ CacheDecoder.szDNSDomain e
     = CacheDecoder.narrow prev
         (168 + u + CacheDecoder.dwJoke u + d + CacheDecoder.dwJoke d) n.
Proof.
  intros u d n.
  set (buf := data ++ skipn (List.length data) prev) in *.
  set (size := Z.of_nat (List.length data)) in *.
  assert (Hlen : List.length buf = 4096%nat)
    by (subst buf; rewrite length_app, length_skipn; lia).
  destruct (DumpPWCache_record_decoded _ _ _ _ _ Hdec) as [Hun Hex].
  destruct (unprotect_inr _ _ _ _ Hun) as (Hkey & Hsz & _).
  rewrite (unprotect_spec pLsaKey buf size Hkey Hsz) in Hun.
  injection Hun as <-.
  assert (Hbeyond : forall k, size <= k ->
            CacheDecoder.byte_at
              (CacheDecoder.decrypted_record pLsaKey buf size) k
            = CacheDecoder.byte_at prev k).
  { intros k Hk. rewrite decrypted_record_beyond by lia.
    apply byte_at_after_store. exact Hk. }
  assert (E0 : CacheDecoder.byte_at buf 0 = u)
    by (apply byte_at_in_store; lia).
  assert (E2 : CacheDecoder.byte_at buf 2 = d)
    by (apply byte_at_in_store; lia).
  assert (E60 : CacheDecoder.byte_at buf 60 = n)
    by (apply byte_at_in_store; lia).
  rewrite E0, E2, E60 in Hex.
  destruct (extract_fields _ _ _ _ _ Hex) as (Eu & Ed & En & _).
  assert (Hu : is_byte u) by (apply is_bytes_nth, Hbytes).
  assert (Hd : is_byte d) by (apply is_bytes_nth, Hbytes).
  unfold is_byte in Hu, Hd.
  destruct (dwJoke_cases u) as [Ju | Ju], (dwJoke_cases d) as [Jd | Jd];
    (split; [exact Hbeyond |]);
    rewrite Eu, Ed, En;
    (split; [apply (narrow_agree_from size); [exact Hbeyond | lia] |]);
    (split; apply (narrow_agree_from size); [exact Hbeyond | lia
                                             | exact Hbeyond | lia]).
Qed.

Example short_record_shows_previous_name :
  CacheDecoder.cache_lines
    (CacheDecoder.DumpPWCache_loop (cp := CacheDecoder.stand_in)
       CacheDecoder.sample_key64 (repeat 0xCC 4096)
       [CacheDecoder.sample_record; CacheDecoder.short_record])
  = [("user:A0A1A2A3A4A5A6A7A8A9AAABACADAEAF:DM:" ++ HexDumper.newline)%string;
     ("user:5C5F5E59A4A5A6A7A8A9AAABACADAEAF:DM:" ++ HexDumper.newline)%string].
Proof. vm_compute. reflexivity. Qed.

Lemma X9_short_record_reads_previous_witness :
  List.length (CacheDecoder.buffer_holding
                 (CacheDecoder.sample_header ++ CacheDecoder.sample_payload) 0xCC)
  = 4096%nat
  /\ CacheDecoder.narrow
       (CacheDecoder.buffer_holding
          (CacheDecoder.sample_header ++ CacheDecoder.sample_payload) 0xCC)
       168 (CacheDecoder.byte_at CacheDecoder.short_record 0)
     = [0x75; 0x73; 0x65; 0x72].
Proof.
  split; [vm_compute; reflexivity |].
  symmetry.
  refine (proj1 (proj2
            (X9_short_record_reads_previous CacheDecoder.stand_in stand_in_laws
               CacheDecoder.sample_key64
               (CacheDecoder.buffer_holding
                  (CacheDecoder.sample_header ++ CacheDecoder.sample_payload) 0xCC)
               CacheDecoder.short_record _
               {| CacheDecoder.szUsername := [0x75; 0x73; 0x65; 0x72];
                  CacheDecoder.verifier := _;
                  CacheDecoder.szDomain := _;
                  CacheDecoder.szDNSDomain := _ |}
               _ _ _ _))).
  - vm_compute. reflexivity.
  - vm_compute. lia.
  - apply is_bytes_forallb. vm_compute. reflexivity.
  - vm_compute. reflexivity.
Defined.

(** X10.  A cache value larger than the 4096-byte buffer ends the
    enumeration like a missing name: the values after it are never
    looked at, and the records before it are handled as if it were the
    end of the key. *)
Theorem X10_oversized_value_ends_enumeration
    (cp : CacheDecoder.CryptoPrimitives) (pLsaKey bCacheVal big : list Z)
    (pre rest : list (list Z)) (Hbig : (4096 < List.length big)%nat) :
  CacheDecoder.DumpPWCache_loop pLsaKey bCacheVal (pre ++ big :: rest)
  = CacheDecoder.DumpPWCache_loop pLsaKey bCacheVal pre.
Proof. apply DumpPWCache_loop_oversize. exact Hbig. Qed.

Lemma X10_oversized_value_ends_enumeration_witness :
  CacheDecoder.cache_lines
    (CacheDecoder.DumpPWCache_loop (cp := CacheDecoder.stand_in)
       CacheDecoder.sample_key64 (repeat 0xCC 4096)
       ([CacheDecoder.sample_record]
        ++ repeat 1 4097 :: [CacheDecoder.padded_record]))
  = [("user:A0A1A2A3A4A5A6A7A8A9AAABACADAEAF:DM:" ++ HexDumper.newline)%string].
Proof.
  rewrite (X10_oversized_value_ends_enumeration CacheDecoder.stand_in
             CacheDecoder.sample_key64 (repeat 0xCC 4096) (repeat 1 4097)
             [CacheDecoder.sample_record] [CacheDecoder.padded_record]).
  - vm_compute. reflexivity.
  - rewrite repeat_length. apply Nat.lt_succ_diag_r.
Defined.

(** X11.  The verifier printed for a decoded record is the first 16 bytes
    of what follows the 96-byte header after decryption: for a record of
    at least 112 bytes, the first 16 bytes of the RC4 output under the
    session key; for a shorter one, the RC4 output followed by bytes the
    record did not supply. *)
Theorem X11_verifier_is_start_of_decrypted_part
    (cp : CacheDecoder.CryptoPrimitives) (laws : CacheDecoder.CryptoLaws cp)
    (pLsaKey bCacheVal : list Z) (dwSize : Z) (buf' : list Z)
    (e : CacheDecoder.CacheEntry)
    (Hsize : 96 <= dwSize <= Z.of_nat (List.length bCacheVal))
    (Hdec : CacheDecoder.DumpPWCache_record pLsaKey bCacheVal dwSize
            = CacheDecoder.Decoded buf' e) :
  let sessionKey := CacheDecoder.HMAC_MD5 (firstn 64 pLsaKey)
                      (sub bCacheVal 64 16) in
  let stream := CacheDecoder.rc4_crypt (CacheDecoder.rc4_setup sessionKey)
                  (sub bCacheVal 96 (Z.to_nat (dwSize - 96))) in
  CacheDecoder.verifier e
  = firstn 16 (stream ++ skipn (Z.to_nat dwSize) bCacheVal)
  /\ (112 <= dwSize -> CacheDecoder.verifier e = firstn 16 stream).
Proof.
  intros sessionKey stream.
  destruct (DumpPWCache_record_decoded _ _ _ _ _ Hdec) as [Hun Hex].
  destruct (unprotect_inr _ _ _ _ Hun) as (Hkey & Hsz & _).
  rewrite (unprotect_spec pLsaKey bCacheVal dwSize Hkey Hsz) in Hun.
  injection Hun as <-.
  destruct (extract_fields _ _ _ _ _ Hex) as (_ & _ & _ & Ev).
  rewrite (decrypted_record_first pLsaKey bCacheVal dwSize Hsize) in Ev.
  split; [exact Ev |].
  intros H112. rewrite Ev. fold sessionKey. fold stream.
  rewrite firstn_app.
  assert (Hs : List.length stream = Z.to_nat (dwSize - 96)).
  { subst stream. rewrite CacheDecoder.rc4_crypt_length. unfold sub.
    rewrite length_firstn, length_skipn. lia. }
  replace (16 - List.length stream)%nat with 0%nat by lia.
  cbn [firstn]. apply app_nil_r.
Qed.

Lemma X11_verifier_is_start_of_decrypted_part_witness :
  map Z.of_nat (seq 160 16)
  = firstn 16
      (@CacheDecoder.rc4_crypt CacheDecoder.stand_in
         (@CacheDecoder.rc4_setup CacheDecoder.stand_in
            (CacheDecoder.HMAC_MD5 (cp := CacheDecoder.stand_in)
               (firstn 64 CacheDecoder.sample_key64)
               (sub (CacheDecoder.buffer_holding CacheDecoder.sample_record 0xCC)
                    64 16)))
         (sub (CacheDecoder.buffer_holding CacheDecoder.sample_record 0xCC)
              96 (Z.to_nat (182 - 96)))).
Proof.
  refine (proj2 (X11_verifier_is_start_of_decrypted_part
                   CacheDecoder.stand_in stand_in_laws
                   CacheDecoder.sample_key64
                   (CacheDecoder.buffer_holding CacheDecoder.sample_record 0xCC)
                   182 _
                   {| CacheDecoder.szUsername := _;
                      CacheDecoder.verifier := map Z.of_nat (seq 160 16);
                      CacheDecoder.szDomain := _;
                      CacheDecoder.szDNSDomain := _ |} _ _) _).
  - vm_compute. split; discriminate.
  - vm_compute. reflexivity.
  - discriminate.
Defined.

(* ===================================================================== *)
(** ** The account enumeration                                            *)
(* ===================================================================== *)

Section AccountDumpFacts.

Import AccountDump.

Lemma resource_eqb_refl (r : resource) : resource_eqb r r = true.
Proof. destruct r; cbn; auto using Z.eqb_refl. Qed.

Lemma lifo_bracket (r : resource) (body : list event) :
  (forall held rest, lifo held (body ++ rest) = lifo held rest) ->
  forall held rest,
    lifo held ((Acquire r :: body ++ [Release r]) ++ rest) = lifo held rest.
Proof.
  intros Hb held rest. cbn [app lifo]. rewrite <- app_assoc, Hb.
  cbn. now rewrite resource_eqb_refl.
Qed.

Lemma lifo_app (a b : list event) :
  (forall held rest, lifo held (a ++ rest) = lifo held rest) ->
  (forall held rest, lifo held (b ++ rest) = lifo held rest) ->
  forall held rest, lifo held ((a ++ b) ++ rest) = lifo held rest.
Proof. intros Ha Hb held rest. now rewrite <- app_assoc, Ha, Hb. Qed.

Lemma lifo_nil : forall held rest, lifo held ([] ++ rest) = lifo held rest.
Proof. reflexivity. Qed.

Lemma lifo_flat_map (f : sam_user -> list event) (us : list sam_user) :
  (forall u, In u us ->
     forall held rest, lifo held (f u ++ rest) = lifo held rest) ->
  forall held rest, lifo held (flat_map f us ++ rest) = lifo held rest.
Proof.
  induction us as [|u us IH]; intros Hf held rest; [reflexivity|].
  cbn [flat_map]. rewrite <- app_assoc, Hf by (now left).
  apply IH. intros v Hv. apply Hf. now right.
Qed.

Lemma lifo_current_hash (os : sam_os) (u : sam_user) (d : list Z) :
  forall held rest, lifo held (current_hash os u d ++ rest) = lifo held rest.
Proof. intros. unfold current_hash. now destruct (can_append os). Qed.

Lemma lifo_hashes_user (os : sam_os) (u : sam_user) :
  forall held rest, lifo held (hashes_user os u ++ rest) = lifo held rest.
Proof.
  unfold hashes_user.
  destruct (0 <=? SamrOpenUser os (Rid u)); [|reflexivity].
  apply lifo_bracket.
  destruct (SamrQueryInformationUser os (Rid u)) as [st d].
  destruct (0 <=? st); [|reflexivity].
  apply lifo_bracket, lifo_current_hash.
Qed.

Lemma lifo_enumerate (f : sam_user -> list event) (e : enumeration) :
  (forall u, In u (all_users e) ->
     forall held rest, lifo held (f u ++ rest) = lifo held rest) ->
  forall held rest, lifo held (enumerate f e ++ rest) = lifo held rest.
Proof.
  induction e as [us next IH|us|st]; intros Hf; cbn [enumerate all_users] in *.
  - intros held rest.
    replace (Acquire EnumBuffer :: flat_map f us ++ [Release EnumBuffer]
             ++ enumerate f next)
      with ((Acquire EnumBuffer :: flat_map f us ++ [Release EnumBuffer])
            ++ enumerate f next)
      by (cbn [app]; now rewrite <- app_assoc).
    apply lifo_app.
    + apply lifo_bracket, lifo_flat_map.
      intros u Hu. apply Hf, in_or_app. now left.
    + apply IH. intros u Hu. apply Hf, in_or_app. now right.
  - apply lifo_bracket, lifo_flat_map. exact Hf.
  - reflexivity.
Qed.

Lemma lifo_dump_accounts (os : sam_os) (f : sam_user -> list event) :
  (forall u, In u (all_users (SamrEnumerateUsersInDomain os)) ->
     forall held rest, lifo held (f u ++ rest) = lifo held rest) ->
  lifo [] (dump_accounts os f) = true.
Proof.
  intros Hf. unfold dump_accounts.
  destruct (functions_loaded os); [|reflexivity].
  assert (E : forall body,
    (forall held rest, lifo held (body ++ rest) = lifo held rest) ->
    lifo [] (body ++ [FreeLibrary]) = true).
  { intros body Hb. now rewrite Hb. }
  apply E.
  destruct (0 <=? LsaOpenPolicy os); [|reflexivity].
  apply lifo_bracket.
  destruct (0 <=? LsaQueryInformationPolicy os); [|reflexivity].
  apply lifo_bracket.
  destruct (0 <=? SamIConnect os); [|reflexivity].
  apply lifo_bracket.
  destruct (0 <=? SamrOpenDomain os); [|reflexivity].
  apply lifo_bracket, lifo_enumerate, Hf.
Qed.

End AccountDumpFacts.

(** X12. [DumpPWHashes] gives back every handle and buffer it gets from
    the LSA and SAM calls, in reverse order, whatever the calls answer: the
    policy handle, the domain information, the SAM and domain handles,
    every enumeration page, every user handle and every hash buffer are
    released exactly once, each before anything acquired earlier, and none
    is held at the end. *)
Theorem X12_hash_dump_releases_everything (os : AccountDump.sam_os) :
  AccountDump.lifo [] (AccountDump.DumpPWHashes os) = true.
Proof.
  apply lifo_dump_accounts. intros u _. apply lifo_hashes_user.
Qed.

Section AccountDumpOutput.

Import AccountDump.

Lemma lines_app (a b : list event) : lines (a ++ b) = lines a ++ lines b.
Proof. apply flat_map_app. Qed.

Lemma errors_app (a b : list event) : errors (a ++ b) = errors a ++ errors b.
Proof. apply flat_map_app. Qed.

Lemma lines_bracket (r : resource) (body : list event) :
  lines (Acquire r :: body ++ [Release r]) = lines body.
Proof.
  change (lines (Acquire r :: body ++ [Release r]))
    with (lines (body ++ [Release r])).
  rewrite lines_app. apply app_nil_r.
Qed.

Lemma errors_bracket (r : resource) (body : list event) :
  errors (Acquire r :: body ++ [Release r]) = errors body.
Proof.
  change (errors (Acquire r :: body ++ [Release r]))
    with (errors (body ++ [Release r])).
  rewrite errors_app. apply app_nil_r.
Qed.

Lemma lines_flat_map (f : sam_user -> list event) (us : list sam_user) :
  lines (flat_map f us) = flat_map (fun u => lines (f u)) us.
Proof.
  induction us as [|u us IH]; [reflexivity|].
  cbn [flat_map]. now rewrite lines_app, IH.
Qed.

Lemma errors_flat_map (f : sam_user -> list event) (us : list sam_user) :
  errors (flat_map f us) = flat_map (fun u => errors (f u)) us.
Proof.
  induction us as [|u us IH]; [reflexivity|].
  cbn [flat_map]. now rewrite errors_app, IH.
Qed.

Lemma lines_enumerate (f : sam_user -> list event) (e : enumeration) :
  lines (enumerate f e) = flat_map (fun u => lines (f u)) (all_users e).
Proof.
  induction e as [us next IH|us|st]; cbn [enumerate all_users].
  - change (lines (Acquire EnumBuffer :: ?l)) with (lines l).
    rewrite !lines_app, IH, lines_flat_map, flat_map_app. reflexivity.
  - change (lines (Acquire EnumBuffer :: ?l)) with (lines l).
    rewrite lines_app, lines_flat_map. cbn. now rewrite app_nil_r.
  - reflexivity.
Qed.

Lemma errors_enumerate (f : sam_user -> list event) (e : enumeration) :
  (forall u, errors (f u) = []) -> errors (enumerate f e) = [].
Proof.
  intros Hf.
  assert (F : forall us, errors (flat_map f us) = []).
  { intros us. rewrite errors_flat_map.
    induction us as [|u us IH]; [reflexivity|].
    cbn [flat_map]. now rewrite Hf, IH. }
  induction e as [us next IH|us|st]; cbn [enumerate].
  - change (errors (Acquire EnumBuffer :: ?l)) with (errors l).
    now rewrite !errors_app, IH, F.
  - change (errors (Acquire EnumBuffer :: ?l)) with (errors l).
    now rewrite errors_app, F.
  - reflexivity.
Qed.

Lemma lines_hashes_user (os : sam_os) (u : sam_user) :
  lines (hashes_user os u) =
  if queried os u && can_append os
  then [AccountStore.hash_line (Name u) (Rid u)
          (firstn 32 (snd (SamrQueryInformationUser os (Rid u))))]
  else [].
Proof.
  unfold hashes_user, queried, current_hash.
  destruct (0 <=? SamrOpenUser os (Rid u)); [|reflexivity].
  destruct (SamrQueryInformationUser os (Rid u)) as [st d]. cbn [fst snd].
  destruct (0 <=? st); [|reflexivity].
  destruct (can_append os); reflexivity.
Qed.

Lemma errors_hashes_user (os : sam_os) (u : sam_user) :
  errors (hashes_user os u) = [].
Proof.
  unfold hashes_user, current_hash.
  destruct (0 <=? SamrOpenUser os (Rid u)); [|reflexivity].
  destruct (SamrQueryInformationUser os (Rid u)) as [st d].
  destruct (0 <=? st); [|reflexivity].
  destruct (can_append os); reflexivity.
Qed.

Lemma flat_map_filter_map {A B : Type} (p : A -> bool) (g : A -> B)
    (l : list A) :
  flat_map (fun a => if p a then [g a] else []) l = map g (filter p l).
Proof.
  induction l as [|a l IH]; [reflexivity|].
  cbn [flat_map filter]. destruct (p a); cbn; now rewrite IH.
Qed.

Lemma lines_dump_accounts (os : sam_os) (f : sam_user -> list event) :
  lines (dump_accounts os f) =
  if reaches_enumeration os
  then flat_map (fun u => lines (f u))
         (all_users (SamrEnumerateUsersInDomain os))
  else [].
Proof.
  unfold dump_accounts, reaches_enumeration.
  destruct (functions_loaded os); [|reflexivity].
  destruct (0 <=? LsaOpenPolicy os); [|reflexivity].
  destruct (0 <=? LsaQueryInformationPolicy os); [|reflexivity].
  destruct (0 <=? SamIConnect os); [|reflexivity].
  destruct (0 <=? SamrOpenDomain os); [|reflexivity].
  cbn [andb]. rewrite lines_app, !lines_bracket, lines_enumerate.
  apply app_nil_r.
Qed.

Lemma errors_dump_accounts (os : sam_os) (f : sam_user -> list event) :
  (forall u, errors (f u) = []) ->
  (List.length (errors (dump_accounts os f)) <= 1)%nat /\
  (errors (dump_accounts os f) = [] <-> reaches_enumeration os = true).
Proof.
  intros Hf. unfold dump_accounts, reaches_enumeration.
  destruct (functions_loaded os);
    [|cbn; split; [lia | split; discriminate]].
  destruct (0 <=? LsaOpenPolicy os);
    [|cbn; split; [lia | split; discriminate]].
  destruct (0 <=? LsaQueryInformationPolicy os);
    [|cbn; split; [lia | split; discriminate]].
  destruct (0 <=? SamIConnect os);
    [|cbn; split; [lia | split; discriminate]].
  destruct (0 <=? SamrOpenDomain os);
    [|cbn; split; [lia | split; discriminate]].
  cbn [andb]. rewrite errors_app, !errors_bracket, errors_enumerate by exact Hf.
  cbn. split; [lia | split; reflexivity].
Qed.

Lemma lifo_bracket_when (r : resource) (body : list event) (b : bool) :
  (forall held rest, lifo held (body ++ rest) = b && lifo held rest) ->
  forall held rest,
    lifo held ((Acquire r :: body ++ [Release r]) ++ rest)
    = b && lifo held rest.
Proof.
  intros Hb held rest. cbn [app lifo]. rewrite <- app_assoc, Hb.
  cbn. now rewrite resource_eqb_refl.
Qed.

Lemma lifo_flat_map_when (f : sam_user -> list event) (ok : sam_user -> bool)
    (us : list sam_user) :
  (forall u held rest, lifo held (f u ++ rest) = ok u && lifo held rest) ->
  forall held rest,
    lifo held (flat_map f us ++ rest) = forallb ok us && lifo held rest.
Proof.
  intros Hf. induction us as [|u us IH]; intros held rest; [reflexivity|].
  cbn [flat_map forallb]. rewrite <- app_assoc, Hf, IH.
  now rewrite andb_assoc.
Qed.

Lemma lifo_enumerate_when (f : sam_user -> list event) (ok : sam_user -> bool)
    (e : enumeration) :
  (forall u held rest, lifo held (f u ++ rest) = ok u && lifo held rest) ->
  forall held rest,
    lifo held (enumerate f e ++ rest)
    = forallb ok (all_users e) && lifo held rest.
Proof.
  intros Hf.
  induction e as [us next IH|us|st]; intros held rest;
    cbn [enumerate all_users].
  - replace (Acquire EnumBuffer :: flat_map f us ++ [Release EnumBuffer]
             ++ enumerate f next)
      with ((Acquire EnumBuffer :: flat_map f us ++ [Release EnumBuffer])
            ++ enumerate f next)
      by (cbn [app]; now rewrite <- app_assoc).
    rewrite <- app_assoc.
    rewrite (lifo_bracket_when EnumBuffer (flat_map f us) (forallb ok us))
      by (apply lifo_flat_map_when, Hf).
    rewrite IH, forallb_app. now rewrite andb_assoc.
  - apply lifo_bracket_when, lifo_flat_map_when, Hf.
  - reflexivity.
Qed.

Lemma lifo_dump_accounts_when (os : sam_os) (f : sam_user -> list event)
    (ok : sam_user -> bool) :
  (forall u held rest, lifo held (f u ++ rest) = ok u && lifo held rest) ->
  lifo [] (dump_accounts os f)
  = negb (reaches_enumeration os)
    || forallb ok (all_users (SamrEnumerateUsersInDomain os)).
Proof.
  intros Hf. unfold dump_accounts, reaches_enumeration.
  destruct (functions_loaded os); [|reflexivity].
  destruct (0 <=? LsaOpenPolicy os); [|reflexivity].
  destruct (0 <=? LsaQueryInformationPolicy os); [|reflexivity].
  destruct (0 <=? SamIConnect os); [|reflexivity].
  destruct (0 <=? SamrOpenDomain os); [|reflexivity].
  cbn [andb negb orb].
  set (b := forallb ok (all_users (SamrEnumerateUsersInDomain os))).
  assert (E : forall body,
    (forall held rest, lifo held (body ++ rest) = b && lifo held rest) ->
    lifo [] (body ++ [FreeLibrary]) = b).
  { intros body Hb. rewrite Hb. cbn. now rewrite andb_true_r. }
  apply E.
  do 4 apply lifo_bracket_when.
  apply lifo_enumerate_when, Hf.
Qed.

Section WithHistory.
Context {hp : AccountStore.HistoryPrimitives}.

Lemma lifo_history_events (os : sam_os) (evs : list AccountStore.event) :
  forall held rest,
    lifo held (flat_map (history_event os) evs ++ rest) = lifo held rest.
Proof.
  induction evs as [|e evs IH]; intros held rest; [reflexivity|].
  cbn [flat_map]. rewrite <- app_assoc.
  destruct e; cbn [history_event]; [destruct (can_append os)|]; cbn; apply IH.
Qed.

Lemma errors_history_events (os : sam_os) (name : string) (rid st : Z)
    (blob : list Z) :
  errors (flat_map (history_event os)
            (AccountStore.history_events name rid st blob)) = [].
Proof.
  unfold AccountStore.history_events.
  induction (AccountStore.history_slots st blob) as [|j js IH];
    [reflexivity|].
  cbn [flat_map]. rewrite flat_map_app, errors_app, IH, app_nil_r.
  unfold AccountStore.history_slot.
  destruct (AccountStore.SystemFunction025 _ _); [|reflexivity].
  destruct (AccountStore.SystemFunction027 _ _); [|reflexivity].
  cbn. destruct (can_append os); reflexivity.
Qed.

Lemma lifo_private_data (os : sam_os) (u : sam_user) :
  forall held rest,
    lifo held (private_data os u ++ [Release (User (Rid u))] ++ rest)
    = private_data_released os u
      && lifo held ([Release (User (Rid u))] ++ rest).
Proof.
  intros held rest. unfold private_data, private_data_released.
  destruct (SamIGetPrivateData os (Rid u)) as [st blob]. cbn [fst snd].
  rewrite (Z.ltb_antisym 0 st).
  destruct (0 <=? st); cbn [negb andb orb]; [|reflexivity].
  destruct blob as [|b blob].
  - reflexivity.
  - cbn [Nat.eqb List.length negb orb].
    destruct (60 <? Z.of_nat (S (List.length blob))).
    + cbn [app lifo]. rewrite <- !app_assoc, lifo_history_events.
      cbn [app lifo]. now rewrite resource_eqb_refl.
    + cbn [app lifo resource_eqb]. destruct held; reflexivity.
Qed.

Lemma lifo_history_user (os : sam_os) (u : sam_user) :
  forall held rest,
    lifo held (history_user os u ++ rest)
    = (negb (queried os u) || private_data_released os u) && lifo held rest.
Proof.
  intros held rest. unfold history_user, queried.
  destruct (0 <=? SamrOpenUser os (Rid u)); [|reflexivity].
  destruct (SamrQueryInformationUser os (Rid u)) as [st d]. cbn [fst snd].
  destruct (0 <=? st); cbn [andb negb orb].
  - cbn [app lifo]. rewrite <- !app_assoc, lifo_current_hash.
    cbn [app lifo]. rewrite resource_eqb_refl. cbn [andb].
    change (private_data os u ++ Release (User (Rid u)) :: rest)
      with (private_data os u ++ [Release (User (Rid u))] ++ rest).
    rewrite (lifo_private_data os u (User (Rid u) :: held) rest).
    cbn [app lifo]. now rewrite resource_eqb_refl.
  - cbn [app lifo]. now rewrite resource_eqb_refl.
Qed.

Lemma errors_history_user (os : sam_os) (u : sam_user) :
  errors (history_user os u) = [].
Proof.
  unfold history_user, current_hash, private_data.
  destruct (0 <=? SamrOpenUser os (Rid u)); [|reflexivity].
  destruct (SamrQueryInformationUser os (Rid u)) as [st d].
  destruct (0 <=? st); [|reflexivity].
  destruct (SamIGetPrivateData os (Rid u)) as [st2 blob].
  change (errors (Acquire ?a :: ?l)) with (errors l).
  rewrite errors_app.
  change (errors (Acquire ?a :: ?l)) with (errors l).
  rewrite !errors_app.
  assert (E1 : errors (if can_append os
     then [Line (AccountStore.hash_line (Name u) (Rid u) (firstn 32 d))]
     else []) = []) by (destruct (can_append os); reflexivity).
  rewrite E1.
  destruct ((0 <=? st2) && negb (Nat.eqb (List.length blob) 0));
    destruct ((0 <=? st2) && (60 <? Z.of_nat (List.length blob)));
    rewrite ?errors_app, ?errors_history_events; reflexivity.
Qed.

End WithHistory.

End AccountDumpOutput.

(** X13. The lines [DumpPWHashes] adds to PWHashes.txt are exactly one line
    per account that could be opened and queried, in the order of the
    enumeration and across all its pages (a page with status 0x105 is
    followed by another call), each line made of the name, the RID and the
    first 32 bytes returned for that account; nothing is written when one
    of the steps before the enumeration fails or the file cannot be
    opened. *)
Theorem X13_one_line_per_queried_account (os : AccountDump.sam_os) :
  AccountDump.lines (AccountDump.DumpPWHashes os) =
  if AccountDump.reaches_enumeration os && AccountDump.can_append os
  then map (fun u =>
              AccountStore.hash_line (AccountDump.Name u) (AccountDump.Rid u)
                (firstn 32 (snd (AccountDump.SamrQueryInformationUser os
                                   (AccountDump.Rid u)))))
           (filter (AccountDump.queried os)
              (AccountDump.all_users
                 (AccountDump.SamrEnumerateUsersInDomain os)))
  else [].
Proof.
  unfold AccountDump.DumpPWHashes. rewrite lines_dump_accounts.
  destruct (AccountDump.reaches_enumeration os); [|reflexivity].
  cbn [andb].
  destruct (AccountDump.can_append os) eqn:Ea.
  - rewrite <- flat_map_filter_map. apply flat_map_ext. intros u.
    rewrite lines_hashes_user, Ea. now rewrite andb_true_r.
  - induction (AccountDump.all_users _) as [|u us IH]; [reflexivity|].
    cbn [flat_map]. rewrite lines_hashes_user, Ea, andb_false_r. exact IH.
Qed.

(** X14. Both account routines write at most one line to the error log,
    and they write one exactly when a step before the enumeration fails
    (loading the functions, opening the policy, querying the domain,
    connecting to the SAM, opening the domain): a failed enumeration call,
    an account that cannot be opened or queried, a failed decode of a
    history slot and an output file that cannot be opened leave no trace. *)
Theorem X14_account_errors_only_before_enumeration
    (hp : AccountStore.HistoryPrimitives) (os : AccountDump.sam_os) :
  ((List.length (AccountDump.errors (AccountDump.DumpPWHashes os)) <= 1)%nat /\
   (AccountDump.errors (AccountDump.DumpPWHashes os) = []
    <-> AccountDump.reaches_enumeration os = true)) /\
  ((List.length (AccountDump.errors (AccountDump.DumpPWHistoryHashes os)) <= 1)%nat /\
   (AccountDump.errors (AccountDump.DumpPWHistoryHashes os) = []
    <-> AccountDump.reaches_enumeration os = true)).
Proof.
  split.
  - apply errors_dump_accounts, errors_hashes_user.
  - apply errors_dump_accounts. intros u. apply errors_history_user.
Qed.

(** X15. [DumpPWHistoryHashes] releases the private data of an account
    only inside the test [dwSize > 0x3c]: whatever the decode calls do, the
    routine gives back every handle and buffer it got from the LSA and
    SAM calls, in reverse order, exactly when
    every account it could open and query had no private data returned or
    more than 60 bytes of it; a buffer of 1 to 60 bytes is never handed to
    [LocalFree]. *)
Theorem X15_history_dump_private_buffer
    (hp : AccountStore.HistoryPrimitives) (os : AccountDump.sam_os) :
  AccountDump.lifo [] (AccountDump.DumpPWHistoryHashes os) =
  negb (AccountDump.reaches_enumeration os)
  || forallb (fun u => negb (AccountDump.queried os u)
                       || AccountDump.private_data_released os u)
       (AccountDump.all_users (AccountDump.SamrEnumerateUsersInDomain os)).
Proof.
  unfold AccountDump.DumpPWHistoryHashes.
  apply lifo_dump_accounts_when. intros u held rest.
  apply lifo_history_user.
Qed.

Example history_dump_keeps_short_buffer :
  AccountDump.lifo []
    (AccountDump.DumpPWHistoryHashes (hp := AccountStore.xor_decode)
       AccountDump.two_pages_os) = false /\
  AccountDump.lifo []
    (AccountDump.DumpPWHistoryHashes (hp := AccountStore.xor_decode)
       AccountDump.two_slots_os) = true /\
  List.length (AccountDump.lines
    (AccountDump.DumpPWHistoryHashes (hp := AccountStore.xor_decode)
       AccountDump.two_slots_os)) = 3%nat.
Proof. vm_compute. repeat split. Qed.

(* ===================================================================== *)
(** ** The option string                                                  *)
(* ===================================================================== *)

Section OptionFacts.

Import Options.

Lemma scan_argument_fold (l : list Z) (o : options) :
  fold_left scan_argument l o =
  {| bContinue :=
       bContinue o
       && forallb (fun c => (c =? 45) || (c =? 99) || (c =? 108)
                            || (c =? 112) || (c =? 104)) l;
     bDumpPWCache := bDumpPWCache o || existsb (Z.eqb 99) l;
     bDumpLSASecrets := bDumpLSASecrets o || existsb (Z.eqb 108) l;
     bDumpPWHashes := bDumpPWHashes o || existsb (Z.eqb 112) l;
     bDumpPWHistoryHashes := bDumpPWHistoryHashes o || existsb (Z.eqb 104) l |}.
Proof.
  revert o. induction l as [|c l IH]; intros o.
  - destruct o; cbn. now rewrite !andb_true_r, !orb_false_r.
  - cbn [fold_left]. rewrite IH. unfold scan_argument.
    cbn [bContinue bDumpPWCache bDumpLSASecrets bDumpPWHashes
         bDumpPWHistoryHashes forallb existsb].
    rewrite (Z.eqb_sym 99 c), (Z.eqb_sym 108 c), (Z.eqb_sym 112 c),
      (Z.eqb_sym 104 c).
    f_equal.
    + destruct (c =? 45), (c =? 99), (c =? 108), (c =? 112), (c =? 104),
        (bContinue o); reflexivity.
    + destruct (c =? 99), (bDumpPWCache o); reflexivity.
    + destruct (c =? 108), (bDumpLSASecrets o); reflexivity.
    + destruct (c =? 112), (bDumpPWHashes o); reflexivity.
    + destruct (c =? 104), (bDumpPWHistoryHashes o); reflexivity.
Qed.

Lemma existsb_strlwr (k : Z) (s : list Z) :
  97 <= k <= 122 ->
  (existsb (Z.eqb k) (strlwr s) = true <-> In k s \/ In (k - 32) s).
Proof.
  intros Hk. unfold strlwr. rewrite existsb_exists. split.
  - intros [x [Hin Hx]]. apply in_map_iff in Hin. destruct Hin as [c [Hc Hin]].
    apply Z.eqb_eq in Hx. subst x.
    destruct (Z.leb_spec 65 c), (Z.leb_spec c 90); cbn [andb] in Hx.
    + right. now replace (k - 32) with c by lia.
    + left. now subst.
    + left. now subst.
    + left. now subst.
  - intros [Hin | Hin].
    + exists k. split; [| apply Z.eqb_refl].
      apply in_map_iff. exists k. split; [| exact Hin].
      destruct (Z.leb_spec 65 k), (Z.leb_spec k 90); cbn [andb]; lia.
    + exists k. split; [| apply Z.eqb_refl].
      apply in_map_iff. exists (k - 32). split; [| exact Hin].
      destruct (Z.leb_spec 65 (k - 32)), (Z.leb_spec (k - 32) 90);
        cbn [andb]; lia.
Qed.

Lemma forallb_strlwr (s : list Z) :
  forallb (fun c => (c =? 45) || (c =? 99) || (c =? 108)
                    || (c =? 112) || (c =? 104)) (strlwr s) = true
  <-> Forall (fun c => In c (chars "-clphCLPH")) s.
Proof.
  unfold strlwr. rewrite forallb_forall, Forall_forall. split.
  - intros H c Hc.
    specialize (H _ (in_map _ _ _ Hc)). cbn beta in H.
    change (chars "-clphCLPH") with [45; 99; 108; 112; 104; 67; 76; 80; 72].
    cbn [In].
    rewrite !orb_true_iff, !Z.eqb_eq in H.
    destruct (Z.leb_spec 65 c), (Z.leb_spec c 90); cbn [andb] in H; lia.
  - intros H x Hx. apply in_map_iff in Hx. destruct Hx as [c [Hx Hc]].
    specialize (H _ Hc).
    change (chars "-clphCLPH") with [45; 99; 108; 112; 104; 67; 76; 80; 72]
      in H.
    cbn [In] in H. subst x.
    rewrite !orb_true_iff, !Z.eqb_eq.
    destruct (Z.leb_spec 65 c), (Z.leb_spec c 90); cbn [andb]; lia.
Qed.

End OptionFacts.

(** X16. With five arguments that fit their buffers, [main] goes on exactly
    when every character of the option string is one of [-clphCLPH] (the
    dash is optional and may stand anywhere, letters may repeat), and a
    category is selected exactly when its letter occurs in either case; an
    empty option string is accepted and selects nothing. *)
Theorem X16_option_letters (prog a t u p : list Z)
    (Hfit : Options.fits a && Options.fits t && Options.fits u
            && Options.fits p = true) :
  (Options.main_options [prog; a; t; u; p] <> Options.Usage
   <-> Forall (fun c => In c (Options.chars "-clphCLPH")) (cstr a))
  /\ (forall cache secrets hashes history,
        Options.main_options [prog; a; t; u; p]
        = Options.Run cache secrets hashes history ->
        (cache = true <-> In 99 (cstr a) \/ In 67 (cstr a))
        /\ (secrets = true <-> In 108 (cstr a) \/ In 76 (cstr a))
        /\ (hashes = true <-> In 112 (cstr a) \/ In 80 (cstr a))
        /\ (history = true <-> In 104 (cstr a) \/ In 72 (cstr a)))
  /\ Options.main_options [prog; []; t; u; p]
     = Options.Run false false false false.
Proof.
  assert (Hfit' : Options.fits [] && Options.fits t && Options.fits u
                  && Options.fits p = true).
  { apply andb_true_iff in Hfit. destruct Hfit as [Hfit Hp].
    apply andb_true_iff in Hfit. destruct Hfit as [Hfit Hu].
    apply andb_true_iff in Hfit. destruct Hfit as [_ Ht].
    now rewrite Ht, Hu, Hp. }
  unfold Options.main_options. rewrite Hfit, Hfit'.
  unfold Options.scan_arguments. rewrite !scan_argument_fold.
  cbn [Options.bContinue Options.bDumpPWCache Options.bDumpLSASecrets
       Options.bDumpPWHashes Options.bDumpPWHistoryHashes andb orb].
  split; [| split; [| reflexivity]].
  - rewrite <- forallb_strlwr.
    destruct (forallb _ (Options.strlwr (cstr a))).
    + split; [reflexivity | discriminate].
    + split; [intros H; now contradiction H | discriminate].
  - intros cache secrets hashes history.
    destruct (forallb _ (Options.strlwr (cstr a))); [| discriminate].
    intros E. injection E as <- <- <- <-.
    repeat split; try (apply existsb_strlwr; lia);
      try (intros H; apply (existsb_strlwr _ _ ltac:(lia)); exact H).
Qed.

Lemma X16_option_letters_witness :
  Options.main_options
    [Options.chars "PWDumpX"; Options.chars "Lp-"; Options.chars "host";
     Options.chars "+"; Options.chars "+"] <> Options.Usage
  <-> Forall (fun c => In c (Options.chars "-clphCLPH"))
        (cstr (Options.chars "Lp-")).
Proof.
  exact (proj1 (X16_option_letters (Options.chars "PWDumpX")
                  (Options.chars "Lp-") (Options.chars "host")
                  (Options.chars "+") (Options.chars "+") eq_refl)).
Defined.

Example options_in_any_order :
  Options.main_options
    [Options.chars "PWDumpX"; Options.chars "Lp-"; Options.chars "host";
     Options.chars "+"; Options.chars "+"]
  = Options.Run false true true false
  /\ Options.main_options
       [Options.chars "PWDumpX"; Options.chars "-x"; Options.chars "host";
        Options.chars "+"; Options.chars "+"] = Options.Usage
  /\ Options.main_options
       [Options.chars "PWDumpX"; Options.chars "host";
        Options.chars "+"; Options.chars "+"]
     = Options.Run false false true false.
Proof. vm_compute. repeat split. Qed.

(* ===================================================================== *)
(** ** The service: finding the process and preparing the injection      *)
(* ===================================================================== *)

Section ServiceFacts.

Import Service.

Lemma strupr_idempotent (s : list Z) :
  Options.strupr (Options.strupr s) = Options.strupr s.
Proof.
  unfold Options.strupr. rewrite map_map. apply map_ext. intros c.
  destruct ((97 <=? c) && (c <=? 122)) eqn:E.
  - apply andb_true_iff in E. rewrite !Z.leb_le in E.
    destruct (Z.leb_spec 97 (c - 32)); [exfalso; lia | reflexivity].
  - now rewrite E.
Qed.

Lemma scan_finds (ps : list process) :
  forall szProcessName,
    Options.strcmp_eq (Options.strupr szProcessName) LSASS_EXE = false ->
    fst (scan szProcessName ps) = option_map pid (find names_lsass ps)
    /\ handles_paired (snd (scan szProcessName ps)) = true
    /\ forallb (fun e => match e with
                         | EvOpenProcess _ | EvCloseHandle _ => true
                         | _ => false
                         end) (snd (scan szProcessName ps)) = true.
Proof.
  induction ps as [|p ps IH]; intros buf Hbuf; [now cbn |].
  cbn [scan find]. unfold names_lsass.
  destruct (pid p =? 0) eqn:E0; cbn [negb andb]; [now apply IH |].
  destruct (opens p); cbn [negb andb]; [| now apply IH].
  destruct (modules p); cbn [negb andb].
  - destruct (base_name p) as [name |].
    + destruct (Options.strcmp_eq (Options.strupr name) LSASS_EXE) eqn:En.
      * cbn. now rewrite Z.eqb_refl.
      * destruct (IH (Options.strupr name)) as [I1 [I2 I3]].
        { now rewrite strupr_idempotent. }
        destruct (scan (Options.strupr name) ps) as [r evs].
        cbn [fst snd handles_paired forallb] in *.
        now rewrite Z.eqb_refl, I1, I2, I3.
    + rewrite Hbuf.
      destruct (IH (Options.strupr buf)) as [I1 [I2 I3]].
      { now rewrite strupr_idempotent. }
      destruct (scan (Options.strupr buf) ps) as [r evs].
      cbn [fst snd handles_paired forallb] in *.
      now rewrite Z.eqb_refl, I1, I2, I3.
  - destruct (IH buf Hbuf) as [I1 [I2 I3]].
    destruct (scan buf ps) as [r evs].
    cbn [fst snd handles_paired forallb] in *.
    now rewrite Z.eqb_refl, I1, I2, I3.
Qed.

Lemma find_names_lsass (ps : list process) (id : Z) :
  option_map pid (find names_lsass ps) = Some id -> id <> 0.
Proof.
  destruct (find names_lsass ps) as [p |] eqn:E; [| discriminate].
  apply find_some in E. destruct E as [_ E]. unfold names_lsass in E.
  cbn. intros [= <-].
  destruct (pid p =? 0) eqn:E0; [discriminate |].
  now apply Z.eqb_neq.
Qed.

Lemma handles_paired_app (a b : list event) :
  handles_paired a = true -> handles_paired b = true ->
  handles_paired (a ++ b) = true.
Proof.
  intros Ha Hb. revert Ha.
  assert (G : forall n a, (List.length a <= n)%nat ->
                handles_paired a = true -> handles_paired (a ++ b) = true).
  { induction n as [| n IH]; intros l Hn.
    - destruct l; [intros _; exact Hb | cbn in Hn; lia].
    - destruct l as [| e l]; [intros _; exact Hb |].
      cbn [List.length] in Hn.
      destruct e; cbn [app handles_paired];
        try (intros Ha; apply IH; [lia | exact Ha]);
        try discriminate.
      destruct l as [| e' l]; [discriminate |].
      destruct e'; try discriminate.
      cbn [app List.length] in *. intros Ha.
      apply andb_true_iff in Ha. destruct Ha as [Hab Ha].
      rewrite Hab. apply IH; [lia | exact Ha]. }
  apply (G (List.length a)). lia.
Qed.

Lemma InjectDLL_errors (os : Injector.inject_os) (f d : Z) :
  let t := Injector.InjectDLL os f d in
  (List.length (filter Injector.is_error t) <= 1)%nat
  /\ (filter Injector.is_error t = []
      <-> In Injector.EvWaitForSingleObject t).
Proof.
  unfold Injector.InjectDLL.
  repeat match goal with
         | |- context [if ?c then _ else _] => destruct c
         end;
    cbn; (split; [lia |]);
    (split; [first [discriminate | intros _; tauto] |]);
    first [ intros _; reflexivity
          | intros H;
            repeat match goal with
                   | H : _ \/ _ |- _ => destruct H as [H | H]
                   end; try discriminate; try contradiction ].
Qed.

End ServiceFacts.

(** X17. Unless the uninitialised name buffer happens to hold LSASS.EXE,
    [GetLSASSPID] returns the ID of the first process of the list that has
    a non-zero ID, can be opened, lists its modules and whose name, read by
    the call, is LSASS.EXE without regard to case; a process whose name
    cannot be read is never taken for it although the buffer then still
    holds an earlier name.  The ID returned is never 0, and every process
    handle opened is closed before the next one is opened. *)
Theorem X17_first_process_named_lsass (os : Service.service_os)
    (Hbuf : Options.strcmp_eq (Options.strupr (Service.uninitialised os))
              Service.LSASS_EXE = false) :
  fst (Service.GetLSASSPID os)
  = (if Service.psapi_loaded os
     then match Service.EnumProcesses os with
          | Some dwProcessIDs =>
              option_map Service.pid (find Service.names_lsass dwProcessIDs)
          | None => None
          end
     else None)
  /\ (forall dwLSASSPID,
        fst (Service.GetLSASSPID os) = Some dwLSASSPID -> dwLSASSPID <> 0)
  /\ Service.handles_paired (snd (Service.GetLSASSPID os)) = true.
Proof.
  unfold Service.GetLSASSPID.
  destruct (Service.psapi_loaded os);
    [| split; [reflexivity | split; [discriminate | reflexivity]]].
  destruct (Service.EnumProcesses os) as [ps |];
    [| split; [reflexivity | split; [discriminate | reflexivity]]].
  destruct (scan_finds ps _ Hbuf) as [I1 [I2 I3]].
  destruct (Service.scan (Service.uninitialised os) ps) as [r evs].
  cbn [fst snd] in *. split; [exact I1 |]. split.
  - intros id E. rewrite I1 in E. now apply find_names_lsass in E.
  - apply handles_paired_app; [exact I2 | reflexivity].
Qed.

Lemma X17_first_process_named_lsass_witness :
  fst (Service.GetLSASSPID Service.sample_os) = Some 680.
Proof.
  exact (proj1 (X17_first_process_named_lsass Service.sample_os eq_refl)).
Defined.

Section DumpInformationFacts.

Import Service.

Lemma scan_events (ps : list process) :
  forall szProcessName,
    forallb (fun e => match e with
                      | EvOpenProcess _ | EvCloseHandle _ => true
                      | _ => false
                      end) (snd (scan szProcessName ps)) = true.
Proof.
  induction ps as [|p ps IH]; intros buf; [reflexivity |].
  cbn [scan].
  destruct (pid p =? 0); [apply IH |].
  destruct (opens p); cbn [negb]; [| apply IH].
  destruct (modules p); cbn [negb].
  - destruct (Options.strcmp_eq _ LSASS_EXE); [reflexivity |].
    match goal with
    | |- context [scan ?b ps] =>
        specialize (IH b); destruct (scan b ps) as [r evs]
    end.
    exact IH.
  - specialize (IH buf). destruct (scan buf ps) as [r evs]. exact IH.
Qed.

Lemma is_error_inject (l : list Injector.event) :
  filter is_error (map EvInject l) = map EvInject (filter Injector.is_error l).
Proof.
  induction l as [| e l IH]; [reflexivity |].
  cbn [map filter]. destruct e; cbn; now rewrite IH.
Qed.

Lemma in_inject (e : Injector.event) (l : list Injector.event) :
  In (EvInject e) (map EvInject l) <-> In e l.
Proof.
  rewrite in_map_iff. split.
  - intros [x [[= ->] Hx]]. exact Hx.
  - intros H. now exists e.
Qed.

Lemma DumpInformation_tail (os : service_os) (r : option Z)
    (pre : list event) :
  forallb (fun e => match e with
                    | EvOpenProcess _ | EvCloseHandle _ | EvFreeLibrary => true
                    | _ => false
                    end) pre = true ->
  let t :=
    pre ++
    match r with
    | Some dwLSASSPID =>
        if OpenProcessToken os then
          EvOpenToken ::
          (if LookupPrivilegeValue os then
             if AdjustTokenPrivileges os then
               EvEnablePrivilege ::
               map EvInject
                 (Injector.InjectDLL (lsass os) (LsaThreadFunction os)
                    (DummyFunction os))
               ++ [EvDisableAllPrivileges]
             else [EvErrorLog "ERROR! Cannot enable SE_DEBUG_NAME privilege on remote host.\n"]
           else [EvErrorLog "ERROR! Cannot lookup SE_DEBUG_NAME privilege value on remote host.\n"])
          ++ [EvCloseToken]
        else [EvErrorLog "ERROR! Cannot open PWDumpX process token on remote host.\n"]
    | None => [EvErrorLog "ERROR! Cannot get LSASS process ID on remote host.\n"]
    end in
  (List.length (filter is_error t) <= 1)%nat
  /\ (List.length (filter is_error t) = 0%nat
      <-> In (EvInject Injector.EvWaitForSingleObject) t)
  /\ (In EvOpenToken t <-> In EvCloseToken t)
  /\ (In EvEnablePrivilege t <-> In EvDisableAllPrivileges t).
Proof.
  intros Hpre.
  assert (Hq : forall e, In e pre ->
                 match e with
                 | EvOpenProcess _ | EvCloseHandle _ | EvFreeLibrary => true
                 | _ => false
                 end = true)
    by (apply forallb_forall; exact Hpre).
  assert (He : filter is_error pre = []).
  { clear Hq. induction pre as [| e pre IH]; [reflexivity |].
    cbn [forallb] in Hpre. apply andb_true_iff in Hpre.
    destruct Hpre as [H1 H2].
    destruct e; try discriminate; cbn; now apply IH. }
  assert (N1 : ~ In (EvInject Injector.EvWaitForSingleObject) pre)
    by (intros H; apply Hq in H; discriminate).
  assert (N2 : ~ In EvOpenToken pre) by (intros H; apply Hq in H; discriminate).
  assert (N3 : ~ In EvCloseToken pre) by (intros H; apply Hq in H; discriminate).
  assert (N4 : ~ In EvEnablePrivilege pre)
    by (intros H; apply Hq in H; discriminate).
  assert (N5 : ~ In EvDisableAllPrivileges pre)
    by (intros H; apply Hq in H; discriminate).
  pose proof (InjectDLL_errors (lsass os) (LsaThreadFunction os)
                (DummyFunction os)) as [J1 J2].
  cbv zeta.
  set (I := Injector.InjectDLL (lsass os) (LsaThreadFunction os)
              (DummyFunction os)) in *.
  destruct r as [id |];
    [destruct (OpenProcessToken os);
     [destruct (LookupPrivilegeValue os);
      [destruct (AdjustTokenPrivileges os) | ] | ] | ];
    rewrite filter_app, He; cbn [app filter is_error];
    rewrite ?filter_app, ?is_error_inject, ?length_app, ?length_map;
    cbn [filter is_error List.length app];
    rewrite ?in_app_iff; cbn [In]; rewrite ?in_app_iff; cbn [In];
    rewrite ?in_inject.
  all: rewrite ?Nat.add_0_r, ?length_zero_iff_nil, ?J2.
  all: assert (M : forall e, (forall x, EvInject x <> e) ->
                     ~ In e (map EvInject I))
         by (intros e Hne Hin; apply in_map_iff in Hin;
             destruct Hin as [x [Hx _]]; exact (Hne x Hx)).
  all: pose proof (M EvOpenToken ltac:(discriminate)) as M1.
  all: pose proof (M EvCloseToken ltac:(discriminate)) as M2.
  all: pose proof (M EvEnablePrivilege ltac:(discriminate)) as M3.
  all: pose proof (M EvDisableAllPrivileges ltac:(discriminate)) as M4.
  all: repeat split; try lia; try discriminate; intros;
       repeat match goal with
              | H : _ \/ _ |- _ => destruct H
              | H : False |- _ => contradiction
              end;
       try discriminate; try contradiction; try tauto.
Qed.

End DumpInformationFacts.

(** X18. [DumpInformation] accounts for every failure: it writes no error
    line exactly when the remote thread was started and waited for, two
    lines exactly when the Psapi functions cannot be loaded (the second
    one saying that the LSASS process ID cannot be got), and one line in
    every other case, whichever step of the search, of the privilege
    handling or of [InjectDLL] fails.  The process token is closed
    whenever it was opened, and the privileges are switched off again
    whenever the debug privilege was enabled, also when the injection
    fails. *)
Theorem X18_one_error_line_per_failure (os : Service.service_os) :
  let t := Service.DumpInformation os in
  let n := List.length (filter Service.is_error t) in
  (n <= 2)%nat
  /\ (n = 0%nat <-> In (Service.EvInject Injector.EvWaitForSingleObject) t)
  /\ (n = 2%nat <-> Service.psapi_loaded os = false)
  /\ (In Service.EvOpenToken t <-> In Service.EvCloseToken t)
  /\ (In Service.EvEnablePrivilege t
      <-> In Service.EvDisableAllPrivileges t).
Proof.
  unfold Service.DumpInformation, Service.GetLSASSPID.
  destruct (Service.psapi_loaded os).
  - assert (G : forall (r : option Z) pre,
      forallb (fun e => match e with
                        | Service.EvOpenProcess _ | Service.EvCloseHandle _
                        | Service.EvFreeLibrary => true
                        | _ => false
                        end) pre = true ->
      let t := pre ++
        match r with
        | Some dwLSASSPID =>
            if Service.OpenProcessToken os then
              Service.EvOpenToken ::
              (if Service.LookupPrivilegeValue os then
                 if Service.AdjustTokenPrivileges os then
                   Service.EvEnablePrivilege ::
                   map Service.EvInject
                     (Injector.InjectDLL (Service.lsass os)
                        (Service.LsaThreadFunction os)
                        (Service.DummyFunction os))
                   ++ [Service.EvDisableAllPrivileges]
                 else [Service.EvErrorLog "ERROR! Cannot enable SE_DEBUG_NAME privilege on remote host.\n"]
               else [Service.EvErrorLog "ERROR! Cannot lookup SE_DEBUG_NAME privilege value on remote host.\n"])
              ++ [Service.EvCloseToken]
            else [Service.EvErrorLog "ERROR! Cannot open PWDumpX process token on remote host.\n"]
        | None => [Service.EvErrorLog "ERROR! Cannot get LSASS process ID on remote host.\n"]
        end in
      let n := List.length (filter Service.is_error t) in
      (n <= 2)%nat
      /\ (n = 0%nat
          <-> In (Service.EvInject Injector.EvWaitForSingleObject) t)
      /\ (n = 2%nat <-> true = false)
      /\ (In Service.EvOpenToken t <-> In Service.EvCloseToken t)
      /\ (In Service.EvEnablePrivilege t
          <-> In Service.EvDisableAllPrivileges t)).
    { intros r pre Hpre.
      destruct (DumpInformation_tail os r pre Hpre) as [T1 [T2 [T3 T4]]].
      cbv zeta in *.
      split; [lia |]. split; [exact T2 |]. split; [| split; assumption].
      split; [lia | discriminate]. }
    destruct (Service.EnumProcesses os) as [ps |].
    + pose proof (scan_events ps (Service.uninitialised os)) as Hs.
      destruct (Service.scan (Service.uninitialised os) ps) as [r evs].
      cbn [snd] in Hs. apply G.
      rewrite forallb_app. cbn [forallb]. rewrite andb_true_r.
      rewrite forallb_forall in *. intros e He. specialize (Hs e He).
      destruct e; try discriminate; reflexivity.
    + apply (G None [Service.EvFreeLibrary]). reflexivity.
  - cbn. repeat split; try lia; try discriminate; intros;
      repeat match goal with
             | H : _ \/ _ |- _ => destruct H
             | H : False |- _ => contradiction
             end;
      try discriminate; try contradiction.
Qed.

Example service_finds_and_injects :
  List.length (filter Service.is_error
                 (Service.DumpInformation Service.sample_os)) = 0%nat.
Proof. reflexivity. Qed.

(* ===================================================================== *)
(** ** Secret handles                                                     *)
(* ===================================================================== *)

Section SecretHandles.

Import SecretStore.

Lemma filter_outputs (p : event -> bool) (l : list string) :
  (forall text, p (EvOutput text) = false) ->
  filter p (map EvOutput l) = [].
Proof.
  intros Hp. induction l as [| x l IH]; [reflexivity |].
  cbn [map filter]. now rewrite Hp.
Qed.

Lemma closes_DumpLSASecrets_query (os : lsa_os) (n : list Z) :
  filter (fun e => match e with EvClose => true | _ => false end)
    (DumpLSASecrets_query os n) = [EvClose].
Proof.
  unfold DumpLSASecrets_query.
  destruct (LsarQuerySecret os n) as [st data].
  cbn [filter]. rewrite filter_app.
  destruct (0 <=? st); [| reflexivity].
  cbn [filter]. destruct data as [p |]; [| reflexivity].
  rewrite filter_app, filter_outputs by reflexivity. reflexivity.
Qed.

Lemma closes_DumpLsa_query (os : lsa_os) (n : list Z) :
  filter (fun e => match e with EvClose => true | _ => false end)
    (DumpLsa_query os n) = [EvClose].
Proof.
  unfold DumpLsa_query.
  destruct (LsarQuerySecret os n) as [st data].
  cbn [filter]. rewrite filter_app.
  destruct (st <? 0); [reflexivity |].
  cbn [filter]. destruct data as [p |]; [| reflexivity].
  rewrite filter_outputs by reflexivity. reflexivity.
Qed.

Lemma queries_DumpLSASecrets_query (os : lsa_os) (n : list Z) :
  filter (fun e => match e with EvQuerySecret _ => true | _ => false end)
    (DumpLSASecrets_query os n) = [EvQuerySecret n].
Proof.
  unfold DumpLSASecrets_query.
  destruct (LsarQuerySecret os n) as [st data].
  cbn [filter]. rewrite filter_app.
  destruct (0 <=? st); [| reflexivity].
  cbn [filter]. destruct data as [p |]; [| reflexivity].
  rewrite filter_app, filter_outputs by reflexivity. reflexivity.
Qed.

Lemma queries_DumpLsa_query (os : lsa_os) (n : list Z) :
  filter (fun e => match e with EvQuerySecret _ => true | _ => false end)
    (DumpLsa_query os n) = [EvQuerySecret n].
Proof.
  unfold DumpLsa_query.
  destruct (LsarQuerySecret os n) as [st data].
  cbn [filter]. rewrite filter_app.
  destruct (st <? 0); [reflexivity |].
  cbn [filter]. destruct data as [p |]; [| reflexivity].
  rewrite filter_outputs by reflexivity. reflexivity.
Qed.

End SecretHandles.

(** X19. In both secret dumpers every secret that could be opened, at the
    first attempt or at the second, is queried exactly once and its handle
    is closed exactly once, whether or not the query succeeds and whatever
    it returns; a secret that could not be opened is neither queried nor
    closed. *)
Theorem X19_secret_handles_closed (os : SecretStore.lsa_os)
    (names : list (list Z)) :
  let opened := fun wszSecret =>
    let Length := SecretStore.wrap16 (SecretStore.wcslen wszSecret * 2) in
    (0 <=? SecretStore.LsarOpenSecret os wszSecret Length)
    || (0 <=? SecretStore.LsarOpenSecret os wszSecret
                (SecretStore.wrap16 (Length + 2))) in
  let closes := filter (fun e => match e with
                                 | SecretStore.EvClose => true
                                 | _ => false
                                 end) in
  let queries := filter (fun e => match e with
                                  | SecretStore.EvQuerySecret _ => true
                                  | _ => false
                                  end) in
  closes (SecretStore.DumpLSASecrets os names)
  = map (fun _ => SecretStore.EvClose) (filter opened names)
  /\ queries (SecretStore.DumpLSASecrets os names)
     = map SecretStore.EvQuerySecret (filter opened names)
  /\ closes (SecretStore.DumpLsa os names)
     = map (fun _ => SecretStore.EvClose) (filter opened names)
  /\ queries (SecretStore.DumpLsa os names)
     = map SecretStore.EvQuerySecret (filter opened names).
Proof.
  cbv zeta.
  unfold SecretStore.DumpLSASecrets, SecretStore.DumpLsa.
  induction names as [| n names [I1 [I2 [I3 I4]]]];
    [repeat split |].
  cbn [flat_map filter]. rewrite !filter_app, I1, I2, I3, I4.
  unfold SecretStore.DumpLSASecrets_name, SecretStore.DumpLsa_name.
  cbn [filter].
  rewrite !(Z.ltb_antisym 0).
  destruct (0 <=? SecretStore.LsarOpenSecret os n
                    (SecretStore.wrap16 (SecretStore.wcslen n * 2)));
    cbn [negb orb filter];
    [| destruct (0 <=? SecretStore.LsarOpenSecret os n _);
       cbn [negb orb filter]];
    rewrite ?closes_DumpLSASecrets_query, ?closes_DumpLsa_query,
      ?queries_DumpLSASecrets_query, ?queries_DumpLsa_query;
    repeat split.
Qed.

(* ===================================================================== *)
(** ** What a line of the hash file determines                            *)
(* ===================================================================== *)

Section FieldsDetermineData.

Import AccountStore.

Lemma fmt_02X_inj (a b : Z) :
  is_byte a -> is_byte b -> fmt_02X a = fmt_02X b -> a = b.
Proof.
  intros Ha Hb E. unfold fmt_02X in E. injection E as E1 E2.
  destruct (byte_nibbles a Ha) as [A1 A2].
  destruct (byte_nibbles b Hb) as [B1 B2].
  apply (f_equal hex_value) in E1, E2.
  rewrite !hex_value_digit in E1, E2 by assumption.
  injection E1 as E1. injection E2 as E2.
  rewrite (Z.div_mod a 16), (Z.div_mod b 16) by lia. now rewrite E1, E2.
Qed.

Lemma hex_of_bytes_inj (a : list Z) :
  forall b, is_bytes a -> is_bytes b ->
            hex_of_bytes a = hex_of_bytes b -> a = b.
Proof.
  unfold hex_of_bytes.
  induction a as [| x a IH]; intros [| y b] Ha Hb E; cbn [map] in E.
  - reflexivity.
  - rewrite concat_cons in E. discriminate E.
  - rewrite concat_cons in E. discriminate E.
  - rewrite !concat_cons in E. unfold fmt_02X in E. cbn [append] in E.
    injection E as E1 E2 E3.
    inversion Ha as [| ? ? Hx Ha']; subst.
    inversion Hb as [| ? ? Hy Hb']; subst.
    f_equal.
    + apply fmt_02X_inj; [assumption | assumption |].
      unfold fmt_02X. now rewrite E1, E2.
    + now apply IH.
Qed.

Lemma hex_of_bytes_not_sentinel (l : list Z) :
  is_bytes l -> hex_of_bytes l <> NO_PASSWORD.
Proof.
  intros Hl E. destruct l as [| x l]; [discriminate E |].
  unfold hex_of_bytes in E. cbn [map] in E. rewrite concat_cons in E.
  unfold fmt_02X in E. cbn [append] in E.
  injection E as E _.
  inversion Hl as [| ? ? Hx _]; subst.
  apply (f_equal hex_value) in E.
  rewrite hex_value_digit in E by (apply byte_nibbles; assumption).
  discriminate E.
Qed.

Lemma is_bytes_sub (l : list Z) (off len : nat) :
  is_bytes l -> is_bytes (sub l off len).
Proof.
  intros H. unfold sub. apply is_bytes_firstn, is_bytes_skipn, H.
Qed.

Lemma render_nt_inj (h1 h2 : list Z) :
  List.length h1 = 32%nat -> List.length h2 = 32%nat ->
  is_bytes h1 -> is_bytes h2 ->
  render_nt h1 = render_nt h2 -> sub h1 0 16 = sub h2 0 16.
Proof.
  intros L1 L2 B1 B2. unfold render_nt.
  pose proof (nt_words_iff h1 L1 B1) as W1.
  pose proof (nt_words_iff h2 L2 B2) as W2.
  destruct ((word_le h1 0 =? 0xe0cfd631) && _ && _ && _);
    destruct ((word_le h2 0 =? 0xe0cfd631) && _ && _ && _); intros E.
  - rewrite (proj1 W1 eq_refl), (proj1 W2 eq_refl). reflexivity.
  - symmetry in E. now apply hex_of_bytes_not_sentinel in E;
      [| apply is_bytes_sub].
  - now apply hex_of_bytes_not_sentinel in E; [| apply is_bytes_sub].
  - apply hex_of_bytes_inj in E; [exact E | |]; now apply is_bytes_sub.
Qed.

Lemma render_lm_inj (h1 h2 : list Z) :
  List.length h1 = 32%nat -> List.length h2 = 32%nat ->
  is_bytes h1 -> is_bytes h2 ->
  render_lm h1 = render_lm h2 -> sub h1 16 16 = sub h2 16 16.
Proof.
  intros L1 L2 B1 B2. unfold render_lm.
  pose proof (lm_words_iff h1 L1 B1) as W1.
  pose proof (lm_words_iff h2 L2 B2) as W2.
  destruct ((word_le h1 4 =? 0x35b4d3aa) && _ && _ && _);
    destruct ((word_le h2 4 =? 0x35b4d3aa) && _ && _ && _); intros E.
  - rewrite (proj1 W1 eq_refl), (proj1 W2 eq_refl). reflexivity.
  - symmetry in E. now apply hex_of_bytes_not_sentinel in E;
      [| apply is_bytes_sub].
  - now apply hex_of_bytes_not_sentinel in E; [| apply is_bytes_sub].
  - apply hex_of_bytes_inj in E; [exact E | |]; now apply is_bytes_sub.
Qed.

Lemma fmt_d_inj (a b : Z) :
  0 <= a < 2 ^ 32 -> 0 <= b < 2 ^ 32 -> fmt_d a = fmt_d b -> a = b.
Proof.
  intros Ha Hb. unfold fmt_d.
  set (sa := if a <? 2 ^ 31 then a else a - 2 ^ 32).
  set (sb := if b <? 2 ^ 31 then b else b - 2 ^ 32).
  intros H.
  assert (N : forall z, Z.to_int z <> Decimal.Pos Decimal.Nil
                        /\ Z.to_int z <> Decimal.Neg Decimal.Nil).
  { intros z. destruct z; cbn; split; try discriminate;
      intros [= E]; revert E; apply DecimalPos.Unsigned.to_uint_nonnil. }
  pose proof (NilZero.isi _ (proj1 (N sa)) (proj2 (N sa))) as Ea.
  pose proof (NilZero.isi _ (proj1 (N sb)) (proj2 (N sb))) as Eb.
  rewrite H, Eb in Ea. injection Ea as Ea.
  assert (Es : sa = sb).
  { rewrite <- (DecimalZ.of_to sa), <- (DecimalZ.of_to sb). now rewrite Ea. }
  subst sa sb.
  destruct (Z.ltb_spec a (2 ^ 31)), (Z.ltb_spec b (2 ^ 31)); lia.
Qed.

Lemma halves_of_32 (h : list Z) :
  List.length h = 32%nat -> h = sub h 0 16 ++ sub h 16 16.
Proof.
  intros L. unfold sub. cbn [skipn].
  rewrite <- (firstn_skipn 16 h) at 1. f_equal.
  symmetry. apply firstn_all2. rewrite length_skipn. lia.
Qed.

End FieldsDetermineData.

(** X20. The fields of a line of PWHashes.txt determine the data they
    were printed from: two RIDs that print alike with [%d] are equal (a RID
    of 2^31 or more prints as a negative number, and as no other RID
    does), and two 32-byte hash buffers whose LM and NT fields print alike
    are equal; in particular the NO PASSWORD text stands for the
    empty-password constant only. *)
Theorem X20_fields_determine_rid_and_hashes (rid1 rid2 : Z)
    (h1 h2 : list Z)
    (Hr1 : 0 <= rid1 < 2 ^ 32) (Hr2 : 0 <= rid2 < 2 ^ 32)
    (L1 : List.length h1 = 32%nat) (L2 : List.length h2 = 32%nat)
    (B1 : is_bytes h1) (B2 : is_bytes h2) :
  (AccountStore.fmt_d rid1 = AccountStore.fmt_d rid2 -> rid1 = rid2)
  /\ (AccountStore.render_lm h1 = AccountStore.render_lm h2 ->
      AccountStore.render_nt h1 = AccountStore.render_nt h2 -> h1 = h2)
  /\ (AccountStore.render_nt h1 = AccountStore.NO_PASSWORD
      <-> sub h1 0 16 = AccountStore.empty_nt_hash)
  /\ (AccountStore.render_lm h1 = AccountStore.NO_PASSWORD
      <-> sub h1 16 16 = AccountStore.empty_lm_hash).
Proof.
  split; [apply fmt_d_inj; assumption |].
  split.
  { intros Elm Ent.
    rewrite (halves_of_32 h1 L1), (halves_of_32 h2 L2).
    f_equal; [now apply render_nt_inj | now apply render_lm_inj]. }
  split.
  - unfold AccountStore.render_nt.
    pose proof (nt_words_iff h1 L1 B1) as W.
    destruct ((word_le h1 0 =? 0xe0cfd631) && _ && _ && _).
    + split; [intros _; now apply W | reflexivity].
    + split; [| intros E; apply W in E; discriminate E].
      intros E. now apply hex_of_bytes_not_sentinel in E;
        [| apply is_bytes_sub].
  - unfold AccountStore.render_lm.
    pose proof (lm_words_iff h1 L1 B1) as W.
    destruct ((word_le h1 4 =? 0x35b4d3aa) && _ && _ && _).
    + split; [intros _; now apply W | reflexivity].
    + split; [| intros E; apply W in E; discriminate E].
      intros E. now apply hex_of_bytes_not_sentinel in E;
        [| apply is_bytes_sub].
Qed.

Lemma X20_fields_determine_rid_and_hashes_witness :
  AccountStore.render_nt
    (AccountStore.empty_nt_hash ++ AccountStore.empty_lm_hash)
  = AccountStore.NO_PASSWORD
  <-> sub (AccountStore.empty_nt_hash ++ AccountStore.empty_lm_hash) 0 16
      = AccountStore.empty_nt_hash.
Proof.
  refine (proj1 (proj2 (proj2
    (X20_fields_determine_rid_and_hashes 500 (2 ^ 32 - 1)
       (AccountStore.empty_nt_hash ++ AccountStore.empty_lm_hash)
       (repeat 0 32) _ _ eq_refl eq_refl _ _)))).
  - split; [discriminate | reflexivity].
  - split; [discriminate | reflexivity].
  - apply is_bytes_forallb. reflexivity.
  - apply is_bytes_forallb. reflexivity.
Defined.

Example large_rid_prints_negative :
  AccountStore.fmt_d (2 ^ 32 - 1) = "-1"%string
  /\ AccountStore.fmt_d 500 = "500"%string.
Proof. split; reflexivity. Qed.

(** X21. When the history loop of [DumpPWHistoryHashes] runs, it visits
    slots 1 to at most 15, and the size test in front of it keeps both
    16-byte ciphertexts of slot 1 inside the private-data buffer; the test
    does not depend on the slot number, so it says nothing of the kind
    for the later slots. *)
Theorem X21_first_history_slot_in_bounds (nStatus : Z) (pHashData : list Z)
    (Hb : is_bytes pHashData)
    (Hs : AccountStore.history_slots nStatus pHashData <> []) :
  let dwOffset :=
    CacheDecoder.byte_at pHashData AccountStore.SAM_HISTORY_NTLM_OFFSET in
  (forall j, In j (AccountStore.history_slots nStatus pHashData) ->
             1 <= j <= 15)
  /\ (16 <= List.length (skipn (Z.to_nat (0x10 * 1 + 0x44)) pHashData))%nat
  /\ (16 <= List.length
              (skipn (Z.to_nat (0x10 * 1 + 0x44 + dwOffset)) pHashData))%nat.
Proof.
  cbv zeta. unfold AccountStore.history_slots in *.
  unfold AccountStore.SAM_HISTORY_NTLM_OFFSET,
    AccountStore.SAM_HISTORY_COUNT_OFFSET in *.
  pose proof (is_bytes_nth pHashData (Z.to_nat 0x3C) Hb) as Hoff.
  unfold is_byte in Hoff.
  fold (CacheDecoder.byte_at pHashData 0x3C) in Hoff.
  set (off := CacheDecoder.byte_at pHashData 0x3C) in *.
  destruct ((0 <=? nStatus) && (0x3c <? Z.of_nat (List.length pHashData)))
    eqn:E1; [| now contradiction Hs].
  destruct ((0 <? off / 16)
            && (off + 0x64 <? Z.of_nat (List.length pHashData))) eqn:E2;
    [| now contradiction Hs].
  apply andb_true_iff in E2. destruct E2 as [E2 E3].
  apply Z.ltb_lt in E2, E3.
  assert (Hq : off / 16 <= 15)
    by (apply Z.lt_succ_r, Z.div_lt_upper_bound; lia).
  split; [| split].
  - intros j Hj. apply in_map_iff in Hj. destruct Hj as [k [<- Hk]].
    apply in_seq in Hk. lia.
  - rewrite length_skipn. lia.
  - rewrite length_skipn. lia.
Qed.

Lemma X21_first_history_slot_in_bounds_witness :
  (16 <= List.length
           (skipn (Z.to_nat (0x10 * 1 + 0x44)) AccountStore.two_slot_blob))%nat.
Proof.
  refine (proj1 (proj2
    (X21_first_history_slot_in_bounds 0 AccountStore.two_slot_blob _ _))).
  - apply is_bytes_forallb. reflexivity.
  - vm_compute. discriminate.
Defined.

Example second_history_slot_past_the_end :
  AccountStore.history_slots 0 (repeat 0 60 ++ [32] ++ repeat 7 72) = [1; 2]
  /\ List.length
       (skipn (Z.to_nat (0x10 * 2 + 0x44 + 32))
          (repeat 0 60 ++ [32] ++ repeat 7 72)) = 1%nat.
Proof. split; reflexivity. Qed.

(* ===================================================================== *)
(** ** Formatting into a buffer                                           *)
(* ===================================================================== *)

Section SnprintfFacts.

Import Snprintf.

Lemma cstr_app_zero (s rest : list Z) :
  Forall (fun c => c <> 0) s -> cstr (s ++ 0 :: rest) = s.
Proof.
  induction s as [| c s IH]; intros H; [reflexivity |].
  inversion H as [| ? ? Hc Hs]; subst. cbn [app cstr].
  destruct (Z.eqb_spec c 0); [contradiction |]. now rewrite IH.
Qed.

Lemma store_length (buf data : list Z) :
  (List.length data <= List.length buf)%nat ->
  List.length (store buf data) = List.length buf.
Proof.
  intros H. unfold store. rewrite length_app, length_skipn. lia.
Qed.

Lemma skipn_store (buf data : list Z) (n : nat) :
  (List.length data <= n)%nat -> skipn n (store buf data) = skipn n buf.
Proof.
  intros H. unfold store. rewrite skipn_app.
  rewrite (skipn_all2 data) by exact H. cbn [app].
  rewrite skipn_skipn. f_equal. lia.
Qed.

Lemma Forall_firstn_nonzero (n : nat) (s : list Z) :
  Forall (fun c => c <> 0) s -> Forall (fun c => c <> 0) (firstn n s).
Proof.
  intros H. rewrite <- (firstn_skipn n s) in H.
  now apply Forall_app in H.
Qed.

Lemma skipn_after_prefix (a c : list Z) (x : Z) (n : nat) :
  List.length a = (n - 1)%nat -> (1 <= n)%nat ->
  skipn n (a ++ x :: c) = c.
Proof.
  intros La Hn. rewrite skipn_app, (skipn_all2 a) by lia.
  rewrite La. replace (n - (n - 1))%nat with 1%nat by lia. reflexivity.
Qed.

End SnprintfFacts.

(** X22. [my_snprintf] always leaves a terminated string: for a buffer of
    at least [len >= 1] bytes and a formatted text without NUL, the
    buffer then holds the first [len - 1] characters of the text (the whole
    text when it is shorter) followed by a terminator, the buffer keeps
    its size, and the bytes from [len] on are untouched. *)
Theorem X22_snprintf_terminates_the_string (buf text : list Z) (len : nat)
    (Hlen : (1 <= len <= List.length buf)%nat)
    (Htext : Forall (fun c => c <> 0) text) :
  cstr (Snprintf.my_snprintf buf len text) = firstn (len - 1) text
  /\ List.length (Snprintf.my_snprintf buf len text) = List.length buf
  /\ skipn len (Snprintf.my_snprintf buf len text) = skipn len buf.
Proof.
  unfold Snprintf.my_snprintf. cbv zeta.
  set (b := Snprintf._vsnprintf buf (len - 1) text).
  assert (Lb : List.length b = List.length buf).
  { unfold b, Snprintf._vsnprintf.
    destruct (Nat.ltb_spec (List.length text) (len - 1)).
    - apply store_length. rewrite length_app. cbn. lia.
    - apply store_length. rewrite length_firstn. lia. }
  assert (Sb : skipn len b = skipn len buf).
  { unfold b, Snprintf._vsnprintf.
    destruct (Nat.ltb_spec (List.length text) (len - 1)).
    - apply skipn_store. rewrite length_app. cbn. lia.
    - apply skipn_store. rewrite length_firstn. lia. }
  assert (Lf : List.length (firstn (len - 1) b) = (len - 1)%nat)
    by (rewrite length_firstn; lia).
  split; [| split].
  - unfold b, Snprintf._vsnprintf, Snprintf.store.
    destruct (Nat.ltb_spec (List.length text) (len - 1)) as [Hs | Hs].
    + rewrite firstn_app.
      rewrite (firstn_all2 (text ++ [0]))
        by (rewrite length_app; cbn; lia).
      rewrite (firstn_all2 text) by lia.
      rewrite <- !app_assoc. cbn [app]. now apply cstr_app_zero.
    + rewrite firstn_app, firstn_firstn, Nat.min_id.
      rewrite length_firstn.
      replace (len - 1 - Nat.min (len - 1) (List.length text))%nat
        with 0%nat by lia.
      cbn [firstn]. rewrite app_nil_r. cbn [app].
      apply cstr_app_zero, Forall_firstn_nonzero, Htext.
  - rewrite !length_app, Lf, length_skipn, Lb. cbn. lia.
  - cbn [app]. rewrite skipn_after_prefix by (exact Lf || lia). exact Sb.
Qed.

Lemma X22_snprintf_terminates_the_string_witness :
  cstr (Snprintf.my_snprintf (repeat 1 8) 4 [65; 66; 67; 68; 69])
  = firstn (4 - 1) [65; 66; 67; 68; 69].
Proof.
  refine (proj1 (X22_snprintf_terminates_the_string (repeat 1 8)
                   [65; 66; 67; 68; 69] 4 _ _)).
  - cbn. lia.
  - repeat constructor; discriminate.
Defined.
